(** * generate-aws-sdk/generate.py: a shallow embedding and its properties

    The script drives `smithy build` for a list of AWS service models: per
    unit it locates the model file, derives names from the service key,
    writes `smithy-build.json`, runs the build, scrapes the log on failure
    and removes the `build` directory; [main] fans the units out over a
    thread pool and prints a summary.

    Conventions of the embedding:
    - a Python [str] is a Rocq [string]; a character is a code point in
      U+0000..U+00FF;
    - the file system is a finite map from path names to nodes;
    - Python exceptions are values of [exn], and a computation is a state
      and error monad over the world (file system and terminal trace);
    - external programs and libraries (glob, the JSON parser, `smithy`,
      `ag`, the clock, the CPU count) are fields of an environment [Env]. *)

From Stdlib Require Import ZArith NArith Ascii String List Bool Lia.
From Stdlib Require Import Sorting.Permutation.
From stdpp Require Import gmap strings list fin_maps pretty.

Local Open Scope stdpp_scope.

(* ===================================================================== *)
(** * Strings *)
(* ===================================================================== *)

Module Str.

(** The code point of a character. *)
Definition code (c : ascii) : N := N_of_ascii c.

(** The regular-expression class [[A-Z]]. *)
Definition is_AZ (c : ascii) : bool :=
  (65 <=? code c)%N && (code c <=? 90)%N.

(** [str.lower()] on one code point below U+0100: the ASCII capitals and
    the Latin-1 capitals U+00C0..U+00DE (without the multiplication sign
    U+00D7) move up by 32; everything else is unchanged. *)
Definition lower_char (c : ascii) : ascii :=
  let n := code c in
  if ((65 <=? n)%N && (n <=? 90)%N)
     || ((192 <=? n)%N && (n <=? 222)%N && negb (n =? 215)%N)
  then ascii_of_N (n + 32) else c.

(** [str.lower()]. *)
Fixpoint lower (s : string) : string :=
  match s with
  | EmptyString => EmptyString
  | String c t => String (lower_char c) (lower t)
  end.

(** [all(p(c) for c in s)]. *)
Fixpoint all_chars (p : ascii -> bool) (s : string) : bool :=
  match s with
  | EmptyString => true
  | String c t => p c && all_chars p t
  end.

(** A character that [lower] leaves alone. *)
Definition lower_fixed (c : ascii) : bool :=
  if ascii_dec (lower_char c) c then true else false.

(** [s.startswith(p)]. *)
Fixpoint starts_with (p s : string) : bool :=
  match p, s with
  | EmptyString, _ => true
  | String _ _, EmptyString => false
  | String a p', String b s' =>
      if ascii_dec a b then starts_with p' s' else false
  end.

(** [p in s]: some suffix of [s] starts with [p]. *)
Fixpoint occurs (p s : string) : bool :=
  starts_with p s
  || match s with
     | EmptyString => false
     | String _ t => occurs p t
     end.

(** The scan of [str.replace(old, new)] for a non-empty [old]: left to
    right, at each position either the text starts with [old], and then
    [new] is emitted and the [length old] characters are skipped, or one
    character is copied. [skip] counts the characters of a match still to
    be dropped. *)
Fixpoint replace_from (old new : string) (skip : nat) (s : string) : string :=
  match s with
  | EmptyString => EmptyString
  | String c t =>
      match skip with
      | S k => replace_from old new k t
      | O =>
          if starts_with old s
          then new +:+ replace_from old new (String.length old - 1) t
          else String c (replace_from old new 0 t)
      end
  end.

(** [str.replace("", new)]: [new] before every character and at the end. *)
Fixpoint replace_empty (new s : string) : string :=
  match s with
  | EmptyString => new
  | String c t => new +:+ String c (replace_empty new t)
  end.

(** [s.replace(old, new)]. *)
Definition replace (old new s : string) : string :=
  match old with
  | EmptyString => replace_empty new s
  | String _ _ => replace_from old new 0 s
  end.

(** [s.split(sep)] for a one-character separator: the accumulator [cur]
    holds the current field reversed. *)
Fixpoint split_go (sep : ascii) (cur : string) (s : string) : list string :=
  match s with
  | EmptyString => [String.rev cur]
  | String c t =>
      if ascii_dec c sep
      then String.rev cur :: split_go sep EmptyString t
      else split_go sep (String c cur) t
  end.

Definition split (sep : ascii) (s : string) : list string :=
  split_go sep EmptyString s.

(** [l[0]] and [l[-1]] on the result of a split, which is never empty. *)
Definition first_field (l : list string) : string := hd EmptyString l.
Definition last_field (l : list string) : string := List.last l EmptyString.

(** [c in s]. *)
Fixpoint has_char (c : ascii) (s : string) : bool :=
  match s with
  | EmptyString => false
  | String d t => if ascii_dec d c then true else has_char c t
  end.

(** ** Overlaps of a search text and a replacement text *)

(** Laid over each other from their first characters on, [a] and [b]
    disagree somewhere on their common length. *)
Fixpoint clash (a b : string) : bool :=
  match a, b with
  | String x a', String y b' => if ascii_dec x y then clash a' b' else true
  | _, _ => false
  end.

(** [p] holds of every non-empty suffix of [s]. *)
Fixpoint all_suffixes (p : string -> bool) (s : string) : bool :=
  match s with
  | EmptyString => true
  | String _ t => p s && all_suffixes p t
  end.

Definition tail (s : string) : string :=
  match s with
  | EmptyString => EmptyString
  | String _ t => t
  end.

(** No occurrence of [q] can begin inside a copy of [new], and no copy of
    [new] can begin inside an occurrence of [q] after its first
    character. *)
Definition no_overlap (q new : string) : bool :=
  all_suffixes (fun r => clash q r) new
  && all_suffixes (fun q' => clash q' new) (tail q).

End Str.

(* ===================================================================== *)
(** * The Name Deriver: [snake_case] *)
(* ===================================================================== *)

(** [re.compile(r"(?<!^)(?=[A-Z])").sub("_", x)]: the pattern matches the
    empty string at every position [i] that is not the start of the text
    (the look-behind) and is followed by a character of [[A-Z]] (the
    look-ahead, which fails at the end of the text); every match is replaced
    by ["_"] and the characters in between are copied. [i] is the position
    of the head of [s] in the whole text. *)
Fixpoint sub_boundary (i : nat) (s : string) : string :=
  match s with
  | EmptyString => EmptyString
  | String c t =>
      let lookbehind := negb (Nat.eqb i 0) in
      let lookahead := Str.is_AZ c in
      if lookbehind && lookahead
      then String "_" (String c (sub_boundary (S i) t))
      else String c (sub_boundary (S i) t)
  end.

Definition snake_case (x : string) : string :=
  Str.replace "_d_b" "_db"
    (Str.replace "e_c2" "ec2"
       (Str.replace "a_w_s" "aws"
          (Str.lower (sub_boundary 0 x)))).

(** ** The deriver as the specification words it *)

(** An underscore before each uppercase letter. *)
Fixpoint underscore_before_capitals (s : string) : string :=
  match s with
  | EmptyString => EmptyString
  | String c t =>
      if Str.is_AZ c
      then String "_" (String c (underscore_before_capitals t))
      else String c (underscore_before_capitals t)
  end.

(** ... but none before a leading capital. *)
Definition insert_boundaries (s : string) : string :=
  match s with
  | EmptyString => EmptyString
  | String c t => String c (underscore_before_capitals t)
  end.

(** The correction table, in the order in which it is applied. *)
Definition corrections : list (string * string) :=
  [("a_w_s", "aws"); ("e_c2", "ec2"); ("_d_b", "_db")].

Definition apply_corrections (table : list (string * string)) (s : string) : string :=
  fold_left (fun acc rule => Str.replace (fst rule) (snd rule) acc) table s.

Definition derive_spec (x : string) : string :=
  apply_corrections corrections (Str.lower (insert_boundaries x)).

(* ===================================================================== *)
(** * JSON documents *)
(* ===================================================================== *)

(** A parsed document, as [json.load] returns it: a [dict] keeps its keys in
    the order of the text, so an object is a list of members. *)
#[warnings="-register-all"]
Inductive json : Type :=
| JNull
| JBool (b : bool)
| JNum (n : Z)
| JStr (s : string)
| JArr (items : list json)
| JObj (members : list (string * json)).

Module Json.

(** [d.get(k)] on the members of an object. *)
Fixpoint member (k : string) (l : list (string * json)) : option json :=
  match l with
  | [] => None
  | (k', v) :: l' => if String.eqb k k' then Some v else member k l'
  end.

(** Follow a path of keys through nested objects. *)
Fixpoint at_path (path : list string) (v : json) : option json :=
  match path with
  | [] => Some v
  | k :: rest =>
      match v with
      | JObj l => match member k l with
                  | Some v' => at_path rest v'
                  | None => None
                  end
      | _ => None
      end
  end.

Definition dquote : ascii := "034"%char.

Definition hex_digit (n : N) : ascii :=
  ascii_of_N (if (n <? 10)%N then 48 + n else 87 + n).

(** One character of a string literal, as [json.dumps] writes it with
    [ensure_ascii=True]: the quote, the backslash and the usual control
    characters by their short escapes, any other character outside
    [' '..'~'] as [\u00xx], the rest as it is. *)
Definition escape_char (c : ascii) : string :=
  let n := N_of_ascii c in
  if (n =? 34)%N then String "\" (String dquote EmptyString)
  else if (n =? 92)%N then String "\" (String "\" EmptyString)
  else if (n =? 8)%N then String "\" (String "b" EmptyString)
  else if (n =? 12)%N then String "\" (String "f" EmptyString)
  else if (n =? 10)%N then String "\" (String "n" EmptyString)
  else if (n =? 13)%N then String "\" (String "r" EmptyString)
  else if (n =? 9)%N then String "\" (String "t" EmptyString)
  else if ((32 <=? n)%N && (n <=? 126)%N) then String c EmptyString
  else String "\" (String "u" (String "0" (String "0"
         (String (hex_digit (n / 16)) (String (hex_digit (n mod 16)) EmptyString))))).

Fixpoint escape (s : string) : string :=
  match s with
  | EmptyString => EmptyString
  | String c t => escape_char c +:+ escape t
  end.

Definition quoted (s : string) : string :=
  String dquote (escape s +:+ String dquote EmptyString).

Fixpoint spaces (n : nat) : string :=
  match n with
  | O => EmptyString
  | S k => String " " (spaces k)
  end.

(** A line break followed by the indentation of nesting depth [level],
    two spaces a level. *)
Definition newline_indent (level : nat) : string :=
  String "010" (spaces (2 * level)).

(** [sep.join(parts)]. *)
Fixpoint join (sep : string) (parts : list string) : string :=
  match parts with
  | [] => EmptyString
  | [p] => p
  | p :: rest => p +:+ sep +:+ join sep rest
  end.

(** [json.dumps(v, indent=2)] at nesting depth [level]. *)
Fixpoint dumps_at (level : nat) (v : json) {struct v} : string :=
  match v with
  | JNull => "null"
  | JBool true => "true"
  | JBool false => "false"
  | JNum n => pretty n
  | JStr s => quoted s
  | JArr [] => "[]"
  | JArr items =>
      "[" +:+ newline_indent (S level)
      +:+ join ("," +:+ newline_indent (S level))
            (List.map (fun x => dumps_at (S level) x) items)
      +:+ newline_indent level +:+ "]"
  | JObj [] => "{}"
  | JObj members =>
      "{" +:+ newline_indent (S level)
      +:+ join ("," +:+ newline_indent (S level))
            (List.map (fun kv => quoted (fst kv) +:+ ": " +:+ dumps_at (S level) (snd kv))
               members)
      +:+ newline_indent level +:+ "}"
  end.

Definition dumps (v : json) : string := dumps_at 0 v.

End Json.


(* ===================================================================== *)
(** * Exceptions *)
(* ===================================================================== *)

(** The exceptions the script can meet. All but the last derive from
    [Exception]; [KeyboardInterrupt] derives from [BaseException] only. *)
Inductive exn : Type :=
| FileNotFoundError (path : string)
| IsADirectoryError (path : string)
| NotADirectoryError (path : string)
| FileExistsError (path : string)
| SameFileError (path : string)
| JSONDecodeError
| StopIteration
| ValueError (msg : string)
| AttributeError (msg : string)
| TypeError (msg : string)
| OSError (msg : string)
| UnicodeDecodeError
| KeyboardInterrupt.

(** [isinstance(e, Exception)]. *)
Definition is_Exception (e : exn) : bool :=
  match e with
  | KeyboardInterrupt => false
  | _ => true
  end.

Inductive result (A : Type) : Type :=
| Ok (a : A)
| Raise (e : exn).
Arguments Ok {A} a.
Arguments Raise {A} e.

(* ===================================================================== *)
(** * Path names *)
(* ===================================================================== *)

Module Path.

Definition slash : ascii := "/"%char.

Definition ends_with_slash (s : string) : bool :=
  match String.rev s with
  | String c _ => if ascii_dec c slash then true else false
  | EmptyString => false
  end.

(** [os.path.join(a, b)]. *)
Definition join (a b : string) : string :=
  if Str.starts_with "/" b then b
  else if String.eqb a "" || ends_with_slash a then a +:+ b
  else a +:+ "/" +:+ b.

(** Cut [s] after its last slash: the text up to and including that
    slash, and the text after it. [None] when there is no slash. *)
Fixpoint split_last (s : string) : option (string * string) :=
  match s with
  | EmptyString => None
  | String c t =>
      match split_last t with
      | Some (h, b) => Some (String c h, b)
      | None => if ascii_dec c slash then Some (String c EmptyString, t) else None
      end
  end.

(** [s.rstrip("/")]. *)
Fixpoint rstrip_slash (s : string) : string :=
  match s with
  | EmptyString => EmptyString
  | String c t =>
      match rstrip_slash t with
      | EmptyString => if ascii_dec c slash then EmptyString else String c EmptyString
      | t' => String c t'
      end
  end.

(** [os.path.dirname(p)] and [os.path.basename(p)]. *)
Definition dirname (p : string) : string :=
  match split_last p with
  | None => EmptyString
  | Some (h, _) =>
      match rstrip_slash h with
      | EmptyString => h
      | d => d
      end
  end.

Definition basename (p : string) : string :=
  match split_last p with
  | None => p
  | Some (_, b) => b
  end.

(** The directories [os.makedirs(p)] walks through: every prefix of [p]
    that ends just before a slash, shortest first, and [p] itself. *)
Fixpoint ancestors (p : string) : list string :=
  match p with
  | EmptyString => [EmptyString]
  | String c t =>
      let rest := List.map (String c) (ancestors t) in
      if ascii_dec c slash then EmptyString :: rest else rest
  end.

(** [k] lies in the tree rooted at [p]. *)
Definition in_tree (p k : string) : bool :=
  String.eqb k p || Str.starts_with (p +:+ "/") k.

(** A single path component: not empty and without a slash. *)
Definition is_name (s : string) : bool :=
  negb (String.eqb s "") && negb (Str.has_char slash s).

End Path.

(* ===================================================================== *)
(** * The file system *)
(* ===================================================================== *)

Inductive node : Type :=
| Dir
| File (content : string).

(** A file system maps the path names that exist to what is there. Names
    are compared as written: the script builds every name it uses from
    constants and the unit id. *)
Abbreviation FS := (gmap string node).

Module Fs.

Definition mkdir_exist_ok (target d : string) (fs : FS) : result FS :=
  if String.eqb d "" then Ok fs
  else match fs !! d with
       | Some Dir => Ok fs
       | Some (File _) =>
           Raise (if String.eqb d target
                  then FileExistsError target else NotADirectoryError target)
       | None => Ok (<[d := Dir]> fs)
       end.

Fixpoint mkdirs (target : string) (ds : list string) (fs : FS) : result FS :=
  match ds with
  | [] => Ok fs
  | d :: rest =>
      match mkdir_exist_ok target d fs with
      | Ok fs' => mkdirs target rest fs'
      | Raise e => Raise e
      end
  end.

(** [os.makedirs(p, exist_ok=True)]: missing directories on the way are
    created, existing ones accepted; a file in the way is an error. *)
Definition makedirs (p : string) (fs : FS) : result FS :=
  mkdirs p (Path.ancestors p) fs.

(** [open(p, "r").read()]. *)
Definition read (p : string) (fs : FS) : result string :=
  match fs !! p with
  | Some (File c) => Ok c
  | Some Dir => Raise (IsADirectoryError p)
  | None => Raise (FileNotFoundError p)
  end.

(** [open(p, "w")] followed by writing [content]: the name must not be a
    directory and the directory it lies in must exist. *)
Definition write (p content : string) (fs : FS) : result FS :=
  match fs !! p with
  | Some Dir => Raise (IsADirectoryError p)
  | _ =>
      let d := Path.dirname p in
      if String.eqb d "" then Ok (<[p := File content]> fs)
      else match fs !! d with
           | Some Dir => Ok (<[p := File content]> fs)
           | Some (File _) => Raise (NotADirectoryError p)
           | None => Raise (FileNotFoundError p)
           end
  end.

(** [shutil.copy(src, dst)]: into the directory [dst] under the base name
    of [src], or onto the file name [dst]. *)
Definition copy_target (src dst : string) (fs : FS) : string :=
  match fs !! dst with
  | Some Dir => Path.join dst (Path.basename src)
  | _ => dst
  end.

Definition copy (src dst : string) (fs : FS) : result FS :=
  let target := copy_target src dst fs in
  if String.eqb src target then Raise (SameFileError src)
  else match read src fs with
       | Ok c => write target c fs
       | Raise e => Raise e
       end.

(** [shutil.rmtree(p)]: the directory [p] and everything below it. *)
Definition rmtree (p : string) (fs : FS) : result FS :=
  match fs !! p with
  | Some Dir => Ok (filter (fun kv => Is_true (negb (Path.in_tree p (fst kv)))) fs)
  | Some (File _) => Raise (NotADirectoryError p)
  | None => Raise (FileNotFoundError p)
  end.

(** What an external program leaves behind when it writes the file [p]:
    the directories on the way are created where nothing is, and the file
    is written unless a directory has its name. *)
Definition mkdir_if_absent (fs : FS) (d : string) : FS :=
  match fs !! d with
  | None => if String.eqb d "" then fs else <[d := Dir]> fs
  | Some _ => fs
  end.

Definition put_file (fs : FS) (p content : string) : FS :=
  let fs' := fold_left mkdir_if_absent (Path.ancestors (Path.dirname p)) fs in
  match fs' !! p with
  | Some Dir => fs'
  | _ => <[p := File content]> fs'
  end.

Definition put_files (root : string) (l : list (string * string)) (fs : FS) : FS :=
  fold_left (fun acc nc => put_file acc (root +:+ "/" +:+ fst nc) (snd nc)) l fs.

End Fs.


(* ===================================================================== *)
(** * The world, the environment and the monad *)
(* ===================================================================== *)

(** The [result] dictionary of [generate] when it is printed. *)
Record UnitResult : Type := mkUnitResult {
  r_sdk_id : string;
  r_process : string;
  r_model : string;
  r_key : string;
  r_path : string;
  r_build : string;
  r_time : string
}.

(** What the run shows: the lines it prints, and the child processes it
    runs to completion. *)
Inductive event : Type :=
| Building (index total : nat) (sdk_id : string)
    (** [print(f"{index}/{total} - building: {sdk_id}")] *)
| NoJsonFiles (sdk_id : string)
    (** [print(f"No JSON files found for {sdk_id}")] *)
| Report (r : UnitResult)
    (** [print(json.dumps(result, indent=2))] *)
| GenerateFailed (sdk : string) (e : exn)
    (** [print(f"ERROR: Failed to generate {sdk}: {e}")] *)
| Summary (n_sdks : nat) (max_workers : Z) (cores : positive)
    (** the closing lines: number of SDKs, workers and cores, total time *)
| Spawned (command : string) (returncode : Z).
    (** a shell command run until it exits *)

Record World : Type := mkWorld {
  files : FS;
  trace : list event
}.

(** What `smithy build` does in a workspace: its exit status, what it
    writes to its output streams, and the files it leaves under [build/]
    and under the plugin's output directory. *)
Record ToolOutcome : Type := mkToolOutcome {
  returncode : Z;
  output : string;
  build_files : list (string * string);
  generated_files : list (string * string)
}.

(** How [subprocess.run(command, shell=True, capture_output=True,
    encoding="utf-8")] ends. *)
Inductive run_result : Type :=
| Exited (status : Z) (stdout stderr : string)
| NotStarted
    (** the child process could not be created: [OSError] *)
| NotText.
    (** what it printed is not UTF-8: [UnicodeDecodeError] *)

(** The collaborators the script relies on. *)
Record Env : Type := mkEnv {
  (** [glob.glob(f"{path}/**/*.json", recursive=True)], in the order of the
      platform *)
  glob_json : FS -> string -> list string;
  (** [json.load]; [None] when the text is no JSON document. The members of
      an object have distinct keys. *)
  json_loads : string -> option json;
  (** `smithy build` run by a shell in the workspace of the given name;
      [None] when the shell could not be created *)
  smithy_build : FS -> string -> option ToolOutcome;
  (** a shell command that only reads *)
  shell : FS -> string -> run_result;
  (** the text [f"{end_time - start_time:.2f} seconds"] for a unit *)
  elapsed : string -> string;
  (** [os.cpu_count()] *)
  cpu_count : option positive
}.

(** A computation changes the world and returns a value or raises; what it
    did before raising stays done. *)
Definition M (A : Type) : Type := World -> World * result A.

Definition ret {A : Type} (a : A) : M A := fun w => (w, Ok a).

Definition raise {A : Type} (e : exn) : M A := fun w => (w, Raise e).

Definition bind {A B : Type} (c : M A) (k : A -> M B) : M B :=
  fun w =>
    match c w with
    | (w', Ok a) => k a w'
    | (w', Raise e) => (w', Raise e)
    end.

Notation "'let*' x ':=' c 'in' k" := (bind c (fun x => k))
  (at level 10, x name, c at level 100, k at level 200).
Notation "'let*' ' p ':=' c 'in' k" := (bind c (fun x => match x with p => k end))
  (at level 10, p pattern, c at level 100, k at level 200).

(** [try: c] with the outcome handed to the caller. *)
Definition try_ {A : Type} (c : M A) : M (result A) :=
  fun w => match c w with (w', r) => (w', Ok r) end.

Definition lift {A : Type} (r : result A) : M A := fun w => (w, r).

Definition print (e : event) : M unit :=
  fun w => (mkWorld (files w) (trace w ++ [e]), Ok tt).

(** A file-system operation that may fail. *)
Definition fs_do (f : FS -> result FS) : M unit :=
  fun w =>
    match f (files w) with
    | Ok fs' => (mkWorld fs' (trace w), Ok tt)
    | Raise e => (w, Raise e)
    end.

(** A look at the file system. *)
Definition fs_get {A : Type} (f : FS -> A) : M A :=
  fun w => (w, Ok (f (files w))).

(** A look that may fail. *)
Definition fs_read {A : Type} (f : FS -> result A) : M A :=
  fun w => (w, f (files w)).

(* ===================================================================== *)
(** * The query [.shapes | to_entries[] | select(.value.type == "service") | .key] *)
(* ===================================================================== *)

Module Jq.

(** [.k]: a member of an object, [null] when it is missing or when the
    input is [null]; other inputs cannot be indexed. *)
Definition field (k : string) (v : json) : result json :=
  match v with
  | JObj l => Ok (default JNull (Json.member k l))
  | JNull => Ok JNull
  | _ => Raise (ValueError ("Cannot index with " +:+ k))
  end.

(** [to_entries[]]: the members of an object in their order, the items
    of an array under their indices. *)
Definition entries (v : json) : result (list (json * json)) :=
  match v with
  | JObj l => Ok (List.map (fun kv => (JStr (fst kv), snd kv)) l)
  | JArr l => Ok (imap (fun i x => (JNum (Z.of_nat i), x)) l)
  | _ => Raise (ValueError "has no keys")
  end.

Definition is_service (t : json) : bool :=
  match t with
  | JStr s => String.eqb s "service"
  | _ => false
  end.

(** [.first()] of [select(.value.type == "service") | .key] over the
    entries: the entries are tried in order; one whose value cannot be
    indexed ends the query with an error; [StopIteration] when none is
    selected. *)
Fixpoint first_service (es : list (json * json)) : result json :=
  match es with
  | [] => Raise StopIteration
  | (k, v) :: rest =>
      match field "type" v with
      | Raise e => Raise e
      | Ok t => if is_service t then Ok k else first_service rest
      end
  end.

Definition service_key (data : json) : result json :=
  match field "shapes" data with
  | Raise e => Raise e
  | Ok shapes =>
      match entries shapes with
      | Raise e => Raise e
      | Ok es => first_service es
      end
  end.

End Jq.

(* ===================================================================== *)
(** * [generate] *)
(* ===================================================================== *)

Definition INPUT_PATH : string := "api-models-aws-main/models".
Definition OUTPUT_PATH : string := "output".
Definition MODEL_DIRNAME : string := "model".
Definition GENERATED_DIRNAME : string := "generated".
Definition BUILD_DIRNAME : string := "build".

(** [key.split("#")[0].split(".")[-1]] *)
Definition model_name_of (key : string) : string :=
  Str.last_field (Str.split "." (Str.first_field (Str.split "#" key))).

Definition module_name_of (key : string) : string :=
  snake_case (model_name_of key).

Definition namespace_of (key : string) : string :=
  "aws." +:+ module_name_of key.

(** The document [build_json]. *)
Definition build_json (key : string) : json :=
  let model_name := model_name_of key in
  let module_name := snake_case model_name in
  let namespace := "aws." +:+ module_name in
  JObj [
    ("version", JStr "1.0");
    ("sources", JArr [JStr MODEL_DIRNAME]);
    ("maven", JObj [
       ("dependencies", JArr [
          JStr "software.amazon.smithy:smithy-aws-traits:1.64.0";
          JStr "software.amazon.smithy:smithy-aws-endpoints:1.64.0";
          JStr "software.amazon.smithy:smithy-aws-smoke-test-model:1.64.0";
          JStr "software.amazon.smithy:smithy-aws-iam-traits:1.64.0";
          JStr "io.smithy.unison:smithy-unison:0.1.0"]);
       ("repositories", JArr [
          JObj [("url", JStr "https://repo1.maven.org/maven2")];
          JObj [("url", JStr "file://${user.home}/.m2/repository")]])]);
    ("plugins", JObj [
       ("unison-codegen", JObj [
          ("service", JStr key);
          ("name", JStr model_name);
          ("namespace", JStr namespace);
          ("outputDir", JStr GENERATED_DIRNAME)])])].

(** The names of a unit's workspace. *)
Definition output_path_of (sdk_id : string) : string := OUTPUT_PATH +:+ "/" +:+ sdk_id.
Definition build_json_path_of (sdk_id : string) : string :=
  output_path_of sdk_id +:+ "/smithy-build.json".
Definition model_path_of (sdk_id : string) : string :=
  output_path_of sdk_id +:+ "/" +:+ MODEL_DIRNAME.
Definition build_path_of (sdk_id : string) : string :=
  output_path_of sdk_id +:+ "/" +:+ BUILD_DIRNAME.
Definition build_log_of (path : string) : string := path +:+ "/smithy-build.log".
Definition errors_path_of (path : string) : string := path +:+ "/errors.txt".

(** The workspace after `smithy build` ended: its files under [build/] and
    [generated/], and its output in the log. *)
Definition after_process (path : string) (process : ToolOutcome) (fs : FS) : FS :=
  <[build_log_of path := File (output process)]>
    (Fs.put_files (path +:+ "/" +:+ GENERATED_DIRNAME) (generated_files process)
       (Fs.put_files (path +:+ "/" +:+ BUILD_DIRNAME) (build_files process) fs)).

(** [build(path)]: the log is opened for writing, the shell runs
    [cd {path} && smithy build] with both streams on the log, and the
    call waits for it. *)
Definition build (env : Env) (index total : nat) (sdk_id path : string) : M (Z * string) :=
  let* _ := print (Building index total sdk_id) in
  let command := "cd " +:+ path +:+ " && smithy build" in
  let build_log := build_log_of path in
  let* _ := fs_do (Fs.write build_log "") in
  let* process := fs_read (fun fs => match smithy_build env fs path with
                                     | Some p => Ok p
                                     | None => Raise (OSError "cannot create the process")
                                     end) in
  let* _ := fs_do (fun fs => Ok (after_process path process fs)) in
  let* _ := print (Spawned command (returncode process)) in
  ret (returncode process, build_log).

(** [exec(command)]. *)
Definition exec (env : Env) (command : string) : M (Z * string * string) :=
  let* r := fs_read (fun fs => match shell env fs command with
                               | Exited status stdout stderr => Ok (status, stdout, stderr)
                               | NotStarted => Raise (OSError "cannot create the process")
                               | NotText => Raise UnicodeDecodeError
                               end) in
  let* _ := print (Spawned command (fst (fst r))) in
  ret r.

(** [f'ag "ERROR" -B 1 -A 12 --max-count 0 {build_log}'] *)
Definition ag_command (build_log : string) : string :=
  "ag " +:+ String Json.dquote ("ERROR" +:+ String Json.dquote
    (" -B 1 -A 12 --max-count 0 " +:+ build_log)).

(** [key.split] exists on a [str] only. *)
Definition as_str (v : json) : result string :=
  match v with
  | JStr s => Ok s
  | _ => Raise (AttributeError "object has no attribute 'split'")
  end.

Definition generate (env : Env) (sdk_id : string) (index total : nat) : M unit :=
  let path := Path.join INPUT_PATH sdk_id in
  let* json_files := fs_get (fun fs => glob_json env fs path) in
  match json_files with
  | [] => print (NoJsonFiles sdk_id)
  | source_path :: _ =>
      let* text := fs_read (Fs.read source_path) in
      let* data := lift (match json_loads env text with
                        | Some d => Ok d
                        | None => Raise JSONDecodeError
                        end) in
      let* key_value := lift (Jq.service_key data) in
      let* key := lift (as_str key_value) in
      let output_path := output_path_of sdk_id in
      let build_json_path := build_json_path_of sdk_id in
      let model_path := model_path_of sdk_id in
      let build_path := build_path_of sdk_id in
      let* _ := fs_do (Fs.makedirs output_path) in
      let* _ := fs_do (Fs.makedirs model_path) in
      let* _ := fs_do (Fs.makedirs build_path) in
      let* _ := fs_do (Fs.copy source_path model_path) in
      let* _ := fs_do (Fs.write build_json_path (Json.dumps (build_json key))) in
      let* '(build_result, build_log) := build env index total sdk_id output_path in
      let build_outcome := if (build_result =? 0)%Z then "success" else "failed" in
      let* _ := (if negb (build_result =? 0)%Z
                 then
                   let* '(_, out, _) := exec env (Json.join "|" [ag_command build_log]) in
                   fs_do (Fs.write (errors_path_of output_path) out)
                 else ret tt) in
      let* _ := fs_do (Fs.rmtree (output_path +:+ "/build")) in
      print (Report {| r_sdk_id := sdk_id;
                       r_process := pretty index +:+ "/" +:+ pretty total;
                       r_model := source_path;
                       r_key := key;
                       r_path := output_path;
                       r_build := build_outcome;
                       r_time := elapsed env sdk_id |})
  end.

(* ===================================================================== *)
(** * [main] *)
(* ===================================================================== *)

Definition sdks : list string := ["s3"; "dynamodb"; "ec2"].

Definition HARD_CAP : Z := 64.

(** [min(len(sdks), os.cpu_count() * 4, 64)] *)
Definition max_workers_of (n_sdks : nat) (cores : positive) : Z :=
  Z.min (Z.min (Z.of_nat n_sdks) (Z.pos cores * 4)) HARD_CAP.

(** The tasks in the order of their submission:
    [executor.submit(gen, sdk, i + 1)] for [i, sdk] in [enumerate(sdks)]. *)
Definition tasks_of (sdks : list string) : list (nat * string) :=
  imap (fun i sdk => (i + 1, sdk)) sdks.

(** Tasks that nobody asks for their outcome any more: they still run. *)
Fixpoint drain (env : Env) (total : nat) (rest : list (nat * string)) : M unit :=
  match rest with
  | [] => ret tt
  | (index, sdk) :: rest' =>
      let* _ := try_ (generate env sdk index total) in
      drain env total rest'
  end.

(** The pool and the loop over [as_completed]. The workers run up to
    [max_workers] pipelines at a time; each pipeline works in the
    directories of its own unit, so it is taken as one step, and
    [completion] lists the tasks in the order of these steps. An
    [Exception] of a task is printed by the loop; anything else leaves the
    loop, and the executor waits for the tasks left before [main] fails. *)
Fixpoint run_tasks (env : Env) (total : nat) (completion : list (nat * string)) : M unit :=
  match completion with
  | [] => ret tt
  | (index, sdk) :: rest =>
      let* r := try_ (generate env sdk index total) in
      match r with
      | Ok _ => run_tasks env total rest
      | Raise e =>
          if is_Exception e
          then let* _ := print (GenerateFailed sdk e) in run_tasks env total rest
          else let* _ := drain env total rest in raise e
      end
  end.

Definition main_on (env : Env) (sdks : list string) (completion : list (nat * string)) : M unit :=
  match cpu_count env with
  | None => raise (TypeError "unsupported operand type(s) for *: 'NoneType' and 'int'")
  | Some cores =>
      let max_workers := max_workers_of (List.length sdks) cores in
      if (max_workers <=? 0)%Z
      then raise (ValueError "max_workers must be greater than 0")
      else
        let total := List.length sdks in
        let* _ := run_tasks env total completion in
        print (Summary (List.length sdks) max_workers cores)
  end.

Definition main (env : Env) (completion : list (nat * string)) : M unit :=
  main_on env sdks completion.

(** ** Reading the trace *)

Inductive outcome : Type := Succeeded | Failed | Skipped | Errored.

(** The terminal report an event makes, if it is one. *)
Definition terminal_report (e : event) : option (string * outcome) :=
  match e with
  | Report r =>
      Some (r_sdk_id r, if String.eqb (r_build r) "success" then Succeeded else Failed)
  | NoJsonFiles sdk_id => Some (sdk_id, Skipped)
  | GenerateFailed sdk _ => Some (sdk, Errored)
  | _ => None
  end.

Definition terminal_reports (t : list event) : list (string * outcome) :=
  omap terminal_report t.

Definition is_summary (e : event) : bool :=
  match e with
  | Summary _ _ _ => true
  | _ => false
  end.

(** ** Dot-delimited segments *)

(** [seg] is what follows the last dot of [prefix], or all of [prefix] when
    it has no dot. *)
Definition last_segment_of (seg prefix : string) : Prop :=
  Str.has_char "." seg = false
  /\ (prefix = seg \/ exists a, prefix = a +:+ "." +:+ seg).

(* ===================================================================== *)
(** * A sample run *)
(* ===================================================================== *)

Module Sample.

Definition source : string :=
  "api-models-aws-main/models/s3/service/2006-03-01/s3-2006-03-01.json".

(** The model of the unit [s3], cut down to two shapes. *)
Definition doc : json :=
  JObj [("smithy", JStr "2.0");
        ("shapes", JObj [
           ("com.amazonaws.s3#Bucket", JObj [("type", JStr "structure")]);
           ("com.amazonaws.s3#AmazonS3", JObj [("type", JStr "service")])])].

(** `smithy build` leaving a projection and one generated file, and ending
    with the given status. *)
Definition tool (status : Z) : ToolOutcome :=
  {| returncode := status;
     output := if (status =? 0)%Z then "Smithy built 1 projection" else "ERROR: missing trait";
     build_files := [("smithy/source/build-info/smithy-build-info.json", "{}")];
     generated_files := [("aws/s3.u", "-- generated")] |}.

(** An environment with a model for [s3] only. The search of the log
    prints [found]. *)
Definition env (status : Z) (found : string) : Env :=
  {| glob_json := fun _ path =>
       if String.eqb path "api-models-aws-main/models/s3" then [source] else [];
     json_loads := fun text => if String.eqb text "S3" then Some doc else None;
     smithy_build := fun _ _ => Some (tool status);
     shell := fun _ _ => Exited (if String.eqb found "" then 1 else 0) found "";
     elapsed := fun _ => "0.42 seconds";
     cpu_count := Some 8%positive |}.

Definition world : World :=
  mkWorld {[ source := File "S3" ]} [].

(** The same tree with a model file that is no JSON text. *)
Definition world_bad_json : World :=
  mkWorld {[ source := File "{" ]} [].

(** An environment in which no child process can be created. *)
Definition env_no_process : Env :=
  {| glob_json := glob_json (env 0 "");
     json_loads := json_loads (env 0 "");
     smithy_build := fun _ _ => None;
     shell := fun _ _ => NotStarted;
     elapsed := elapsed (env 0 "");
     cpu_count := Some 8%positive |}.

(** An environment in which the build fails and the log holds bytes that
    are not UTF-8, so that the output of the search cannot be decoded. *)
Definition env_binary_log : Env :=
  {| glob_json := glob_json (env 2 "");
     json_loads := json_loads (env 2 "");
     smithy_build := smithy_build (env 2 "");
     shell := fun _ _ => NotText;
     elapsed := elapsed (env 2 "");
     cpu_count := Some 8%positive |}.

End Sample.

(** The worlds the sample runs end in. *)
Module SampleRuns.

(** [s3] built with status 0. *)
Definition after_success : World := fst (generate (Sample.env 0 "") "s3" 1 3 Sample.world).

(** [s3] built with status 2, the search of the log finding nothing. *)
Definition after_failure : World := fst (generate (Sample.env 2 "") "s3" 1 3 Sample.world).

(** [s3] again, in the world the first run left. *)
Definition after_second_run : World := fst (generate (Sample.env 0 "") "s3" 1 3 after_success).

(** [dynamodb] alone, with [s3] to come, in the tree with the bad model. *)
Definition after_dynamodb : World :=
  fst (run_tasks (Sample.env 0 "") 3 [(2, "dynamodb")] Sample.world_bad_json).

(** [s3] with the bad model, after [dynamodb]. *)
Definition after_bad_s3 : World :=
  fst (generate (Sample.env 0 "") "s3" 1 3 after_dynamodb).

End SampleRuns.

(* ===================================================================== *)
(** * Further notions *)
(* ===================================================================== *)

(** A character other than the dot. *)
Definition not_dot (c : ascii) : bool := if ascii_dec c "." then false else true.

(** The workspace of a unit is fresh: nothing has its name or a name below
    it, and [output] is no file. *)
Definition fresh_workspace (sdk_id : string) (fs : FS) : Prop :=
  (forall c, fs !! OUTPUT_PATH <> Some (File c))
  /\ (forall k, Path.in_tree (output_path_of sdk_id) k = true -> fs !! k = None).

(** No file has the name [output] or a name in the workspace of the unit. *)
Definition no_file_in_the_way (sdk_id : string) (fs : FS) : Prop :=
  forall k c, k = OUTPUT_PATH \/ Path.in_tree (output_path_of sdk_id) k = true ->
              fs !! k <> Some (File c).

(** What happens to a name between two states: it is left as it is, or
    the directory is made where nothing was. *)
Definition kept_or_made (k : string) (a b : FS) : Prop :=
  b !! k = a !! k \/ (a !! k = None /\ b !! k = Some Dir).

(** Two trees that agree outside the tree of [output]. *)
Definition same_outside_output (a b : FS) : Prop :=
  forall k, Path.in_tree OUTPUT_PATH k = false -> b !! k = a !! k.

(** The input of a unit is in order: there is no model file for it, or the
    first one found is read, is a JSON document and has a service key. *)
Definition model_ready (env : Env) (fs : FS) (sdk_id : string) : Prop :=
  glob_json env fs (Path.join INPUT_PATH sdk_id) = []
  \/ exists source_path others text data key,
      glob_json env fs (Path.join INPUT_PATH sdk_id) = source_path :: others
      /\ Fs.read source_path fs = Ok text
      /\ json_loads env text = Some data
      /\ Jq.service_key data = Ok (JStr key).

(** The line the loop of [main] prints for a task that raised. *)
Definition is_failure (e : event) : bool :=
  match e with
  | GenerateFailed _ _ => true
  | _ => false
  end.

(** A model without a service shape, and a tree holding it. *)
Module SampleMore.

Definition doc_no_service : json :=
  JObj [("smithy", JStr "2.0");
        ("shapes", JObj [
           ("com.amazonaws.s3#Bucket", JObj [("type", JStr "structure")]);
           ("com.amazonaws.s3#BucketName", JObj [("type", JStr "string")])])].

Definition env_no_service : Env :=
  {| glob_json := glob_json (Sample.env 0 "");
     json_loads := fun text => if String.eqb text "S3" then Some doc_no_service else None;
     smithy_build := smithy_build (Sample.env 0 "");
     shell := shell (Sample.env 0 "");
     elapsed := elapsed (Sample.env 0 "");
     cpu_count := Some 8%positive |}.

(** The sample tree with the workspace of another unit in it. *)
Definition world_with_ec2 : World :=
  mkWorld (<["output/ec2/smithy-build.json" := File "{}"]>
             (<["output/ec2" := Dir]> (<["output" := Dir]> (files Sample.world)))) [].

Definition after_s3_beside_ec2 : World :=
  fst (generate (Sample.env 0 "") "s3" 1 3 world_with_ec2).

End SampleMore.

(* ===================================================================== *)
(** * Properties of the string operations *)
(* ===================================================================== *)

Module StrFacts.
Import Str.

Lemma append_nil (s : string) : "" +:+ s = s.
Proof. reflexivity. Qed.

Lemma append_cons (c : ascii) (a b : string) :
  String c a +:+ b = String c (a +:+ b).
Proof. reflexivity. Qed.

Lemma starts_with_cons (a b : ascii) (p s : string) :
  starts_with (String a p) (String b s) = true <-> a = b /\ starts_with p s = true.
Proof.
  simpl. destruct (ascii_dec a b); intuition congruence.
Qed.

Lemma starts_with_refl_app (p s : string) : starts_with p (p +:+ s) = true.
Proof.
  induction p as [|c p IH]; [reflexivity|].
  rewrite append_cons. apply starts_with_cons. auto.
Qed.

Lemma all_chars_app (f : ascii -> bool) (a b : string) :
  all_chars f (a +:+ b) = all_chars f a && all_chars f b.
Proof.
  induction a as [|c a IH]; [reflexivity|].
  rewrite append_cons. simpl. rewrite IH. apply andb_assoc.
Qed.

(** A clash on the common length rules out a prefix, whatever follows. *)
Lemma clash_not_prefix (a b x : string) :
  clash a b = true -> starts_with a (b +:+ x) = false.
Proof.
  revert b. induction a as [|c a IH]; intros [|d b] H; simpl in H;
    try discriminate.
  rewrite append_cons. simpl. destruct (ascii_dec c d); auto.
Qed.

Section Replace.
Variables old new : string.

(** The three cases of one step of the scan. *)
Lemma replace_from_hit (c : ascii) (t : string) :
  starts_with old (String c t) = true ->
  replace_from old new 0 (String c t)
  = new +:+ replace_from old new (String.length old - 1) t.
Proof. intros H. simpl replace_from. simpl in H. rewrite H. reflexivity. Qed.

Lemma replace_from_miss (c : ascii) (t : string) :
  starts_with old (String c t) = false ->
  replace_from old new 0 (String c t) = String c (replace_from old new 0 t).
Proof. intros H. simpl replace_from. simpl in H. rewrite H. reflexivity. Qed.

(** A text that cannot start with [new] and that the output starts with
    was already at the start of the input. *)
Lemma starts_with_pull_back (q t : string) :
  all_suffixes (fun q' => clash q' new) q = true ->
  starts_with q (replace_from old new 0 t) = true ->
  starts_with q t = true.
Proof.
  revert t. induction q as [|d q IH]; intros t Hq H; [reflexivity|].
  cbn [all_suffixes] in Hq. apply andb_true_iff in Hq as [Hd Hq].
  destruct t as [|c t]; [simpl in H; discriminate|].
  destruct (starts_with old (String c t)) eqn:E.
  - rewrite (replace_from_hit _ _ E) in H.
    rewrite (clash_not_prefix _ _ _ Hd) in H. discriminate.
  - rewrite (replace_from_miss _ _ E) in H.
    apply starts_with_cons in H as [-> H].
    apply starts_with_cons. split; [reflexivity|]. apply IH; assumption.
Qed.

(** ... so a copied character does not begin a new occurrence. *)
Lemma head_not_recreated (q : string) (c : ascii) (t : string) :
  all_suffixes (fun q' => clash q' new) (tail q) = true ->
  starts_with q (String c t) = false ->
  starts_with q (String c (replace_from old new 0 t)) = false.
Proof.
  intros Htl Hhd. destruct q as [|d q]; [simpl in Hhd; discriminate|].
  destruct (starts_with (String d q) (String c (replace_from old new 0 t)))
    eqn:F; [|reflexivity].
  apply starts_with_cons in F as [-> F].
  apply (starts_with_pull_back _ _ Htl) in F.
  assert (starts_with (String c q) (String c t) = true) as G
    by (apply starts_with_cons; auto).
  rewrite G in Hhd. discriminate.
Qed.

(** Nothing new appears inside or across a copy of [new]. *)
Lemma occurs_new_app (q r y : string) :
  all_suffixes (fun r' => clash q r') r = true ->
  occurs q y = false -> occurs q (r +:+ y) = false.
Proof.
  induction r as [|c r IH]; intros Hr Hy; [exact Hy|].
  cbn [all_suffixes] in Hr. apply andb_true_iff in Hr as [Hc Hr].
  rewrite append_cons. simpl occurs. rewrite <- append_cons.
  rewrite (clash_not_prefix _ _ _ Hc). simpl. auto.
Qed.

Lemma occurs_tail (q : string) (c : ascii) (t : string) :
  occurs q (String c t) = false ->
  starts_with q (String c t) = false /\ occurs q t = false.
Proof. simpl occurs. intros H. apply orb_false_iff in H. exact H. Qed.

(** Replacing [old] by [new] creates no occurrence of a text [q] that
    does not overlap [new]. *)
Lemma replace_from_preserves_absent (q : string) :
  no_overlap q new = true ->
  forall (s : string) (k : nat),
    occurs q s = false -> occurs q (replace_from old new k s) = false.
Proof.
  intros Hov. apply andb_true_iff in Hov as [Hin Htl].
  induction s as [|c t IH]; intros k Hs.
  - destruct k; exact Hs.
  - destruct (occurs_tail _ _ _ Hs) as [Hhd Ht].
    destruct k as [|k]; [|simpl; auto].
    destruct (starts_with old (String c t)) eqn:E.
    + rewrite (replace_from_hit _ _ E). apply occurs_new_app; auto.
    + rewrite (replace_from_miss _ _ E). simpl occurs.
      apply orb_false_iff. split; [|auto].
      apply head_not_recreated; assumption.
Qed.

(** After the scan no occurrence of [old] is left, when [old] does not
    overlap [new]. *)
Lemma replace_from_removes :
  old <> "" -> no_overlap old new = true ->
  forall (s : string) (k : nat), occurs old (replace_from old new k s) = false.
Proof.
  intros Hne Hov. pose proof Hov as Hov'.
  apply andb_true_iff in Hov' as [Hin Htl].
  induction s as [|c t IH]; intros k.
  - assert (occurs old "" = false) as H0 by (destruct old; [congruence|reflexivity]).
    destruct k; exact H0.
  - destruct k as [|k]; [|simpl; auto].
    destruct (starts_with old (String c t)) eqn:E.
    + rewrite (replace_from_hit _ _ E). apply occurs_new_app; auto.
    + rewrite (replace_from_miss _ _ E). simpl occurs.
      apply orb_false_iff. split; [|auto].
      apply head_not_recreated; assumption.
Qed.

(** A text without an occurrence of [old] is copied. *)
Lemma replace_from_absent (s : string) :
  occurs old s = false -> replace_from old new 0 s = s.
Proof.
  induction s as [|c t IH]; intros Hs; [reflexivity|].
  destruct (occurs_tail _ _ _ Hs) as [Hhd Ht].
  rewrite (replace_from_miss _ _ Hhd). f_equal. auto.
Qed.

Lemma replace_from_all_chars (f : ascii -> bool) :
  all_chars f new = true ->
  forall (s : string) (k : nat),
    all_chars f s = true -> all_chars f (replace_from old new k s) = true.
Proof.
  intros Hnew. induction s as [|c t IH]; intros k Hs; [destruct k; exact Hs|].
  simpl in Hs. apply andb_true_iff in Hs as [Hc Ht].
  destruct k as [|k]; [|simpl; auto].
  destruct (starts_with old (String c t)) eqn:E.
  - rewrite (replace_from_hit _ _ E), all_chars_app, Hnew. simpl. auto.
  - rewrite (replace_from_miss _ _ E). simpl. rewrite Hc. simpl. auto.
Qed.
End Replace.

End StrFacts.

(* ===================================================================== *)
(** * The Name Deriver *)
(* ===================================================================== *)

Module NameDeriver.
Import Str StrFacts.

Lemma lower_char_fixed (c : ascii) : lower_fixed (lower_char c) = true.
Proof. destruct c as [[] [] [] [] [] [] [] []]; reflexivity. Qed.

Lemma lower_fixed_not_AZ (c : ascii) : lower_fixed c = true -> is_AZ c = false.
Proof. destruct c as [[] [] [] [] [] [] [] []]; intros H; try reflexivity; discriminate H. Qed.

Lemma lower_fixed_eq (c : ascii) : lower_fixed c = true -> lower_char c = c.
Proof. unfold lower_fixed. destruct (ascii_dec (lower_char c) c); [auto|discriminate]. Qed.

Lemma lower_all_fixed (s : string) : all_chars lower_fixed (lower s) = true.
Proof.
  induction s as [|c s IH]; [reflexivity|].
  simpl. rewrite lower_char_fixed. exact IH.
Qed.

Lemma lower_of_fixed (s : string) : all_chars lower_fixed s = true -> lower s = s.
Proof.
  induction s as [|c s IH]; [reflexivity|]. simpl.
  intros H. apply andb_true_iff in H as [Hc Hs].
  rewrite (lower_fixed_eq _ Hc), (IH Hs). reflexivity.
Qed.

Lemma sub_boundary_of_fixed (s : string) :
  all_chars lower_fixed s = true -> forall i, sub_boundary i s = s.
Proof.
  induction s as [|c s IH]; [reflexivity|]. simpl.
  intros H i. apply andb_true_iff in H as [Hc Hs].
  rewrite (lower_fixed_not_AZ _ Hc), andb_false_r, (IH Hs). reflexivity.
Qed.

(** Past the first position the look-behind always succeeds. *)
Lemma sub_boundary_succ (t : string) (i : nat) :
  sub_boundary (S i) t = underscore_before_capitals t.
Proof.
  revert i. induction t as [|c t IH]; intros i; [reflexivity|].
  simpl. rewrite IH. reflexivity.
Qed.

Lemma sub_boundary_spec (x : string) : sub_boundary 0 x = insert_boundaries x.
Proof. destruct x as [|c t]; [reflexivity|]. simpl. rewrite sub_boundary_succ. reflexivity. Qed.

Lemma snake_case_unfold (x : string) :
  snake_case x
  = replace_from "_d_b" "_db" 0
      (replace_from "e_c2" "ec2" 0
         (replace_from "a_w_s" "aws" 0 (lower (sub_boundary 0 x)))).
Proof. reflexivity. Qed.

(** The output is made of characters that [lower] fixes. *)
Lemma snake_case_fixed (x : string) : all_chars lower_fixed (snake_case x) = true.
Proof.
  rewrite snake_case_unfold.
  repeat (apply replace_from_all_chars; [reflexivity|]).
  apply lower_all_fixed.
Qed.

(** None of the three search texts occurs in the output. *)
Lemma snake_case_clean (x : string) :
  occurs "a_w_s" (snake_case x) = false
  /\ occurs "e_c2" (snake_case x) = false
  /\ occurs "_d_b" (snake_case x) = false.
Proof.
  rewrite snake_case_unfold. repeat split.
  - do 2 (apply replace_from_preserves_absent; [reflexivity|]).
    apply replace_from_removes; [discriminate|reflexivity].
  - apply replace_from_preserves_absent; [reflexivity|].
    apply replace_from_removes; [discriminate|reflexivity].
  - apply replace_from_removes; [discriminate|reflexivity].
Qed.

Lemma corrections_of_clean (y : string) :
  occurs "a_w_s" y = false -> occurs "e_c2" y = false -> occurs "_d_b" y = false ->
  apply_corrections corrections y = y.
Proof.
  intros H1 H2 H3. unfold apply_corrections, corrections. simpl fold_left.
  unfold replace.
  rewrite (replace_from_absent _ _ _ H1), (replace_from_absent _ _ _ H2).
  apply replace_from_absent, H3.
Qed.

(** C2. The Name Deriver is the function the specification describes: an
    underscore before every capital [A-Z] but a leading one, the text
    lowercased, then the corrections ["a_w_s" -> "aws"], ["e_c2" -> "ec2"],
    ["_d_b" -> "_db"] in that order. On ["DynamoDB"] it gives
    ["dynamo_db"] and on ["AWSLambda"] it gives ["aws_lambda"]; and no
    correction applies a second time: running the table over an output
    leaves it as it is. *)
Theorem snake_case_is_derive_spec :
  (forall x : string, snake_case x = derive_spec x)
  /\ snake_case "DynamoDB" = "dynamo_db"
  /\ snake_case "AWSLambda" = "aws_lambda"
  /\ (forall x : string, apply_corrections corrections (snake_case x) = snake_case x).
Proof.
  split; [|split; [reflexivity|split; [reflexivity|]]].
  - intros x. unfold derive_spec. rewrite <- sub_boundary_spec. reflexivity.
  - intros x. destruct (snake_case_clean x) as (H1 & H2 & H3).
    apply corrections_of_clean; assumption.
Qed.

(** C10. The Name Deriver is idempotent. *)
Theorem snake_case_idempotent (x : string) :
  snake_case (snake_case x) = snake_case x.
Proof.
  destruct (snake_case_clean x) as (H1 & H2 & H3).
  pose proof (snake_case_fixed x) as Hf.
  rewrite (snake_case_unfold (snake_case x)).
  rewrite (sub_boundary_of_fixed _ Hf), (lower_of_fixed _ Hf).
  rewrite (replace_from_absent _ _ _ H1), (replace_from_absent _ _ _ H2).
  apply replace_from_absent, H3.
Qed.

End NameDeriver.

(* ===================================================================== *)
(** * The names derived from a service key *)
(* ===================================================================== *)

Module KeyFacts.
Import Str StrFacts.

Lemma append_nil_r (s : string) : s +:+ "" = s.
Proof. induction s as [|c s IH]; [reflexivity|]. rewrite append_cons, IH. reflexivity. Qed.

Lemma rev_app_rev_app (x y z : string) :
  String.rev_app (String.rev_app x y) z = String.rev_app y (x +:+ z).
Proof.
  revert y z. induction x as [|c x IH]; intros y z; [reflexivity|].
  simpl. rewrite IH. reflexivity.
Qed.

Lemma rev_rev_app (x : string) : String.rev (String.rev_app x "") = x.
Proof. unfold String.rev. rewrite rev_app_rev_app. simpl. apply append_nil_r. Qed.

(** A text without the separator is one field. *)
Lemma split_go_no_sep (sep : ascii) (x cur : string) :
  has_char sep x = false ->
  split_go sep cur x = [String.rev (String.rev_app x cur)].
Proof.
  revert cur. induction x as [|c x IH]; intros cur H; [reflexivity|].
  simpl in *. destruct (ascii_dec c sep); [discriminate|]. apply IH, H.
Qed.

(** The first field ends at the first separator. *)
Lemma split_go_first (sep : ascii) (x rest cur : string) :
  has_char sep x = false ->
  split_go sep cur (x +:+ String sep rest)
  = String.rev (String.rev_app x cur) :: split_go sep "" rest.
Proof.
  revert cur. induction x as [|c x IH]; intros cur H.
  - simpl. destruct (ascii_dec sep sep); [reflexivity|congruence].
  - rewrite append_cons. simpl in *.
    destruct (ascii_dec c sep); [discriminate|]. apply IH, H.
Qed.

Lemma split_go_not_nil (sep : ascii) (s cur : string) : split_go sep cur s <> [].
Proof.
  revert cur. induction s as [|c s IH]; intros cur; simpl; [discriminate|].
  destruct (ascii_dec c sep); [discriminate|apply IH].
Qed.

Lemma last_cons_not_nil (x : string) (l : list string) (d : string) :
  l <> [] -> List.last (x :: l) d = List.last l d.
Proof. destruct l; [congruence|reflexivity]. Qed.

(** The last field starts after the last separator. *)
Lemma split_go_last (sep : ascii) (a seg cur : string) :
  has_char sep seg = false ->
  last_field (split_go sep cur (a +:+ String sep seg)) = seg.
Proof.
  intros H. unfold last_field. revert cur.
  induction a as [|c a IH]; intros cur.
  - rewrite (split_go_first sep "" seg cur eq_refl).
    rewrite (split_go_no_sep _ _ _ H). simpl. apply rev_rev_app.
  - rewrite append_cons. simpl. destruct (ascii_dec c sep).
    + rewrite last_cons_not_nil by apply split_go_not_nil. apply IH.
    + apply IH.
Qed.

Lemma first_field_split (sep : ascii) (x rest : string) :
  has_char sep x = false ->
  first_field (split sep (x +:+ String sep rest)) = x.
Proof.
  intros H. unfold split. rewrite (split_go_first _ _ _ _ H). simpl. apply rev_rev_app.
Qed.

Lemma last_field_split_whole (sep : ascii) (x : string) :
  has_char sep x = false -> last_field (split sep x) = x.
Proof.
  intros H. unfold split. rewrite (split_go_no_sep _ _ _ H). simpl. apply rev_rev_app.
Qed.

Lemma last_field_split (sep : ascii) (a seg : string) :
  has_char sep seg = false -> last_field (split sep (a +:+ String sep seg)) = seg.
Proof. apply split_go_last. Qed.

End KeyFacts.

Module Names.
Import Str StrFacts KeyFacts.

Lemma model_name_of_key (prefix suffix seg : string) :
  has_char "#" prefix = false -> last_segment_of seg prefix ->
  model_name_of (prefix +:+ "#" +:+ suffix) = seg.
Proof.
  intros Hp [Hseg Hlast]. unfold model_name_of.
  change (prefix +:+ "#" +:+ suffix) with (prefix +:+ String "#" suffix).
  rewrite (first_field_split _ _ _ Hp).
  destruct Hlast as [->|[a ->]].
  - apply last_field_split_whole, Hseg.
  - apply (last_field_split "." a seg Hseg).
Qed.

(** C3, as the code has it. The last dot-delimited segment of the part of
    the key before ["#"] is the model name, which the configuration carries
    as the plugin's [name]; the module name is the Name Deriver's output
    for that segment, and the namespace is ["aws."] followed by the module
    name, which the configuration carries as the plugin's [namespace]. For
    the key ["com.amazonaws.s3#AmazonS3"] the segment is ["s3"], the
    module name is ["s3"] and the namespace in the configuration is
    ["aws.s3"]. *)
Theorem names_of_service_key :
  (forall prefix suffix seg : string,
      has_char "#" prefix = false -> last_segment_of seg prefix ->
      model_name_of (prefix +:+ "#" +:+ suffix) = seg
      /\ module_name_of (prefix +:+ "#" +:+ suffix) = snake_case seg
      /\ namespace_of (prefix +:+ "#" +:+ suffix) = "aws." +:+ snake_case seg
      /\ Json.at_path ["plugins"; "unison-codegen"; "name"]
           (build_json (prefix +:+ "#" +:+ suffix)) = Some (JStr seg)
      /\ Json.at_path ["plugins"; "unison-codegen"; "namespace"]
           (build_json (prefix +:+ "#" +:+ suffix))
         = Some (JStr ("aws." +:+ snake_case seg)))
  /\ model_name_of "com.amazonaws.s3#AmazonS3" = "s3"
  /\ module_name_of "com.amazonaws.s3#AmazonS3" = "s3"
  /\ namespace_of "com.amazonaws.s3#AmazonS3" = "aws.s3"
  /\ Json.at_path ["plugins"; "unison-codegen"; "namespace"]
       (build_json "com.amazonaws.s3#AmazonS3") = Some (JStr "aws.s3").
Proof.
  split; [|repeat split; reflexivity].
  intros prefix suffix seg Hp Hlast.
  pose proof (model_name_of_key prefix suffix seg Hp Hlast) as Hm.
  unfold module_name_of, namespace_of, module_name_of.
  cbn [Json.at_path build_json Json.member String.eqb Ascii.eqb Bool.eqb].
  rewrite !Hm. repeat split; reflexivity.
Qed.

(** The general part of [names_of_service_key] at the key
    ["com.amazonaws.dynamodb#DynamoDB_20120810"]. *)
Lemma names_of_dynamodb_key :
  has_char "#" "com.amazonaws.dynamodb" = false
  /\ last_segment_of "dynamodb" "com.amazonaws.dynamodb"
  /\ model_name_of "com.amazonaws.dynamodb#DynamoDB_20120810" = "dynamodb"
  /\ namespace_of "com.amazonaws.dynamodb#DynamoDB_20120810" = "aws.dynamodb".
Proof.
  assert (last_segment_of "dynamodb" "com.amazonaws.dynamodb") as H
    by (split; [reflexivity|right; exists "com.amazonaws"; reflexivity]).
  split; [reflexivity|]. split; [exact H|].
  destruct (proj1 names_of_service_key
              "com.amazonaws.dynamodb" "DynamoDB_20120810" "dynamodb" eq_refl H)
    as (H1 & _ & H3 & _).
  split; [exact H1|exact H3].
Defined.

(** C3 as the specification words it fails: for the key
    ["com.amazonaws.DynamoDB#DynamoDB"] the last dot-delimited segment
    before ["#"] is ["DynamoDB"], and the module name is ["dynamo_db"]. *)
Lemma module_name_is_not_the_segment :
  has_char "#" "com.amazonaws.DynamoDB" = false
  /\ last_segment_of "DynamoDB" "com.amazonaws.DynamoDB"
  /\ model_name_of ("com.amazonaws.DynamoDB" +:+ "#" +:+ "DynamoDB") = "DynamoDB"
  /\ module_name_of ("com.amazonaws.DynamoDB" +:+ "#" +:+ "DynamoDB") = "dynamo_db"
  /\ module_name_of ("com.amazonaws.DynamoDB" +:+ "#" +:+ "DynamoDB") <> "DynamoDB".
Proof.
  split; [reflexivity|]. split.
  - split; [reflexivity|right; exists "com.amazonaws"; reflexivity].
  - split; [reflexivity|]. split; [reflexivity|]. vm_compute. discriminate.
Qed.

End Names.

(* ===================================================================== *)
(** * Path names and the file system *)
(* ===================================================================== *)

Module PathFacts.
Import Str StrFacts Path.

Lemma append_assoc (a b c : string) : (a +:+ b) +:+ c = a +:+ (b +:+ c).
Proof. induction a as [|x a IH]; [reflexivity|]. rewrite !append_cons, IH. reflexivity. Qed.

Lemma starts_with_app (a x y : string) :
  starts_with (a +:+ x) (a +:+ y) = starts_with x y.
Proof.
  induction a as [|c a IH]; [reflexivity|].
  rewrite !append_cons. simpl. destruct (ascii_dec c c); [exact IH|congruence].
Qed.

Lemma starts_with_refl (s : string) : starts_with s s = true.
Proof. induction s as [|c s IH]; [reflexivity|]. apply starts_with_cons. auto. Qed.

Lemma starts_with_trans (a b c : string) :
  starts_with a b = true -> starts_with b c = true -> starts_with a c = true.
Proof.
  revert b c. induction a as [|x a IH]; intros b c Hab Hbc; [reflexivity|].
  destruct b as [|y b]; [discriminate|]. destruct c as [|z c]; [discriminate|].
  apply starts_with_cons in Hab as [-> Hab]. apply starts_with_cons in Hbc as [-> Hbc].
  apply starts_with_cons. split; [reflexivity|]. eapply IH; eassumption.
Qed.

Lemma starts_with_app_r (a b : string) : starts_with a (a +:+ b) = true.
Proof. apply starts_with_refl_app. Qed.

(** A proper extension of [a] is no prefix of [a]. *)
Lemma starts_with_longer (a : string) (c : ascii) (x : string) :
  starts_with (a +:+ String c x) a = false.
Proof.
  induction a as [|d a IH]; [reflexivity|].
  rewrite append_cons. simpl. destruct (ascii_dec d d); [exact IH|congruence].
Qed.

Lemma eqb_app (a x y : string) : String.eqb (a +:+ x) (a +:+ y) = String.eqb x y.
Proof.
  induction a as [|c a IH]; [reflexivity|].
  rewrite !append_cons. simpl. rewrite Ascii.eqb_refl. exact IH.
Qed.

Lemma eqb_longer (a : string) (c : ascii) (x : string) :
  String.eqb (a +:+ String c x) a = false.
Proof.
  induction a as [|d a IH]; [reflexivity|].
  rewrite append_cons. simpl. rewrite Ascii.eqb_refl. exact IH.
Qed.

Lemma ancestors_prefix (p d : string) :
  In d (ancestors p) -> starts_with d p = true.
Proof.
  revert d. induction p as [|c t IH]; intros d Hd.
  - destruct Hd as [<-|[]]. reflexivity.
  - simpl in Hd.
    assert (d = "" \/ In d (List.map (String c) (ancestors t))) as [->|H]
      by (destruct (ascii_dec c slash); [destruct Hd; auto|auto]).
    + reflexivity.
    + apply in_map_iff in H as (d' & <- & H).
      apply starts_with_cons. auto.
Qed.

Lemma ancestors_snoc (p : string) : exists l, ancestors p = l ++ [p].
Proof.
  induction p as [|c t [l IH]].
  - exists []. reflexivity.
  - simpl. rewrite IH, map_app. simpl.
    destruct (ascii_dec c slash).
    + exists ("" :: List.map (String c) l). reflexivity.
    + exists (List.map (String c) l). reflexivity.
Qed.

Lemma split_last_app (p h b : string) : split_last p = Some (h, b) -> p = h +:+ b.
Proof.
  revert h b. induction p as [|c t IH]; intros h b H; [discriminate|].
  simpl in H. destruct (split_last t) as [[h' b']|].
  - injection H as <- <-. rewrite append_cons, <- (IH h' b' eq_refl). reflexivity.
  - destruct (ascii_dec c slash); [|discriminate]. injection H as <- <-. reflexivity.
Qed.

Lemma rstrip_slash_prefix (s : string) : starts_with (rstrip_slash s) s = true.
Proof.
  induction s as [|c t IH]; [reflexivity|]. simpl.
  destruct (rstrip_slash t) as [|d t'].
  - destruct (ascii_dec c slash); [reflexivity|]. apply starts_with_cons. auto.
  - apply starts_with_cons. auto.
Qed.

Lemma dirname_prefix (p : string) : starts_with (dirname p) p = true.
Proof.
  unfold dirname. destruct (split_last p) as [[h b]|] eqn:E; [|reflexivity].
  apply split_last_app in E. subst p.
  assert (starts_with (rstrip_slash h) (h +:+ b) = true) as H
    by (eapply starts_with_trans; [apply rstrip_slash_prefix|apply starts_with_app_r]).
  destruct (rstrip_slash h); [apply starts_with_app_r|exact H].
Qed.

End PathFacts.

Module FsFacts.
Import Str StrFacts Path PathFacts Fs.

Lemma mkdir_exist_ok_spec (target d : string) (fs fs' : FS) :
  mkdir_exist_ok target d fs = Ok fs' ->
  fs ⊆ fs'
  /\ (d <> "" -> fs' !! d = Some Dir)
  /\ (forall k, k <> d -> fs' !! k = fs !! k).
Proof.
  unfold mkdir_exist_ok. destruct (String.eqb_spec d "") as [->|Hd].
  - intros [= <-]. split; [reflexivity|]. split; [congruence|auto].
  - destruct (fs !! d) as [[|c]|] eqn:E; intros H; simplify_eq.
    + split; [reflexivity|]. auto.
    + split; [by apply insert_subseteq|]. split.
      * intros _. apply lookup_insert_eq.
      * intros k Hk. by apply lookup_insert_ne.
Qed.

Lemma mkdirs_spec (target : string) (ds : list string) (fs fs' : FS) :
  mkdirs target ds fs = Ok fs' ->
  fs ⊆ fs'
  /\ (forall d, In d ds -> d <> "" -> fs' !! d = Some Dir)
  /\ (forall k, ~ In k ds -> fs' !! k = fs !! k).
Proof.
  revert fs. induction ds as [|d ds IH]; intros fs H; simpl in H.
  - injection H as <-. split; [reflexivity|]. split; [intros d []|auto].
  - destruct (mkdir_exist_ok target d fs) as [fs1|] eqn:E; [|discriminate].
    apply mkdir_exist_ok_spec in E as (Hsub1 & Hd1 & Hoth1).
    apply IH in H as (Hsub & Hin & Hoth).
    split; [etrans; eassumption|]. split.
    + intros d' [<-|Hd'] Hne; [|auto].
      eapply lookup_weaken; [apply Hd1, Hne|exact Hsub].
    + intros k Hk. rewrite Hoth by (intros ?; apply Hk; right; assumption).
      apply Hoth1. intros ->. apply Hk. left. reflexivity.
Qed.

(** [makedirs] keeps what is there, makes its target a directory and
    touches only names that are prefixes of the target. *)
Lemma makedirs_spec (p : string) (fs fs' : FS) :
  makedirs p fs = Ok fs' ->
  fs ⊆ fs'
  /\ (p <> "" -> fs' !! p = Some Dir)
  /\ (forall k, starts_with k p = false -> fs' !! k = fs !! k).
Proof.
  unfold makedirs. intros H. apply mkdirs_spec in H as (Hsub & Hin & Hoth).
  split; [exact Hsub|]. split.
  - intros Hne. apply Hin; [|exact Hne].
    destruct (ancestors_snoc p) as [l ->]. apply in_or_app. right. left. reflexivity.
  - intros k Hk. apply Hoth. intros Hin'. apply ancestors_prefix in Hin'. congruence.
Qed.

Lemma write_spec (p c : string) (fs fs' : FS) :
  write p c fs = Ok fs' -> fs' = <[p := File c]> fs /\ fs !! p <> Some Dir.
Proof.
  unfold write. intros H.
  destruct (fs !! p) as [[|c0]|] eqn:E; [discriminate| |];
    (split; [|congruence]);
    (destruct (String.eqb (dirname p) ""); [congruence|]);
    destruct (fs !! dirname p) as [[|?]|]; congruence.
Qed.

(** A successful write leaves every directory in place. *)
Lemma write_keeps_dir (p c : string) (fs fs' : FS) (k : string) :
  write p c fs = Ok fs' -> fs !! k = Some Dir -> fs' !! k = Some Dir.
Proof.
  intros H Hk. apply write_spec in H as [-> Hp].
  rewrite lookup_insert_ne; [exact Hk|]. intros ->. contradiction.
Qed.

Lemma write_other (p c : string) (fs fs' : FS) (k : string) :
  write p c fs = Ok fs' -> k <> p -> fs' !! k = fs !! k.
Proof. intros H Hk. apply write_spec in H as [-> _]. by apply lookup_insert_ne. Qed.

Lemma write_at (p c : string) (fs fs' : FS) :
  write p c fs = Ok fs' -> fs' !! p = Some (File c).
Proof. intros H. apply write_spec in H as [-> _]. apply lookup_insert_eq. Qed.

Lemma copy_spec (src dst : string) (fs fs' : FS) :
  copy src dst fs = Ok fs' ->
  exists c, fs !! src = Some (File c)
            /\ write (copy_target src dst fs) c fs = Ok fs'.
Proof.
  unfold copy. cbv zeta.
  destruct (String.eqb src (copy_target src dst fs)); [discriminate|].
  unfold read. destruct (fs !! src) as [[|c]|]; try discriminate.
  intros H. exists c. auto.
Qed.

Lemma rmtree_spec (p : string) (fs fs' : FS) :
  rmtree p fs = Ok fs' ->
  fs !! p = Some Dir
  /\ forall k, fs' !! k = if in_tree p k then None else fs !! k.
Proof.
  unfold rmtree. destruct (fs !! p) as [[|c]|] eqn:E; try discriminate.
  intros [= <-]. split; [reflexivity|]. intros k.
  destruct (in_tree p k) eqn:Hk.
  - apply map_lookup_filter_None. right. intros x _. simpl. rewrite Hk. auto.
  - destruct (fs !! k) as [x|] eqn:Ek.
    + apply map_lookup_filter_Some. split; [exact Ek|]. simpl. rewrite Hk. exact I.
    + apply map_lookup_filter_None. left. exact Ek.
Qed.

Lemma in_tree_self (p : string) : in_tree p p = true.
Proof. unfold in_tree. rewrite String.eqb_refl. reflexivity. Qed.

(** ** What an external program leaves behind *)

Lemma mkdir_if_absent_old (fs : FS) (d k : string) (v : node) :
  fs !! k = Some v -> mkdir_if_absent fs d !! k = Some v.
Proof.
  unfold mkdir_if_absent. intros Hk.
  destruct (fs !! d) eqn:E; [exact Hk|].
  destruct (String.eqb d ""); [exact Hk|].
  rewrite lookup_insert_ne; [exact Hk|]. intros ->. congruence.
Qed.

Lemma mkdir_if_absent_other (fs : FS) (d k : string) :
  k <> d -> mkdir_if_absent fs d !! k = fs !! k.
Proof.
  unfold mkdir_if_absent. intros Hk.
  destruct (fs !! d) eqn:E; [reflexivity|].
  destruct (String.eqb d ""); [reflexivity|]. by apply lookup_insert_ne.
Qed.

Lemma mkdirs_if_absent_old (ds : list string) (fs : FS) (k : string) (v : node) :
  fs !! k = Some v -> fold_left mkdir_if_absent ds fs !! k = Some v.
Proof.
  revert fs. induction ds as [|d ds IH]; intros fs Hk; [exact Hk|].
  simpl. apply IH, mkdir_if_absent_old, Hk.
Qed.

Lemma mkdirs_if_absent_other (ds : list string) (fs : FS) (k : string) :
  ~ In k ds -> fold_left mkdir_if_absent ds fs !! k = fs !! k.
Proof.
  revert fs. induction ds as [|d ds IH]; intros fs Hk; [reflexivity|].
  simpl. rewrite IH by (intros ?; apply Hk; right; assumption).
  apply mkdir_if_absent_other. intros ->. apply Hk. left. reflexivity.
Qed.

Lemma put_file_keeps_dir (fs : FS) (p c k : string) :
  fs !! k = Some Dir -> put_file fs p c !! k = Some Dir.
Proof.
  intros Hk. unfold put_file.
  set (fs' := fold_left mkdir_if_absent (ancestors (dirname p)) fs).
  assert (fs' !! k = Some Dir) as Hk' by (apply mkdirs_if_absent_old, Hk).
  destruct (fs' !! p) as [[|c0]|] eqn:E; [exact Hk'| |];
    (rewrite lookup_insert_ne; [exact Hk'|]; intros ->; congruence).
Qed.

(** Only prefixes of the file name are touched. *)
Lemma put_file_other (fs : FS) (p c k : string) :
  starts_with k p = false -> put_file fs p c !! k = fs !! k.
Proof.
  intros Hk. unfold put_file.
  set (fs' := fold_left mkdir_if_absent (ancestors (dirname p)) fs).
  assert (fs' !! k = fs !! k) as Hk'.
  { apply mkdirs_if_absent_other. intros Hin. apply ancestors_prefix in Hin.
    pose proof (starts_with_trans _ _ _ Hin (dirname_prefix p)). congruence. }
  assert (k <> p) as Hne by (intros ->; rewrite starts_with_refl in Hk; discriminate).
  destruct (fs' !! p) as [[|c0]|]; [exact Hk'| |];
    (rewrite lookup_insert_ne; [exact Hk'|congruence]).
Qed.

Lemma put_files_keeps_dir (root : string) (l : list (string * string)) (fs : FS) (k : string) :
  fs !! k = Some Dir -> put_files root l fs !! k = Some Dir.
Proof.
  unfold put_files. revert fs. induction l as [|nc l IH]; intros fs Hk; [exact Hk|].
  simpl. apply IH, put_file_keeps_dir, Hk.
Qed.

Lemma put_files_other (root : string) (l : list (string * string)) (fs : FS) (k : string) :
  (forall name, starts_with k (root +:+ "/" +:+ name) = false) ->
  put_files root l fs !! k = fs !! k.
Proof.
  intros Hk. unfold put_files. revert fs.
  induction l as [|nc l IH]; intros fs; [reflexivity|].
  simpl. rewrite IH. apply put_file_other, Hk.
Qed.

End FsFacts.

(* ===================================================================== *)
(** * The paths of [generate] *)
(* ===================================================================== *)

Module GenerateFacts.
Import Str StrFacts Path PathFacts Fs FsFacts.

(** One step of the symbolic run of a computation in hypothesis [H]: the
    next operation whose outcome decides how the run goes on is split
    into its cases. *)
Ltac run_step H :=
  cbn [files trace fst snd negb] in H;
  match type of H with
  | context [match ?x with Some _ => _ | None => _ end] =>
      let E := fresh "E" in destruct x eqn:E
  | context [shell ?e ?fs ?c] =>
      let E := fresh "E" in destruct (shell e fs c) eqn:E
  | context [match ?x with Ok _ => _ | Raise _ => _ end] =>
      let E := fresh "E" in destruct x eqn:E
  | context [match ?x with [] => _ | _ :: _ => _ end] =>
      let E := fresh "E" in destruct x eqn:E
  | context [if (?x =? 0)%Z then _ else _] =>
      let E := fresh "E" in destruct (x =? 0)%Z eqn:E
  end.

Ltac run_all H :=
  unfold generate, build, exec, bind, fs_get, fs_do, fs_read, lift, print, ret in H;
  repeat run_step H;
  cbn [files trace fst snd negb] in H.

(** ** Every exception of a stage is an [Exception] *)

Lemma read_raises (p : string) (fs : FS) (e : exn) :
  read p fs = Raise e -> is_Exception e = true.
Proof. unfold read. destruct (fs !! p) as [[|c]|]; intros [= <-]; reflexivity. Qed.

Lemma write_raises (p c : string) (fs : FS) (e : exn) :
  write p c fs = Raise e -> is_Exception e = true.
Proof.
  unfold write.
  destruct (fs !! p) as [[|c0]|]; [intros [= <-]; reflexivity| |];
    (destruct (String.eqb (dirname p) ""); [discriminate|]);
    destruct (fs !! dirname p) as [[|?]|]; intros [= <-]; reflexivity.
Qed.

Lemma copy_raises (src dst : string) (fs : FS) (e : exn) :
  copy src dst fs = Raise e -> is_Exception e = true.
Proof.
  unfold copy. cbv zeta.
  destruct (String.eqb src (copy_target src dst fs)); [intros [= <-]; reflexivity|].
  destruct (read src fs) eqn:E; [apply write_raises|].
  intros [= <-]. eapply read_raises, E.
Qed.

Lemma mkdirs_raises (target : string) (ds : list string) (fs : FS) (e : exn) :
  mkdirs target ds fs = Raise e -> is_Exception e = true.
Proof.
  revert fs. induction ds as [|d ds IH]; intros fs; simpl; [discriminate|].
  destruct (mkdir_exist_ok target d fs) as [fs1|e1] eqn:E; [apply IH|].
  intros [= <-]. unfold mkdir_exist_ok in E.
  destruct (String.eqb d ""); [discriminate|].
  destruct (fs !! d) as [[|c]|]; try discriminate.
  injection E as <-. destruct (String.eqb d target); reflexivity.
Qed.

Lemma makedirs_raises (p : string) (fs : FS) (e : exn) :
  makedirs p fs = Raise e -> is_Exception e = true.
Proof. apply mkdirs_raises. Qed.

Lemma rmtree_raises (p : string) (fs : FS) (e : exn) :
  rmtree p fs = Raise e -> is_Exception e = true.
Proof. unfold rmtree. destruct (fs !! p) as [[|c]|]; intros [= <-]; reflexivity. Qed.

Lemma field_raises (k : string) (v : json) (e : exn) :
  Jq.field k v = Raise e -> is_Exception e = true.
Proof. destruct v; intros [= <-]; reflexivity. Qed.

Lemma first_service_raises (es : list (json * json)) (e : exn) :
  Jq.first_service es = Raise e -> is_Exception e = true.
Proof.
  induction es as [|[k v] es IH]; simpl; [intros [= <-]; reflexivity|].
  destruct (Jq.field "type" v) as [t|e1] eqn:E.
  - destruct (Jq.is_service t); [discriminate|exact IH].
  - intros [= <-]. eapply field_raises, E.
Qed.

Lemma service_key_raises (data : json) (e : exn) :
  Jq.service_key data = Raise e -> is_Exception e = true.
Proof.
  unfold Jq.service_key.
  destruct (Jq.field "shapes" data) as [shapes|e1] eqn:E1;
    [|intros [= <-]; eapply field_raises, E1].
  destruct (Jq.entries shapes) as [es|e2] eqn:E2; [apply first_service_raises|].
  intros [= <-]. destruct shapes; simpl in E2; try discriminate; injection E2 as <-; reflexivity.
Qed.

Lemma as_str_raises (v : json) (e : exn) :
  as_str v = Raise e -> is_Exception e = true.
Proof. destruct v; intros [= <-]; reflexivity. Qed.

Lemma as_str_Ok (v : json) (s : string) : as_str v = Ok s -> v = JStr s.
Proof. destruct v; intros [= <-]; reflexivity. Qed.

Create HintDb raises.
#[export] Hint Resolve read_raises write_raises copy_raises makedirs_raises
  rmtree_raises service_key_raises as_str_raises : raises.

(** ** The unit without a model file *)

Lemma generate_skip (env : Env) (sdk_id : string) (index total : nat) (w : World) :
  glob_json env (files w) (Path.join INPUT_PATH sdk_id) = [] ->
  generate env sdk_id index total w
  = (mkWorld (files w) (trace w ++ [NoJsonFiles sdk_id]), Ok tt).
Proof.
  intros H. unfold generate, bind, fs_get. rewrite H. reflexivity.
Qed.

(** ** What any run of [generate] prints *)

(** The events a run adds contain one terminal report when it returns and
    none when it raises, and never a summary; what it raises is an
    [Exception]. *)
Lemma generate_outcome (env : Env) (sdk_id : string) (index total : nat)
    (w w' : World) (r : result unit) :
  generate env sdk_id index total w = (w', r) ->
  exists new,
    trace w' = trace w ++ new
    /\ forallb (fun ev => negb (is_summary ev)) new = true
    /\ match r with
       | Ok _ => exists o, terminal_reports new = [(sdk_id, o)]
       | Raise e => terminal_reports new = [] /\ is_Exception e = true
       end.
Proof.
  intros H. run_all H.
  all: injection H as <- <-; cbn [files trace]; rewrite <- ?app_assoc.
  all: first [ eexists; split; [reflexivity|]
             | exists []; split; [symmetry; apply app_nil_r|] ].
  all: split; [reflexivity|].
  all: try (split; [reflexivity|]; eauto with raises; reflexivity).
  all: eexists; reflexivity.
Qed.

(** ** The run that finds a model file and comes to its end *)

Lemma generate_completed (env : Env) (sdk_id : string) (index total : nat)
    (w w' : World) (source_path : string) (others : list string) :
  glob_json env (files w) (Path.join INPUT_PATH sdk_id) = source_path :: others ->
  generate env sdk_id index total w = (w', Ok tt) ->
  exists (text : string) (data : json) (key : string) (process : ToolOutcome)
         (fs1 fs2 fs3 fs4 fs5 fs6 fs8 : FS) (mid : list event),
    read source_path (files w) = Ok text
    /\ json_loads env text = Some data
    /\ Jq.service_key data = Ok (JStr key)
    /\ makedirs (output_path_of sdk_id) (files w) = Ok fs1
    /\ makedirs (model_path_of sdk_id) fs1 = Ok fs2
    /\ makedirs (build_path_of sdk_id) fs2 = Ok fs3
    /\ copy source_path (model_path_of sdk_id) fs3 = Ok fs4
    /\ write (build_json_path_of sdk_id) (Json.dumps (build_json key)) fs4 = Ok fs5
    /\ write (build_log_of (output_path_of sdk_id)) "" fs5 = Ok fs6
    /\ smithy_build env fs6 (output_path_of sdk_id) = Some process
    /\ let fs7 := after_process (output_path_of sdk_id) process fs6 in
       let rc := returncode process in
       (if (rc =? 0)%Z then fs8 = fs7 /\ mid = []
        else exists status stdout stderr,
            shell env fs7 (ag_command (build_log_of (output_path_of sdk_id)))
            = Exited status stdout stderr
            /\ write (errors_path_of (output_path_of sdk_id)) stdout fs7 = Ok fs8
            /\ mid = [Spawned (ag_command (build_log_of (output_path_of sdk_id))) status])
       /\ rmtree (build_path_of sdk_id) fs8 = Ok (files w')
       /\ trace w'
          = trace w
            ++ [Building index total sdk_id;
                Spawned ("cd " +:+ output_path_of sdk_id +:+ " && smithy build") rc]
            ++ mid
            ++ [Report {| r_sdk_id := sdk_id;
                          r_process := pretty index +:+ "/" +:+ pretty total;
                          r_model := source_path;
                          r_key := key;
                          r_path := output_path_of sdk_id;
                          r_build := if (rc =? 0)%Z then "success" else "failed";
                          r_time := elapsed env sdk_id |}].
Proof.
  intros Hglob H. run_all H.
  all: try congruence.
  all: rewrite Hglob in *; simplify_eq.
  all: match goal with E : as_str _ = Ok _ |- _ => apply as_str_Ok in E; subst end.
  all: do 12 eexists; cbv zeta.
  all: cbn [files trace Json.join] in *.
  all: repeat (split; [first [eassumption | reflexivity]|]).
  all: match goal with E : (_ =? 0)%Z = _ |- _ => rewrite E end.
  - split; [split; reflexivity|]. split; [eassumption|].
    rewrite <- !app_assoc. reflexivity.
  - split; [do 3 eexists; split; [eassumption|]; split; [eassumption|reflexivity]|].
    split; [eassumption|]. rewrite <- !app_assoc. reflexivity.
Qed.

End GenerateFacts.

(* ===================================================================== *)
(** * The names of a workspace *)
(* ===================================================================== *)

Module WorkspaceFacts.
Import Str StrFacts Path PathFacts Fs FsFacts.

Lemma in_tree_app (p b k : string) : in_tree (p +:+ b) (p +:+ k) = in_tree b k.
Proof. unfold in_tree. rewrite append_assoc, eqb_app, starts_with_app. reflexivity. Qed.

Lemma neq_app (p x y : string) : String.eqb x y = false -> p +:+ x <> p +:+ y.
Proof. intros H E. apply (inj (String.app p)) in E. subst. rewrite String.eqb_refl in H. discriminate. Qed.

(** What follows the last slash has no slash. *)
Lemma split_last_no_slash (p : string) :
  match split_last p with
  | Some (_, b) => has_char slash b = false
  | None => has_char slash p = false
  end.
Proof.
  induction p as [|c t IH]; [reflexivity|]. simpl.
  destruct (split_last t) as [[h b]|]; [exact IH|].
  destruct (ascii_dec c slash); exact IH.
Qed.

Lemma basename_no_slash (p : string) : has_char slash (basename p) = false.
Proof.
  unfold basename. pose proof (split_last_no_slash p) as H.
  destruct (split_last p) as [[h b]|]; exact H.
Qed.

Lemma join_prefix (a b : string) :
  has_char slash b = false -> starts_with a (join a b) = true.
Proof.
  intros Hb. unfold join.
  assert (starts_with "/" b = false) as ->.
  { destruct (starts_with "/" b) eqn:E; [|reflexivity].
    destruct b as [|c b]; [discriminate|].
    apply (starts_with_cons "/" c "" b) in E as [<- _]. discriminate Hb. }
  destruct (String.eqb a "" || ends_with_slash a); apply starts_with_app_r.
Qed.

(** [copy] writes to its destination or below it. *)
Lemma copy_target_under (src dst : string) (fs : FS) :
  starts_with dst (copy_target src dst fs) = true.
Proof.
  unfold copy_target.
  destruct (fs !! dst) as [[|c]|]; try apply starts_with_refl.
  apply join_prefix, basename_no_slash.
Qed.

Section Workspace.
Variable P : string.

(** `smithy build` leaves a name alone that is not the log and that cannot be
    on the way to a file under [generated/] or [build/]. *)
Lemma after_process_other (x : string) (process : ToolOutcome) (fs : FS) :
  String.eqb x "/smithy-build.log" = false ->
  clash x "/generated/" = true ->
  clash x "/build/" = true ->
  after_process P process fs !! (P +:+ x) = fs !! (P +:+ x).
Proof.
  intros Hlog Hgen Hbuild. unfold after_process, build_log_of.
  rewrite lookup_insert_ne by (apply neq_app; rewrite String.eqb_sym; exact Hlog).
  rewrite put_files_other.
  - apply put_files_other. intros name.
    rewrite append_assoc, starts_with_app.
    apply (clash_not_prefix x "/build/" name Hbuild).
  - intros name. rewrite append_assoc, starts_with_app.
    apply (clash_not_prefix x "/generated/" name Hgen).
Qed.

(** From the written configuration to the end of the run. *)
Lemma late_stages_other (env : Env) (fs5 fs6 fs8 fsw : FS) (process : ToolOutcome)
    (mid : list event) (x : string) :
  write (build_log_of P) "" fs5 = Ok fs6 ->
  (if (returncode process =? 0)%Z
   then fs8 = after_process P process fs6 /\ mid = []
   else exists status stdout stderr,
       shell env (after_process P process fs6) (ag_command (build_log_of P))
       = Exited status stdout stderr
       /\ write (errors_path_of P) stdout (after_process P process fs6) = Ok fs8
       /\ mid = [Spawned (ag_command (build_log_of P)) status]) ->
  rmtree (P +:+ "/" +:+ BUILD_DIRNAME) fs8 = Ok fsw ->
  String.eqb x "/smithy-build.log" = false ->
  clash x "/generated/" = true ->
  clash x "/build/" = true ->
  in_tree "/build" x = false ->
  String.eqb x "/errors.txt" = false \/ returncode process = 0%Z ->
  fsw !! (P +:+ x) = fs5 !! (P +:+ x).
Proof.
  intros Hlog Hmid Hrm Hxlog Hgen Hbuild Htree Herr.
  apply rmtree_spec in Hrm as [_ Hrm]. rewrite Hrm.
  change (P +:+ "/" +:+ BUILD_DIRNAME) with (P +:+ "/build").
  rewrite in_tree_app, Htree.
  assert (fs8 !! (P +:+ x) = after_process P process fs6 !! (P +:+ x)) as ->.
  { destruct (returncode process =? 0)%Z eqn:E.
    - destruct Hmid as [-> _]. reflexivity.
    - destruct Hmid as (status & stdout & stderr & _ & Hw & _).
      destruct Herr as [Herr|Herr]; [|rewrite Herr in E; discriminate].
      eapply write_other; [exact Hw|]. apply neq_app, Herr. }
  rewrite (after_process_other x process fs6 Hxlog Hgen Hbuild).
  eapply write_other; [exact Hlog|]. apply neq_app, Hxlog.
Qed.

End Workspace.

(** The directory [model] is there once the configuration is written. *)
Lemma model_dir_made (sdk_id source_path doc : string) (fs1 fs2 fs3 fs4 fs5 : FS) :
  makedirs (model_path_of sdk_id) fs1 = Ok fs2 ->
  makedirs (build_path_of sdk_id) fs2 = Ok fs3 ->
  copy source_path (model_path_of sdk_id) fs3 = Ok fs4 ->
  write (build_json_path_of sdk_id) doc fs4 = Ok fs5 ->
  fs5 !! model_path_of sdk_id = Some Dir.
Proof.
  intros H2 H3 H4 H5.
  apply makedirs_spec in H2 as (_ & Hdir & _).
  apply makedirs_spec in H3 as (Hsub & _ & _).
  apply copy_spec in H4 as (c & _ & H4).
  eapply write_keeps_dir; [exact H5|].
  eapply write_keeps_dir; [exact H4|].
  eapply lookup_weaken; [|exact Hsub]. apply Hdir.
  unfold model_path_of, output_path_of, OUTPUT_PATH. discriminate.
Qed.

(** The stages up to the written configuration leave [errors.txt] alone. *)
Lemma early_stages_keep_errors (sdk_id source_path doc : string) (fs0 fs1 fs2 fs3 fs4 fs5 : FS) :
  makedirs (output_path_of sdk_id) fs0 = Ok fs1 ->
  makedirs (model_path_of sdk_id) fs1 = Ok fs2 ->
  makedirs (build_path_of sdk_id) fs2 = Ok fs3 ->
  copy source_path (model_path_of sdk_id) fs3 = Ok fs4 ->
  write (build_json_path_of sdk_id) doc fs4 = Ok fs5 ->
  fs5 !! errors_path_of (output_path_of sdk_id)
  = fs0 !! errors_path_of (output_path_of sdk_id).
Proof.
  intros H1 H2 H3 H4 H5.
  apply makedirs_spec in H1 as (_ & _ & H1).
  apply makedirs_spec in H2 as (_ & _ & H2).
  apply makedirs_spec in H3 as (_ & _ & H3).
  apply copy_spec in H4 as (c & _ & H4).
  pose proof (copy_target_under source_path (model_path_of sdk_id) fs3) as Ht.
  unfold errors_path_of, build_json_path_of, model_path_of, build_path_of in *.
  revert H1 H2 H3 H4 H5 Ht. generalize (output_path_of sdk_id). intros P H1 H2 H3 H4 H5 Ht.
  rewrite (write_other _ _ _ _ _ H5) by (apply neq_app; reflexivity).
  rewrite (write_other _ _ _ _ _ H4).
  - rewrite H3 by (rewrite starts_with_app; reflexivity).
    rewrite H2 by (rewrite starts_with_app; reflexivity).
    apply H1. apply (starts_with_longer P "/" "errors.txt").
  - intros E. rewrite <- E, starts_with_app in Ht. discriminate.
Qed.

End WorkspaceFacts.

(* ===================================================================== *)
(** * The loop over the tasks *)
(* ===================================================================== *)

Module SchedulerFacts.
Import GenerateFacts.

Lemma terminal_reports_app (a b : list event) :
  terminal_reports (a ++ b) = terminal_reports a ++ terminal_reports b.
Proof. apply omap_app. Qed.

(** One turn of the loop. *)
Lemma run_tasks_cons (env : Env) (total index : nat) (sdk : string)
    (rest : list (nat * string)) (w : World) :
  run_tasks env total ((index, sdk) :: rest) w
  = match generate env sdk index total w with
    | (w1, Ok _) => run_tasks env total rest w1
    | (w1, Raise e) =>
        if is_Exception e
        then run_tasks env total rest
               (mkWorld (files w1) (trace w1 ++ [GenerateFailed sdk e]))
        else match drain env total rest w1 with
             | (w2, Ok _) => (w2, Raise e)
             | (w2, Raise e') => (w2, Raise e')
             end
    end.
Proof.
  cbn [run_tasks]. unfold bind, try_.
  destruct (generate env sdk index total w) as [w1 [[]|e]]; [reflexivity|].
  destruct (is_Exception e); reflexivity.
Qed.

(** A task that raises is reported and the loop goes on. *)
Lemma run_tasks_raise (env : Env) (total index : nat) (sdk : string)
    (rest : list (nat * string)) (w w1 : World) (e : exn) :
  generate env sdk index total w = (w1, Raise e) ->
  run_tasks env total ((index, sdk) :: rest) w
  = run_tasks env total rest (mkWorld (files w1) (trace w1 ++ [GenerateFailed sdk e])).
Proof.
  intros H. rewrite run_tasks_cons, H.
  apply generate_outcome in H as (new & _ & _ & _ & ->). reflexivity.
Qed.

(** The loop always comes to its end, with one terminal report for every
    task, in the order of the tasks, and without a summary. *)
Lemma run_tasks_spec (env : Env) (total : nat) (completion : list (nat * string)) (w : World) :
  exists w' new,
    run_tasks env total completion w = (w', Ok tt)
    /\ trace w' = trace w ++ new
    /\ List.map fst (terminal_reports new) = List.map snd completion
    /\ forallb (fun ev => negb (is_summary ev)) new = true.
Proof.
  revert w. induction completion as [|[index sdk] rest IH]; intros w.
  - exists w, []. rewrite app_nil_r. repeat split; reflexivity.
  - rewrite run_tasks_cons.
    destruct (generate env sdk index total w) as [w1 r] eqn:G.
    apply generate_outcome in G as (new1 & Ht1 & Hs1 & Hr).
    destruct r as [[]|e].
    + destruct Hr as [o Ho].
      destruct (IH w1) as (w' & new & Hrun & Ht & Hrep & Hs).
      exists w', (new1 ++ new). split; [exact Hrun|].
      split; [rewrite Ht, Ht1, app_assoc; reflexivity|].
      split; [|rewrite forallb_app, Hs1, Hs; reflexivity].
      rewrite terminal_reports_app, Ho, map_app, Hrep. reflexivity.
    + destruct Hr as [Hnone ->].
      destruct (IH (mkWorld (files w1) (trace w1 ++ [GenerateFailed sdk e])))
        as (w' & new & Hrun & Ht & Hrep & Hs).
      exists w', (new1 ++ [GenerateFailed sdk e] ++ new). split; [exact Hrun|].
      split; [rewrite Ht; cbn [trace]; rewrite Ht1, <- !app_assoc; reflexivity|].
      split; [|rewrite !forallb_app, Hs1, Hs; reflexivity].
      rewrite !terminal_reports_app, Hnone, !map_app, Hrep. reflexivity.
Qed.

Lemma run_tasks_app (env : Env) (total : nat) (a b : list (nat * string)) (w w1 : World) :
  run_tasks env total a w = (w1, Ok tt) ->
  run_tasks env total (a ++ b) w = run_tasks env total b w1.
Proof.
  revert w. induction a as [|[index sdk] a IH]; intros w H.
  - injection H as <-. reflexivity.
  - rewrite <- app_comm_cons, run_tasks_cons. rewrite run_tasks_cons in H.
    destruct (generate env sdk index total w) as [w0 [[]|e]] eqn:G; [auto|].
    apply generate_outcome in G as (new & _ & _ & _ & He).
    rewrite He in *. auto.
Qed.

Lemma max_workers_pos (n : nat) (cores : positive) :
  n <> 0 -> (0 < max_workers_of n cores)%Z.
Proof. unfold max_workers_of, HARD_CAP. lia. Qed.

(** [main] under a known number of cores and with at least one unit. *)
Lemma main_on_spec (env : Env) (sdks : list string) (completion : list (nat * string))
    (cores : positive) (w : World) :
  cpu_count env = Some cores -> sdks <> [] ->
  exists w' new,
    main_on env sdks completion w = (w', Ok tt)
    /\ run_tasks env (List.length sdks) completion w
       = (mkWorld (files w') (trace w ++ new), Ok tt)
    /\ trace w'
       = trace w ++ new
         ++ [Summary (List.length sdks) (max_workers_of (List.length sdks) cores) cores]
    /\ List.map fst (terminal_reports new) = List.map snd completion
    /\ forallb (fun ev => negb (is_summary ev)) new = true.
Proof.
  intros Hcpu Hne. unfold main_on. rewrite Hcpu.
  assert (0 < max_workers_of (List.length sdks) cores)%Z as Hpos
    by (apply max_workers_pos; destruct sdks; [congruence|discriminate]).
  destruct (max_workers_of (List.length sdks) cores <=? 0)%Z eqn:E; [lia|].
  destruct (run_tasks_spec env (List.length sdks) completion w)
    as (w1 & new & Hrun & Ht & Hrep & Hs).
  exists (mkWorld (files w1) (trace w1 ++
            [Summary (List.length sdks) (max_workers_of (List.length sdks) cores) cores])), new.
  unfold bind, print. rewrite Hrun. cbn [files trace].
  split; [reflexivity|]. split; [destruct w1; cbn in *; subst; reflexivity|].
  split; [rewrite Ht, <- app_assoc; reflexivity|]. split; assumption.
Qed.

End SchedulerFacts.

(* ===================================================================== *)
(** * The per-unit pipeline *)
(* ===================================================================== *)

Module Pipeline.
Import Str StrFacts Path PathFacts Fs FsFacts GenerateFacts WorkspaceFacts.

(** C1, as the code has it. When a unit's pipeline has found a model file
    and runs to its end without raising, whether the build succeeded or
    failed, the directory [build] of its workspace and everything below it
    is gone afterwards, and the directory [model] and the file
    [smithy-build.json] are there. *)
Theorem completed_run_cleans_build_dir (env : Env) (sdk_id : string) (index total : nat)
    (w w' : World) (source_path : string) (others : list string) :
  glob_json env (files w) (Path.join INPUT_PATH sdk_id) = source_path :: others ->
  generate env sdk_id index total w = (w', Ok tt) ->
  (forall k, Path.in_tree (build_path_of sdk_id) k = true -> files w' !! k = None)
  /\ files w' !! model_path_of sdk_id = Some Dir
  /\ (exists doc, files w' !! build_json_path_of sdk_id = Some (File doc))
  /\ (exists r, List.last (trace w') (NoJsonFiles sdk_id) = Report r
                /\ (r_build r = "success" \/ r_build r = "failed")).
Proof.
  intros Hglob Hrun.
  destruct (generate_completed _ _ _ _ _ _ _ _ Hglob Hrun)
    as (text & data & key & process & fs1 & fs2 & fs3 & fs4 & fs5 & fs6 & fs8 & mid
        & _ & _ & _ & H1 & H2 & H3 & H4 & H5 & H6 & _ & Hmid & Hrm & Htrace).
  cbv zeta in *. split; [|split; [|split]].
  - intros k Hk. apply rmtree_spec in Hrm as [_ Hrm]. rewrite Hrm, Hk. reflexivity.
  - pose proof (model_dir_made _ _ _ _ _ _ _ _ H2 H3 H4 H5) as Hdir.
    rewrite <- Hdir.
    apply (late_stages_other (output_path_of sdk_id) env fs5 fs6 fs8 (files w')
             process mid "/model" H6 Hmid Hrm);
      solve [reflexivity | left; reflexivity].
  - exists (Json.dumps (build_json key)).
    rewrite <- (write_at _ _ _ _ H5).
    apply (late_stages_other (output_path_of sdk_id) env fs5 fs6 fs8 (files w')
             process mid "/smithy-build.json" H6 Hmid Hrm);
      solve [reflexivity | left; reflexivity].
  - eexists. rewrite Htrace, !app_assoc, last_last. split; [reflexivity|].
    cbn [r_build]. destruct (returncode process =? 0)%Z; auto.
Qed.

(** [completed_run_cleans_build_dir] at the sample unit whose build ends
    with status 2. *)
Lemma completed_run_cleans_build_dir_sample :
  glob_json (Sample.env 2 "") (files Sample.world) (Path.join INPUT_PATH "s3")
  = [Sample.source]
  /\ generate (Sample.env 2 "") "s3" 1 3 Sample.world = (SampleRuns.after_failure, Ok tt)
  /\ files SampleRuns.after_failure !! build_path_of "s3" = None
  /\ files SampleRuns.after_failure !! model_path_of "s3" = Some Dir.
Proof.
  assert (glob_json (Sample.env 2 "") (files Sample.world) (Path.join INPUT_PATH "s3")
          = [Sample.source]) as Hglob by reflexivity.
  assert (generate (Sample.env 2 "") "s3" 1 3 Sample.world
          = (SampleRuns.after_failure, Ok tt)) as Hrun by (vm_compute; reflexivity).
  split; [exact Hglob|]. split; [exact Hrun|].
  destruct (completed_run_cleans_build_dir _ _ _ _ _ _ _ _ Hglob Hrun)
    as (Hbuild & Hmodel & _).
  split; [|exact Hmodel].
  apply Hbuild. reflexivity.
Defined.

(** C1 as the specification words it fails on a stage that raises: the
    pipeline ends there and the cleanup is not reached. When the output of
    the search of the log cannot be decoded, or when the shell for
    `smithy build` cannot be created, the directory [build] is still there
    afterwards; when the model file is no JSON text, neither the directory
    [model] nor the configuration file exists afterwards. *)
Lemma exception_skips_cleanup :
  (glob_json Sample.env_binary_log (files Sample.world) (Path.join INPUT_PATH "s3")
   = [Sample.source]
   /\ snd (generate Sample.env_binary_log "s3" 1 3 Sample.world) = Raise UnicodeDecodeError
   /\ files (fst (generate Sample.env_binary_log "s3" 1 3 Sample.world)) !! build_path_of "s3"
      = Some Dir)
  /\ (glob_json Sample.env_no_process (files Sample.world) (Path.join INPUT_PATH "s3")
      = [Sample.source]
      /\ snd (generate Sample.env_no_process "s3" 1 3 Sample.world)
         = Raise (OSError "cannot create the process")
      /\ files (fst (generate Sample.env_no_process "s3" 1 3 Sample.world)) !! build_path_of "s3"
         = Some Dir)
  /\ (glob_json (Sample.env 0 "") (files Sample.world_bad_json) (Path.join INPUT_PATH "s3")
      = [Sample.source]
      /\ snd (generate (Sample.env 0 "") "s3" 1 3 Sample.world_bad_json) = Raise JSONDecodeError
      /\ files (fst (generate (Sample.env 0 "") "s3" 1 3 Sample.world_bad_json))
           !! model_path_of "s3" = None
      /\ files (fst (generate (Sample.env 0 "") "s3" 1 3 Sample.world_bad_json))
           !! build_json_path_of "s3" = None).
Proof. vm_compute. repeat split; reflexivity. Qed.

(** C4. In a run of a unit that found a model file and came to its end,
    the recorded outcome is ["success"] exactly when `smithy build` ended
    with status 0 and ["failed"] exactly when it ended with another status.
    After status 0 no search of the log is run and [errors.txt] is as it
    was before the run; after any other status the search is run once and
    [errors.txt] holds what it printed, be it nothing. *)
Theorem build_outcome_and_diagnostics (env : Env) (sdk_id : string) (index total : nat)
    (w w' : World) (source_path : string) (others : list string) :
  glob_json env (files w) (Path.join INPUT_PATH sdk_id) = source_path :: others ->
  generate env sdk_id index total w = (w', Ok tt) ->
  exists (rc : Z) (mid : list event) (r : UnitResult),
    trace w'
    = trace w
      ++ [Building index total sdk_id;
          Spawned ("cd " +:+ output_path_of sdk_id +:+ " && smithy build") rc]
      ++ mid ++ [Report r]
    /\ (r_build r = "success" <-> rc = 0%Z)
    /\ (r_build r = "failed" <-> rc <> 0%Z)
    /\ (rc = 0%Z ->
        mid = []
        /\ files w' !! errors_path_of (output_path_of sdk_id)
           = files w !! errors_path_of (output_path_of sdk_id))
    /\ (rc <> 0%Z ->
        exists (fs : FS) (status : Z) (found stderr : string),
          shell env fs (ag_command (build_log_of (output_path_of sdk_id)))
          = Exited status found stderr
          /\ mid = [Spawned (ag_command (build_log_of (output_path_of sdk_id))) status]
          /\ files w' !! errors_path_of (output_path_of sdk_id) = Some (File found)).
Proof.
  intros Hglob Hrun.
  destruct (generate_completed _ _ _ _ _ _ _ _ Hglob Hrun)
    as (text & data & key & process & fs1 & fs2 & fs3 & fs4 & fs5 & fs6 & fs8 & mid
        & _ & _ & _ & H1 & H2 & H3 & H4 & H5 & H6 & _ & Hmid & Hrm & Htrace).
  cbv zeta in *.
  exists (returncode process), mid. eexists. split; [exact Htrace|].
  cbn [r_build].
  destruct (returncode process =? 0)%Z eqn:E.
  - apply Z.eqb_eq in E. split; [tauto|]. split; [split; [discriminate|tauto]|].
    split; [|tauto]. intros _. split; [apply Hmid|].
    rewrite <- (early_stages_keep_errors _ _ _ _ _ _ _ _ _ H1 H2 H3 H4 H5).
    assert ((returncode process =? 0)%Z = true) as E' by (apply Z.eqb_eq, E).
    apply (late_stages_other (output_path_of sdk_id) env fs5 fs6 fs8 (files w')
             process mid "/errors.txt" H6);
      [rewrite E'; exact Hmid|exact Hrm|reflexivity..|right; exact E].
  - apply Z.eqb_neq in E. split; [split; [discriminate|tauto]|].
    split; [tauto|]. split; [tauto|]. intros _.
    destruct Hmid as (status & found & stderr & Hsh & Hw & ->).
    exists (after_process (output_path_of sdk_id) process fs6), status, found, stderr.
    split; [exact Hsh|]. split; [reflexivity|].
    apply rmtree_spec in Hrm as [_ Hrm]. rewrite Hrm.
    unfold errors_path_of, build_path_of. rewrite in_tree_app.
    apply (write_at _ _ _ _ Hw).
Qed.

(** [build_outcome_and_diagnostics] at the sample unit whose build ends
    with status 2 and whose log has no line for the search: the outcome is
    ["failed"] and [errors.txt] is there, empty. *)
Lemma build_outcome_and_diagnostics_sample :
  glob_json (Sample.env 2 "") (files Sample.world) (Path.join INPUT_PATH "s3")
  = [Sample.source]
  /\ generate (Sample.env 2 "") "s3" 1 3 Sample.world = (SampleRuns.after_failure, Ok tt)
  /\ files SampleRuns.after_failure !! errors_path_of (output_path_of "s3") = Some (File "")
  /\ exists (rc : Z) (mid : list event) (r : UnitResult),
      trace SampleRuns.after_failure
      = trace Sample.world
        ++ [Building 1 3 "s3";
            Spawned ("cd " +:+ output_path_of "s3" +:+ " && smithy build") rc]
        ++ mid ++ [Report r]
      /\ (r_build r = "failed" <-> rc <> 0%Z).
Proof.
  assert (glob_json (Sample.env 2 "") (files Sample.world) (Path.join INPUT_PATH "s3")
          = [Sample.source]) as Hglob by reflexivity.
  assert (generate (Sample.env 2 "") "s3" 1 3 Sample.world
          = (SampleRuns.after_failure, Ok tt)) as Hrun by (vm_compute; reflexivity).
  split; [exact Hglob|]. split; [exact Hrun|]. split; [vm_compute; reflexivity|].
  destruct (build_outcome_and_diagnostics _ _ _ _ _ _ _ _ Hglob Hrun)
    as (rc & mid & r & Ht & _ & Hfailed & _).
  exists rc, mid, r. split; [exact Ht|exact Hfailed].
Defined.

(** C9. Two runs of the pipeline for the same unit that find the same model
    file with the same text, and come to their ends, leave the same bytes
    in [smithy-build.json]: the document is a function of the service key
    alone, and no path of the unit's workspace is in it. *)
Theorem configuration_is_reproducible (env : Env) (sdk_id : string)
    (index total index' total' : nat) (w1 w1' w2 w2' : World)
    (source_path text : string) (others others' : list string) :
  glob_json env (files w1) (Path.join INPUT_PATH sdk_id) = source_path :: others ->
  glob_json env (files w2) (Path.join INPUT_PATH sdk_id) = source_path :: others' ->
  Fs.read source_path (files w1) = Ok text ->
  Fs.read source_path (files w2) = Ok text ->
  generate env sdk_id index total w1 = (w1', Ok tt) ->
  generate env sdk_id index' total' w2 = (w2', Ok tt) ->
  exists key,
    files w1' !! build_json_path_of sdk_id = Some (File (Json.dumps (build_json key)))
    /\ files w2' !! build_json_path_of sdk_id = Some (File (Json.dumps (build_json key))).
Proof.
  intros Hg1 Hg2 Hr1 Hr2 Hrun1 Hrun2.
  destruct (generate_completed _ _ _ _ _ _ _ _ Hg1 Hrun1)
    as (text1 & data1 & key1 & process1 & a1 & a2 & a3 & a4 & a5 & a6 & a8 & mid1
        & Ht1 & Hd1 & Hk1 & _ & _ & _ & _ & A5 & A6 & _ & Amid & Arm & _).
  destruct (generate_completed _ _ _ _ _ _ _ _ Hg2 Hrun2)
    as (text2 & data2 & key2 & process2 & b1 & b2 & b3 & b4 & b5 & b6 & b8 & mid2
        & Ht2 & Hd2 & Hk2 & _ & _ & _ & _ & B5 & B6 & _ & Bmid & Brm & _).
  cbv zeta in *.
  assert (key2 = key1) as -> by congruence.
  exists key1. split.
  - rewrite <- (write_at _ _ _ _ A5).
    apply (late_stages_other (output_path_of sdk_id) env a5 a6 a8 (files w1')
             process1 mid1 "/smithy-build.json" A6 Amid Arm);
      solve [reflexivity | left; reflexivity].
  - rewrite <- (write_at _ _ _ _ B5).
    apply (late_stages_other (output_path_of sdk_id) env b5 b6 b8 (files w2')
             process2 mid2 "/smithy-build.json" B6 Bmid Brm);
      solve [reflexivity | left; reflexivity].
Qed.

(** [configuration_is_reproducible] at the sample unit, run a second time
    in the world its first run left. *)
Lemma configuration_is_reproducible_sample :
  generate (Sample.env 0 "") "s3" 1 3 Sample.world = (SampleRuns.after_success, Ok tt)
  /\ generate (Sample.env 0 "") "s3" 1 3 SampleRuns.after_success
     = (SampleRuns.after_second_run, Ok tt)
  /\ exists key,
      files SampleRuns.after_success !! build_json_path_of "s3"
      = Some (File (Json.dumps (build_json key)))
      /\ files SampleRuns.after_second_run !! build_json_path_of "s3"
         = Some (File (Json.dumps (build_json key))).
Proof.
  assert (generate (Sample.env 0 "") "s3" 1 3 Sample.world
          = (SampleRuns.after_success, Ok tt)) as Hrun1 by (vm_compute; reflexivity).
  assert (generate (Sample.env 0 "") "s3" 1 3 SampleRuns.after_success
          = (SampleRuns.after_second_run, Ok tt)) as Hrun2 by (vm_compute; reflexivity).
  split; [exact Hrun1|]. split; [exact Hrun2|].
  apply (configuration_is_reproducible (Sample.env 0 "") "s3" 1 3 1 3
           Sample.world SampleRuns.after_success
           SampleRuns.after_success SampleRuns.after_second_run
           Sample.source "S3" [] []);
    solve [reflexivity | vm_compute; reflexivity | assumption].
Defined.

End Pipeline.

(* ===================================================================== *)
(** * The scheduler *)
(* ===================================================================== *)

Module Scheduler.
Import GenerateFacts SchedulerFacts.

(** C5. A unit for which the search finds no model file prints that it has
    none and returns: the pipeline raises nothing, the file system is as
    it was, so no workspace is created, and the loop goes on with the
    tasks that are left. *)
Theorem unit_without_model_is_skipped (env : Env) (sdk_id : string) (index total : nat)
    (rest : list (nat * string)) (w : World) :
  glob_json env (files w) (Path.join INPUT_PATH sdk_id) = [] ->
  generate env sdk_id index total w
  = (mkWorld (files w) (trace w ++ [NoJsonFiles sdk_id]), Ok tt)
  /\ terminal_reports [NoJsonFiles sdk_id] = [(sdk_id, Skipped)]
  /\ files (fst (generate env sdk_id index total w)) !! output_path_of sdk_id
     = files w !! output_path_of sdk_id
  /\ run_tasks env total ((index, sdk_id) :: rest) w
     = run_tasks env total rest (mkWorld (files w) (trace w ++ [NoJsonFiles sdk_id])).
Proof.
  intros H. pose proof (generate_skip env sdk_id index total w H) as Hskip.
  split; [exact Hskip|]. split; [reflexivity|]. split.
  - rewrite Hskip. reflexivity.
  - rewrite run_tasks_cons, Hskip. reflexivity.
Qed.

(** [unit_without_model_is_skipped] at the unit [dynamodb] of the sample,
    which has no model, with [ec2] left to run. *)
Lemma unit_without_model_is_skipped_sample :
  glob_json (Sample.env 0 "") (files Sample.world) (Path.join INPUT_PATH "dynamodb") = []
  /\ generate (Sample.env 0 "") "dynamodb" 2 3 Sample.world
     = (mkWorld (files Sample.world) [NoJsonFiles "dynamodb"], Ok tt)
  /\ files Sample.world !! output_path_of "dynamodb" = None
  /\ run_tasks (Sample.env 0 "") 3 [(2, "dynamodb"); (3, "ec2")] Sample.world
     = run_tasks (Sample.env 0 "") 3 [(3, "ec2")]
         (mkWorld (files Sample.world) [NoJsonFiles "dynamodb"]).
Proof.
  assert (glob_json (Sample.env 0 "") (files Sample.world)
            (Path.join INPUT_PATH "dynamodb") = []) as H by reflexivity.
  destruct (unit_without_model_is_skipped (Sample.env 0 "") "dynamodb" 2 3
              [(3, "ec2")] Sample.world H) as (H1 & _ & _ & H4).
  split; [exact H|]. split; [exact H1|]. split; [reflexivity|exact H4].
Defined.

(** C6. What the pipeline of one unit raises is an [Exception], and the
    loop of [main] catches it and prints it with the unit's id; [main]
    itself returns, every task before and after that unit has its terminal
    report, and the summary is printed. *)
Theorem exception_stays_in_its_unit (env : Env) (sdks : list string) (cores : positive)
    (before after : list (nat * string)) (index : nat) (sdk : string)
    (w w1 w2 : World) (e : exn) :
  cpu_count env = Some cores -> sdks <> [] ->
  run_tasks env (List.length sdks) before w = (w1, Ok tt) ->
  generate env sdk index (List.length sdks) w1 = (w2, Raise e) ->
  exists w' new,
    main_on env sdks (before ++ (index, sdk) :: after) w = (w', Ok tt)
    /\ trace w'
       = trace w ++ new
         ++ [Summary (List.length sdks) (max_workers_of (List.length sdks) cores) cores]
    /\ is_Exception e = true
    /\ In (GenerateFailed sdk e) new
    /\ List.map fst (terminal_reports new)
       = List.map snd (before ++ (index, sdk) :: after)
    /\ run_tasks env (List.length sdks) ((index, sdk) :: after) w1
       = run_tasks env (List.length sdks) after
           (mkWorld (files w2) (trace w2 ++ [GenerateFailed sdk e])).
Proof.
  intros Hcpu Hne Hbefore Hgen.
  destruct (main_on_spec env sdks (before ++ (index, sdk) :: after) cores w Hcpu Hne)
    as (w' & new & Hmain & Hrun & Ht & Hrep & _).
  exists w', new. split; [exact Hmain|]. split; [exact Ht|].
  pose proof (run_tasks_raise env (List.length sdks) index sdk after w1 w2 e Hgen) as Hstep.
  split; [destruct (generate_outcome _ _ _ _ _ _ _ Hgen) as (? & _ & _ & _ & He); exact He|].
  split; [|split; [exact Hrep|exact Hstep]].
  rewrite (run_tasks_app _ _ _ _ _ _ Hbefore), Hstep in Hrun.
  destruct (run_tasks_spec env (List.length sdks) before w)
    as (w1' & new1 & Hrun1 & Ht1 & _).
  rewrite Hbefore in Hrun1. injection Hrun1 as <-.
  destruct (generate_outcome _ _ _ _ _ _ _ Hgen) as (new2 & Ht2 & _).
  destruct (run_tasks_spec env (List.length sdks) after
              (mkWorld (files w2) (trace w2 ++ [GenerateFailed sdk e])))
    as (w3 & new3 & Hrun3 & Ht3 & _).
  rewrite Hrun3 in Hrun. injection Hrun as Hw3.
  rewrite Hw3 in Ht3. cbn [trace] in Ht3.
  rewrite Ht2, Ht1, <- !app_assoc in Ht3.
  apply app_inv_head in Ht3. rewrite Ht3.
  apply in_or_app. right. apply in_or_app. right. left. reflexivity.
Qed.

(** [exception_stays_in_its_unit] at the sample with the bad model: [s3]
    raises after [dynamodb] and before [ec2]. *)
Lemma exception_stays_in_its_unit_sample :
  run_tasks (Sample.env 0 "") (List.length sdks) [(2, "dynamodb")] Sample.world_bad_json
  = (SampleRuns.after_dynamodb, Ok tt)
  /\ generate (Sample.env 0 "") "s3" 1 (List.length sdks) SampleRuns.after_dynamodb
     = (SampleRuns.after_bad_s3, Raise JSONDecodeError)
  /\ exists w' new,
      main (Sample.env 0 "") [(2, "dynamodb"); (1, "s3"); (3, "ec2")] Sample.world_bad_json
      = (w', Ok tt)
      /\ In (GenerateFailed "s3" JSONDecodeError) new
      /\ List.map fst (terminal_reports new) = ["dynamodb"; "s3"; "ec2"].
Proof.
  assert (run_tasks (Sample.env 0 "") (List.length sdks) [(2, "dynamodb")]
            Sample.world_bad_json = (SampleRuns.after_dynamodb, Ok tt)) as H1
    by (vm_compute; reflexivity).
  assert (generate (Sample.env 0 "") "s3" 1 (List.length sdks) SampleRuns.after_dynamodb
          = (SampleRuns.after_bad_s3, Raise JSONDecodeError)) as H2
    by (vm_compute; reflexivity).
  split; [exact H1|]. split; [exact H2|].
  destruct (exception_stays_in_its_unit (Sample.env 0 "") sdks 8%positive
              [(2, "dynamodb")] [(3, "ec2")] 1 "s3"
              Sample.world_bad_json SampleRuns.after_dynamodb SampleRuns.after_bad_s3
              JSONDecodeError eq_refl ltac:(discriminate) H1 H2)
    as (w' & new & Hmain & _ & _ & Hin & Hrep & _).
  exists w', new. split; [exact Hmain|]. split; [exact Hin|exact Hrep].
Defined.

Lemma map_snd_imap (f : nat -> nat) (l : list string) :
  List.map snd (imap (fun i x => (f i, x)) l) = l.
Proof.
  revert f. induction l as [|x l IH]; intros f; [reflexivity|].
  simpl. f_equal. apply (IH (fun i => f (S i))).
Qed.

Lemma map_snd_tasks_of (l : list string) : List.map snd (tasks_of l) = l.
Proof. apply (map_snd_imap (fun i => i + 1)). Qed.

(** C7. Whatever the order in which the submitted tasks complete, the run
    prints one terminal report for every task, that of its unit, so the
    reports are as many as the units and name each unit as often as it was
    submitted; and the summary is the last thing printed, after all of
    them, and printed once. *)
Theorem every_unit_reported_once (env : Env) (sdks : list string)
    (completion : list (nat * string)) (cores : positive) (w : World) :
  cpu_count env = Some cores -> sdks <> [] ->
  Permutation completion (tasks_of sdks) ->
  exists w' new,
    main_on env sdks completion w = (w', Ok tt)
    /\ trace w'
       = trace w ++ new
         ++ [Summary (List.length sdks) (max_workers_of (List.length sdks) cores) cores]
    /\ List.map fst (terminal_reports new) = List.map snd completion
    /\ Permutation (List.map fst (terminal_reports new)) sdks
    /\ List.length (terminal_reports new) = List.length sdks
    /\ forallb (fun ev => negb (is_summary ev)) new = true
    /\ Forall (fun o => In o [Succeeded; Failed; Skipped; Errored])
         (List.map snd (terminal_reports new)).
Proof.
  intros Hcpu Hne Hperm.
  destruct (main_on_spec env sdks completion cores w Hcpu Hne)
    as (w' & new & Hmain & _ & Ht & Hrep & Hs).
  exists w', new. split; [exact Hmain|]. split; [exact Ht|]. split; [exact Hrep|].
  assert (Permutation (List.map fst (terminal_reports new)) sdks) as Hp.
  { rewrite Hrep, <- (map_snd_tasks_of sdks). apply Permutation_map, Hperm. }
  split; [exact Hp|]. split.
  - rewrite <- (length_map fst). apply Permutation_length, Hp.
  - split; [exact Hs|]. apply Forall_forall. intros o _. destruct o; simpl; tauto.
Qed.

(** [every_unit_reported_once] at the three units of [main], completing in
    the order [ec2], [s3], [dynamodb]. *)
Lemma every_unit_reported_once_sample :
  Permutation [(3, "ec2"); (1, "s3"); (2, "dynamodb")] (tasks_of sdks)
  /\ exists w' new,
      main (Sample.env 0 "") [(3, "ec2"); (1, "s3"); (2, "dynamodb")] Sample.world
      = (w', Ok tt)
      /\ List.map fst (terminal_reports new) = ["ec2"; "s3"; "dynamodb"]
      /\ List.length (terminal_reports new) = 3.
Proof.
  assert (Permutation [(3, "ec2"); (1, "s3"); (2, "dynamodb")] (tasks_of sdks)) as Hp.
  { change (tasks_of sdks) with ([(1, "s3"); (2, "dynamodb")] ++ [(3, "ec2")]).
    apply Permutation_cons_app. rewrite app_nil_r. apply Permutation_refl. }
  split; [exact Hp|].
  destruct (every_unit_reported_once (Sample.env 0 "") sdks
              [(3, "ec2"); (1, "s3"); (2, "dynamodb")] 8%positive Sample.world
              eq_refl ltac:(discriminate) Hp)
    as (w' & new & Hmain & _ & Hrep & _ & Hlen & _).
  exists w', new. split; [exact Hmain|]. split; [exact Hrep|exact Hlen].
Defined.

(** C8. The size of the pool is computed once, before any task is
    submitted, and it is the least of the number of units, four times the
    number of cores, and 64: it is below all three and it is one of
    them. The run prints this number in its summary. *)
Theorem worker_pool_size (env : Env) (sdks : list string)
    (completion : list (nat * string)) (cores : positive) (w : World) :
  cpu_count env = Some cores -> sdks <> [] ->
  (max_workers_of (List.length sdks) cores <= Z.of_nat (List.length sdks)
   /\ max_workers_of (List.length sdks) cores <= 4 * Z.pos cores
   /\ max_workers_of (List.length sdks) cores <= 64
   /\ (max_workers_of (List.length sdks) cores = Z.of_nat (List.length sdks)
       \/ max_workers_of (List.length sdks) cores = 4 * Z.pos cores
       \/ max_workers_of (List.length sdks) cores = 64))%Z
  /\ exists w' printed,
      main_on env sdks completion w = (w', Ok tt)
      /\ trace w'
         = printed
           ++ [Summary (List.length sdks) (max_workers_of (List.length sdks) cores) cores]
      /\ forallb (fun ev => negb (is_summary ev)) (drop (List.length (trace w)) printed) = true.
Proof.
  intros Hcpu Hne. split; [unfold max_workers_of, HARD_CAP; lia|].
  destruct (main_on_spec env sdks completion cores w Hcpu Hne)
    as (w' & new & Hmain & _ & Ht & _ & Hs).
  exists w', (trace w ++ new). split; [exact Hmain|].
  split; [rewrite Ht, app_assoc; reflexivity|].
  rewrite drop_app_length. exact Hs.
Qed.

(** [worker_pool_size] at the three units of [main] on eight cores: three
    workers. *)
Lemma worker_pool_size_sample :
  cpu_count (Sample.env 0 "") = Some 8%positive
  /\ max_workers_of (List.length sdks) 8 = 3%Z
  /\ exists w' printed,
      main (Sample.env 0 "") (tasks_of sdks) Sample.world = (w', Ok tt)
      /\ trace w' = printed ++ [Summary 3 3 8].
Proof.
  split; [reflexivity|]. split; [reflexivity|].
  destruct (worker_pool_size (Sample.env 0 "") sdks (tasks_of sdks) 8%positive
              Sample.world eq_refl ltac:(discriminate))
    as (_ & w' & printed & Hmain & Ht & _).
  exists w', printed. split; [exact Hmain|exact Ht].
Defined.

End Scheduler.

(* ===================================================================== *)
(** * More on the derived names *)
(* ===================================================================== *)

Module NamesMore.
Import Str StrFacts KeyFacts NameDeriver.

(** The output of the Name Deriver has no capital [A-Z], and [lower()]
    leaves it as it is. *)
Theorem snake_case_is_lowercase (x : string) :
  all_chars (fun c => negb (is_AZ c)) (snake_case x) = true
  /\ lower (snake_case x) = snake_case x.
Proof.
  pose proof (snake_case_fixed x) as H. split; [|apply lower_of_fixed, H].
  revert H. generalize (snake_case x). intros s.
  induction s as [|c s IH]; [reflexivity|]. simpl.
  intros H. apply andb_true_iff in H as [Hc Hs].
  rewrite (lower_fixed_not_AZ _ Hc), (IH Hs). reflexivity.
Qed.

(** The names the Name Deriver leaves unchanged are exactly those that
    [lower()] leaves unchanged and in which none of ["a_w_s"], ["e_c2"],
    ["_d_b"] occurs. *)
Theorem snake_case_fixed_points (x : string) :
  snake_case x = x
  <-> all_chars lower_fixed x = true
      /\ occurs "a_w_s" x = false
      /\ occurs "e_c2" x = false
      /\ occurs "_d_b" x = false.
Proof.
  split.
  - intros H. rewrite <- H. split; [apply snake_case_fixed|apply snake_case_clean].
  - intros (Hf & H1 & H2 & H3).
    rewrite snake_case_unfold, (sub_boundary_of_fixed _ Hf), (lower_of_fixed _ Hf).
    rewrite (replace_from_absent _ _ _ H1), (replace_from_absent _ _ _ H2).
    apply replace_from_absent, H3.
Qed.

(** [snake_case_fixed_points] at the name ["dynamodb"]. *)
Lemma snake_case_fixed_points_sample :
  (all_chars lower_fixed "dynamodb" = true
   /\ occurs "a_w_s" "dynamodb" = false
   /\ occurs "e_c2" "dynamodb" = false
   /\ occurs "_d_b" "dynamodb" = false)
  /\ snake_case "dynamodb" = "dynamodb".
Proof.
  assert (all_chars lower_fixed "dynamodb" = true
          /\ occurs "a_w_s" "dynamodb" = false
          /\ occurs "e_c2" "dynamodb" = false
          /\ occurs "_d_b" "dynamodb" = false) as H by (repeat split; reflexivity).
  split; [exact H|]. exact (proj2 (snake_case_fixed_points "dynamodb") H).
Defined.

(** ** Fields of a split *)

Lemma has_char_rev_app (c : ascii) (a b : string) :
  has_char c (String.rev_app a b) = has_char c a || has_char c b.
Proof.
  revert b. induction a as [|d a IH]; intros b; [reflexivity|].
  simpl. rewrite IH. simpl. destruct (ascii_dec d c); [|reflexivity].
  rewrite orb_true_r. reflexivity.
Qed.

(** A character that is not in the text is in none of its fields. *)
Lemma split_go_fields_without (c sep : ascii) (s cur : string) :
  has_char c s = false -> has_char c cur = false ->
  Forall (fun f => has_char c f = false) (split_go sep cur s).
Proof.
  revert cur. induction s as [|d s IH]; intros cur Hs Hcur; simpl.
  - constructor; [|constructor]. unfold String.rev.
    rewrite has_char_rev_app, Hcur. reflexivity.
  - simpl in Hs. destruct (ascii_dec d c) as [|Hd]; [discriminate|].
    destruct (ascii_dec d sep).
    + constructor; [|apply IH; auto].
      unfold String.rev. rewrite has_char_rev_app, Hcur. reflexivity.
    + apply IH; [exact Hs|]. simpl. destruct (ascii_dec d c); [contradiction|exact Hcur].
Qed.

(** The separator is in no field. *)
Lemma split_go_fields_without_sep (sep : ascii) (s cur : string) :
  has_char sep cur = false ->
  Forall (fun f => has_char sep f = false) (split_go sep cur s).
Proof.
  revert cur. induction s as [|d s IH]; intros cur Hcur; simpl.
  - constructor; [|constructor]. unfold String.rev.
    rewrite has_char_rev_app, Hcur. reflexivity.
  - destruct (ascii_dec d sep) as [|Hd].
    + constructor; [|apply IH; reflexivity].
      unfold String.rev. rewrite has_char_rev_app, Hcur. reflexivity.
    + apply IH. simpl. destruct (ascii_dec d sep); [contradiction|exact Hcur].
Qed.

Lemma Forall_hd (P : string -> Prop) (l : list string) :
  P "" -> Forall P l -> P (first_field l).
Proof. intros H0 H. destruct H; [exact H0|assumption]. Qed.

Lemma Forall_last (P : string -> Prop) (l : list string) :
  P "" -> Forall P l -> P (last_field l).
Proof.
  intros H0 H. unfold last_field. induction H as [|x l Hx Hl IH]; [exact H0|].
  destruct l; [exact Hx|exact IH].
Qed.

Lemma model_name_no_dot (key : string) : has_char "." (model_name_of key) = false.
Proof.
  unfold model_name_of, split.
  apply (Forall_last (fun f => has_char "." f = false)); [reflexivity|].
  apply split_go_fields_without_sep. reflexivity.
Qed.

(** The model name taken from a service key has neither a dot nor a
    ["#"], whatever the key is. *)
Theorem model_name_has_no_separator (key : string) :
  has_char "." (model_name_of key) = false
  /\ has_char "#" (model_name_of key) = false.
Proof.
  split; [apply model_name_no_dot|]. unfold model_name_of, split.
  apply (Forall_last (fun f => has_char "#" f = false)); [reflexivity|].
  apply split_go_fields_without; [|reflexivity].
  apply (Forall_hd (fun f => has_char "#" f = false)); [reflexivity|].
  apply split_go_fields_without_sep. reflexivity.
Qed.

(** ** Characters the Name Deriver does not bring in *)

Lemma all_chars_lower (p : ascii -> bool) (s : string) :
  (forall c, p c = true -> p (lower_char c) = true) ->
  all_chars p s = true -> all_chars p (lower s) = true.
Proof.
  intros Hp. induction s as [|c s IH]; [reflexivity|]. simpl.
  intros H. apply andb_true_iff in H as [Hc Hs]. rewrite (Hp _ Hc), (IH Hs). reflexivity.
Qed.

Lemma all_chars_sub_boundary (p : ascii -> bool) (s : string) (i : nat) :
  p "_"%char = true -> all_chars p s = true -> all_chars p (sub_boundary i s) = true.
Proof.
  intros Hu. revert i. induction s as [|c s IH]; intros i; [reflexivity|]. simpl.
  intros H. apply andb_true_iff in H as [Hc Hs].
  destruct (negb (i =? 0) && is_AZ c); simpl; rewrite ?Hu, Hc, (IH (S i) Hs); reflexivity.
Qed.

Lemma has_char_all_chars (s : string) :
  has_char "." s = false <-> all_chars not_dot s = true.
Proof.
  unfold not_dot. induction s as [|c s IH]; [tauto|]. simpl.
  destruct (ascii_dec c "."); simpl; [split; discriminate|exact IH].
Qed.

Lemma not_dot_lower (c : ascii) : not_dot c = true -> not_dot (lower_char c) = true.
Proof. destruct c as [[] [] [] [] [] [] [] []]; intros H; try reflexivity; discriminate H. Qed.

(** The Name Deriver puts no dot into a name that has none. *)
Lemma snake_case_no_dot (x : string) :
  has_char "." x = false -> has_char "." (snake_case x) = false.
Proof.
  rewrite !has_char_all_chars, snake_case_unfold. intros H.
  repeat (apply replace_from_all_chars; [reflexivity|]).
  apply all_chars_lower; [exact not_dot_lower|].
  apply all_chars_sub_boundary; [reflexivity|exact H].
Qed.

(** The namespace written to the configuration has two dot-delimited
    parts, whatever the key is: ["aws"] and the module name. *)
Theorem namespace_has_two_parts (key : string) :
  split "." (namespace_of key) = ["aws"; module_name_of key].
Proof.
  unfold namespace_of, split.
  assert (has_char "." (module_name_of key) = false) as Hm
    by (apply snake_case_no_dot, model_name_no_dot).
  change ("aws." +:+ module_name_of key) with ("aws" +:+ String "." (module_name_of key)).
  rewrite (split_go_first "." "aws" _ "" eq_refl), (split_go_no_sep _ _ _ Hm).
  rewrite (rev_rev_app (module_name_of key)). reflexivity.
Qed.

(** A key without ["#"] is taken whole as the part before the separator:
    the model name is what follows its last dot. *)
Theorem model_name_of_key_without_hash (key seg : string) :
  has_char "#" key = false -> last_segment_of seg key ->
  model_name_of key = seg
  /\ namespace_of key = "aws." +:+ snake_case seg.
Proof.
  intros Hk [Hseg Hlast].
  assert (model_name_of key = seg) as Hm.
  { unfold model_name_of, split at 2. rewrite (split_go_no_sep _ _ _ Hk).
    cbn [first_field hd]. rewrite rev_rev_app.
    destruct Hlast as [->|[a ->]].
    - apply last_field_split_whole, Hseg.
    - apply (last_field_split "." a seg Hseg). }
  split; [exact Hm|]. unfold namespace_of, module_name_of. rewrite Hm. reflexivity.
Qed.

(** [model_name_of_key_without_hash] at the key ["com.amazonaws.sqs"]. *)
Lemma model_name_of_key_without_hash_sample :
  has_char "#" "com.amazonaws.sqs" = false
  /\ last_segment_of "sqs" "com.amazonaws.sqs"
  /\ model_name_of "com.amazonaws.sqs" = "sqs"
  /\ namespace_of "com.amazonaws.sqs" = "aws.sqs".
Proof.
  assert (last_segment_of "sqs" "com.amazonaws.sqs") as H
    by (split; [reflexivity|right; exists "com.amazonaws"; reflexivity]).
  split; [reflexivity|]. split; [exact H|].
  exact (model_name_of_key_without_hash "com.amazonaws.sqs" "sqs" eq_refl H).
Defined.

End NamesMore.

(* ===================================================================== *)
(** * Trees of path names *)
(* ===================================================================== *)

Module TreeFacts.
Import Str StrFacts Path PathFacts Fs FsFacts WorkspaceFacts.

Lemma starts_with_split (a b : string) :
  starts_with a b = true -> exists x, b = a +:+ x.
Proof.
  revert b. induction a as [|c a IH]; intros b H; [exists b; reflexivity|].
  destruct b as [|d b]; [discriminate|].
  apply starts_with_cons in H as [-> H]. destruct (IH b H) as [x ->].
  exists x. reflexivity.
Qed.

(** Two prefixes of one text: one is a prefix of the other. *)
Lemma prefixes_comparable (a b q : string) :
  starts_with a q = true -> starts_with b q = true ->
  starts_with a b = true \/ starts_with b a = true.
Proof.
  revert a b. induction q as [|c q IH]; intros a b Ha Hb.
  - destruct a; [left; reflexivity|discriminate].
  - destruct a as [|x a]; [left; reflexivity|].
    destruct b as [|y b]; [right; reflexivity|].
    apply starts_with_cons in Ha as [-> Ha]. apply starts_with_cons in Hb as [-> Hb].
    destruct (IH a b Ha Hb); [left|right]; apply starts_with_cons; auto.
Qed.

(** A prefix of a text with one more character is that text or a prefix of
    the shorter one. *)
Lemma starts_with_snoc (k a : string) (c : ascii) :
  starts_with k (a +:+ String c "") = true ->
  k = a +:+ String c "" \/ starts_with k a = true.
Proof.
  revert k. induction a as [|x a IH]; intros k H.
  - destruct k as [|y k]; [right; reflexivity|].
    apply (starts_with_cons y c k "") in H as [-> H].
    destruct k; [left; reflexivity|discriminate].
  - destruct k as [|y k]; [right; reflexivity|].
    rewrite append_cons in H. apply starts_with_cons in H as [-> H].
    destruct (IH k H) as [->|Hk]; [left; reflexivity|].
    right. apply starts_with_cons. auto.
Qed.

Lemma app_snoc_inj (a b : string) (c : ascii) :
  a +:+ String c "" = b +:+ String c "" -> a = b.
Proof.
  revert b. induction a as [|x a IH]; intros [|y b] H; try reflexivity.
  - rewrite append_cons in H. injection H as _ H. destruct b; discriminate.
  - rewrite append_cons in H. injection H as _ H. destruct a; discriminate.
  - rewrite !append_cons in H. injection H as -> H. f_equal. apply IH, H.
Qed.

Lemma starts_with_has_char (c : ascii) (a x s : string) :
  starts_with (a +:+ String c x) s = true -> has_char c s = true.
Proof.
  revert s. induction a as [|d a IH]; intros s H.
  - destruct s as [|e s]; [discriminate|].
    apply starts_with_cons in H as [<- _]. simpl.
    destruct (ascii_dec c c); [reflexivity|congruence].
  - destruct s as [|e s]; [discriminate|].
    rewrite append_cons in H. apply starts_with_cons in H as [<- H].
    simpl. rewrite (IH s H). destruct (ascii_dec d c); reflexivity.
Qed.

(** ** The tree below a name *)

Lemma in_tree_cases (p k : string) :
  in_tree p k = true <-> k = p \/ starts_with (p +:+ "/") k = true.
Proof.
  unfold in_tree. rewrite orb_true_iff, String.eqb_eq. tauto.
Qed.

Lemma in_tree_below (p x : string) : in_tree p (p +:+ String "/" x) = true.
Proof.
  apply in_tree_cases. right.
  change (String "/" x) with ("/" +:+ x). rewrite starts_with_app. reflexivity.
Qed.

Lemma in_tree_trans (a b c : string) :
  in_tree a b = true -> in_tree b c = true -> in_tree a c = true.
Proof.
  rewrite !in_tree_cases. intros [->|Hab] [->|Hbc]; auto.
  right. eapply starts_with_trans; [exact Hab|].
  eapply starts_with_trans; [apply starts_with_app_r|exact Hbc].
Qed.

(** Two names with a common descendant lie on one branch. *)
Lemma in_tree_comparable (a b q : string) :
  in_tree a q = true -> in_tree b q = true ->
  in_tree a b = true \/ in_tree b a = true.
Proof.
  rewrite !in_tree_cases. intros [->|Ha] [->|Hb]; auto.
  destruct (prefixes_comparable _ _ _ Ha Hb) as [H|H].
  - apply starts_with_snoc in H as [H|H]; [|auto].
    apply app_snoc_inj in H. auto.
  - apply starts_with_snoc in H as [H|H]; [|auto].
    apply app_snoc_inj in H. auto.
Qed.

(** The directories [makedirs] walks through lie above its target. *)
Lemma ancestors_in_tree (p d : string) : In d (ancestors p) -> in_tree d p = true.
Proof.
  revert d. induction p as [|c t IH]; intros d Hd.
  - destruct Hd as [<-|[]]. reflexivity.
  - simpl in Hd.
    assert (d = "" /\ c = slash \/ In d (List.map (String c) (ancestors t))) as [[-> ->]|H]
      by (destruct (ascii_dec c slash); [destruct Hd; auto|auto]).
    + reflexivity.
    + apply in_map_iff in H as (d' & <- & H). apply IH in H.
      apply in_tree_cases in H as [->|H]; apply in_tree_cases; [left; reflexivity|].
      right. rewrite append_cons. apply starts_with_cons. auto.
Qed.

(** ** Names outside a workspace *)

Section Outside.
Variables P k : string.
Hypothesis not_above : in_tree k P = false.
Hypothesis not_below : in_tree P k = false.

Lemma outside_not_ancestor (q : string) :
  in_tree P q = true -> ~ In k (ancestors q).
Proof.
  intros Hq Hin. apply ancestors_in_tree in Hin.
  destruct (in_tree_comparable _ _ _ Hin Hq); congruence.
Qed.

Lemma outside_neq (q : string) : in_tree P q = true -> k <> q.
Proof. intros Hq E. subst q. rewrite Hq in not_below. discriminate. Qed.

Lemma makedirs_outside (q : string) (fs fs' : FS) :
  in_tree P q = true -> makedirs q fs = Ok fs' -> fs' !! k = fs !! k.
Proof.
  intros Hq H. apply mkdirs_spec in H as (_ & _ & H).
  apply H, outside_not_ancestor, Hq.
Qed.

Lemma write_outside (q c : string) (fs fs' : FS) :
  in_tree P q = true -> write q c fs = Ok fs' -> fs' !! k = fs !! k.
Proof. intros Hq H. eapply write_other; [exact H|]. apply outside_neq, Hq. Qed.

Lemma copy_outside (src dst : string) (fs fs' : FS) :
  starts_with (P +:+ "/") dst = true -> copy src dst fs = Ok fs' -> fs' !! k = fs !! k.
Proof.
  intros Hdst H. apply copy_spec in H as (c & _ & H).
  eapply write_outside; [|exact H]. apply in_tree_cases. right.
  eapply starts_with_trans; [exact Hdst|apply copy_target_under].
Qed.

Lemma rmtree_outside (q : string) (fs fs' : FS) :
  in_tree P q = true -> rmtree q fs = Ok fs' -> fs' !! k = fs !! k.
Proof.
  intros Hq H. apply rmtree_spec in H as [_ H]. rewrite H.
  destruct (in_tree q k) eqn:E; [|reflexivity].
  rewrite (in_tree_trans _ _ _ Hq E) in not_below. discriminate.
Qed.

End Outside.

(** ** Where an external program writes *)

(** Cutting after the last slash keeps everything up to a slash that is
    there. *)
Lemma split_last_after (a s : string) :
  exists h b, split_last (a +:+ String "/" s) = Some (h, b)
              /\ starts_with (a +:+ "/") h = true.
Proof.
  induction a as [|c a (h & b & IH & Hh)].
  - simpl. destruct (split_last s) as [[h b]|].
    + exists (String "/" h), b. split; reflexivity.
    + exists "/", s. split; reflexivity.
  - exists (String c h), b. rewrite !append_cons. simpl. rewrite IH.
    split; [reflexivity|]. destruct (ascii_dec c c); [exact Hh|congruence].
Qed.

(** Stripping slashes from the end keeps a prefix that ends in another
    character. *)
Lemma rstrip_slash_keeps (a : string) (c : ascii) (h : string) :
  c <> slash ->
  starts_with (a +:+ String c "") h = true ->
  starts_with (a +:+ String c "") (rstrip_slash h) = true.
Proof.
  intros Hc. revert h. induction a as [|x a IH]; intros h H.
  - destruct h as [|y h]; [discriminate|].
    apply (starts_with_cons c y "" h) in H as [<- _]. simpl.
    destruct (rstrip_slash h).
    + destruct (ascii_dec c slash); [contradiction|].
      apply (starts_with_cons c c "" ""). auto.
    + apply (starts_with_cons c c "" (String a s)). auto.
  - destruct h as [|y h]; [discriminate|].
    rewrite append_cons in *. apply starts_with_cons in H as [<- H].
    apply IH in H. simpl. destruct (rstrip_slash h) as [|z t].
    + destruct a; discriminate H.
    + apply starts_with_cons. auto.
Qed.

(** The directory of a file below [root/c...] is below [root]. *)
Lemma dirname_below (root : string) (c : ascii) (rest name : string) :
  c <> slash ->
  starts_with (root +:+ String "/" (String c ""))
    (dirname ((root +:+ String "/" (String c rest)) +:+ String "/" name)) = true.
Proof.
  intros Hc. unfold dirname.
  destruct (split_last_after (root +:+ String "/" (String c rest)) name)
    as (h & b & -> & Hh).
  assert (starts_with (root +:+ String "/" (String c "")) h = true) as Hp.
  { eapply starts_with_trans; [|exact Hh].
    rewrite append_assoc, starts_with_app. simpl.
    destruct (ascii_dec "/" "/"); [|congruence].
    destruct (ascii_dec c c); [reflexivity|congruence]. }
  assert (root +:+ String "/" (String c "") = (root +:+ "/") +:+ String c "") as Eq
    by (rewrite append_assoc; reflexivity).
  rewrite Eq in *. pose proof (rstrip_slash_keeps _ _ _ Hc Hp) as Hr.
  destruct (rstrip_slash h); [exact Hp|exact Hr].
Qed.

Lemma put_file_outside_ancestors (fs : FS) (p c k : string) :
  ~ In k (ancestors (dirname p)) -> k <> p -> put_file fs p c !! k = fs !! k.
Proof.
  intros Hk Hne. unfold put_file.
  set (fs' := fold_left mkdir_if_absent (ancestors (dirname p)) fs).
  assert (fs' !! k = fs !! k) as Hk' by (apply mkdirs_if_absent_other, Hk).
  destruct (fs' !! p) as [[|c0]|]; [exact Hk'| |];
    (rewrite lookup_insert_ne; [exact Hk'|congruence]).
Qed.

Lemma put_files_outside (P k : string) (c : ascii) (rest : string)
    (l : list (string * string)) (fs : FS) :
  in_tree k P = false -> in_tree P k = false -> c <> slash ->
  put_files (P +:+ String "/" (String c rest)) l fs !! k = fs !! k.
Proof.
  intros Ha Hb Hc. unfold put_files. revert fs.
  induction l as [|nc l IH]; intros fs; [reflexivity|].
  simpl. rewrite IH. apply put_file_outside_ancestors.
  - apply (outside_not_ancestor P k Ha Hb). apply in_tree_cases. right.
    eapply starts_with_trans;
      [|apply (dirname_below P c rest (fst nc) Hc)].
    change (String "/" (String c "")) with ("/" +:+ String c "").
    rewrite <- append_assoc. apply starts_with_app_r.
  - apply (outside_neq P k Hb). apply in_tree_cases. right.
    rewrite append_assoc, starts_with_app. reflexivity.
Qed.

Lemma after_process_outside (P k : string) (process : ToolOutcome) (fs : FS) :
  in_tree k P = false -> in_tree P k = false ->
  after_process P process fs !! k = fs !! k.
Proof.
  intros Ha Hb. unfold after_process, build_log_of.
  rewrite lookup_insert_ne
    by (apply not_eq_sym, (outside_neq P k Hb), (in_tree_below P "smithy-build.log")).
  rewrite (put_files_outside P k "g" "enerated" _ _ Ha Hb) by discriminate.
  apply (put_files_outside P k "b" "uild" _ _ Ha Hb). discriminate.
Qed.

End TreeFacts.

(* ===================================================================== *)
(** * More on the per-unit pipeline *)
(* ===================================================================== *)

Module PipelineMore.
Import Str StrFacts Path PathFacts Fs FsFacts GenerateFacts WorkspaceFacts TreeFacts.

(** ** The service-key query *)

Lemma is_service_true (t : json) : Jq.is_service t = true -> t = JStr "service".
Proof.
  destruct t; try discriminate. simpl. intros H.
  apply String.eqb_eq in H. subst. reflexivity.
Qed.

Lemma first_service_found (es : list (json * json)) (k : json) :
  Jq.first_service es = Ok k ->
  exists before v after,
    es = before ++ (k, v) :: after
    /\ Jq.field "type" v = Ok (JStr "service")
    /\ Forall (fun kv => exists t, Jq.field "type" (snd kv) = Ok t
                                   /\ Jq.is_service t = false) before.
Proof.
  induction es as [|[k0 v0] es IH]; simpl; [discriminate|].
  destruct (Jq.field "type" v0) as [t|e] eqn:E; [|discriminate].
  destruct (Jq.is_service t) eqn:Et.
  - intros [= <-]. apply is_service_true in Et. subst t.
    exists [], v0, es. split; [reflexivity|]. split; [exact E|constructor].
  - intros H. destruct (IH H) as (before & v & after & -> & Hv & Hb).
    exists ((k0, v0) :: before), v, after. split; [reflexivity|]. split; [exact Hv|].
    constructor; [|exact Hb]. exists t. auto.
Qed.

(** The key the query gives is the key of an entry of [shapes] whose type
    is ["service"], and it is the first such entry: every entry before it
    has another type, or none. *)
Theorem service_key_is_first_service (data k : json) :
  Jq.service_key data = Ok k ->
  exists shapes before v after,
    Jq.field "shapes" data = Ok shapes
    /\ Jq.entries shapes = Ok (before ++ (k, v) :: after)
    /\ Jq.field "type" v = Ok (JStr "service")
    /\ Forall (fun kv => exists t, Jq.field "type" (snd kv) = Ok t
                                   /\ Jq.is_service t = false) before.
Proof.
  unfold Jq.service_key.
  destruct (Jq.field "shapes" data) as [shapes|] eqn:E1; [|discriminate].
  destruct (Jq.entries shapes) as [es|] eqn:E2; [|discriminate].
  intros H. destruct (first_service_found es k H) as (before & v & after & -> & Hv & Hb).
  exists shapes, before, v, after. auto.
Qed.

(** [service_key_is_first_service] at the sample model. *)
Lemma service_key_is_first_service_sample :
  Jq.service_key Sample.doc = Ok (JStr "com.amazonaws.s3#AmazonS3")
  /\ exists shapes before v after,
      Jq.field "shapes" Sample.doc = Ok shapes
      /\ Jq.entries shapes = Ok (before ++ (JStr "com.amazonaws.s3#AmazonS3", v) :: after)
      /\ Jq.field "type" v = Ok (JStr "service").
Proof.
  assert (Jq.service_key Sample.doc = Ok (JStr "com.amazonaws.s3#AmazonS3")) as H
    by reflexivity.
  split; [exact H|].
  destruct (service_key_is_first_service _ _ H) as (shapes & before & v & after & H1 & H2 & H3 & _).
  exists shapes, before, v, after. auto.
Defined.

Lemma first_service_none (es : list (json * json)) :
  Forall (fun kv => exists t, Jq.field "type" (snd kv) = Ok t
                              /\ Jq.is_service t = false) es ->
  Jq.first_service es = Raise StopIteration.
Proof.
  induction 1 as [|[k v] es (t & Ht & Hs) _ IH]; [reflexivity|].
  simpl in *. rewrite Ht, Hs. exact IH.
Qed.

(** ** Failures before the workspace *)

(** When the model file that was found cannot be read, or is no JSON
    text, or gives no service key that is a string, [generate] raises and
    leaves the world as it was: nothing is printed and nothing is
    created. *)
Theorem unresolved_key_leaves_world (env : Env) (sdk_id : string) (index total : nat)
    (w : World) (source_path : string) (others : list string) :
  glob_json env (files w) (Path.join INPUT_PATH sdk_id) = source_path :: others ->
  (forall text data key,
      read source_path (files w) = Ok text ->
      json_loads env text = Some data ->
      Jq.service_key data <> Ok (JStr key)) ->
  exists e, generate env sdk_id index total w = (w, Raise e).
Proof.
  intros Hglob Hno.
  unfold generate, bind, fs_get, fs_read, lift. rewrite Hglob.
  destruct (read source_path (files w)) as [text|e] eqn:E1; [|exists e; reflexivity].
  destruct (json_loads env text) as [data|] eqn:E2; [|eexists; reflexivity].
  destruct (Jq.service_key data) as [kv|e] eqn:E3; [|exists e; reflexivity].
  destruct (as_str kv) as [key|e] eqn:E4; [|exists e; reflexivity].
  apply as_str_Ok in E4. subst kv. destruct (Hno text data key eq_refl E2 E3).
Qed.

(** [unresolved_key_leaves_world] at the sample tree whose model file is
    no JSON text. *)
Lemma unresolved_key_leaves_world_sample :
  glob_json (Sample.env 0 "") (files Sample.world_bad_json) (Path.join INPUT_PATH "s3")
  = [Sample.source]
  /\ exists e, generate (Sample.env 0 "") "s3" 1 3 Sample.world_bad_json
               = (Sample.world_bad_json, Raise e).
Proof.
  split; [reflexivity|].
  apply (unresolved_key_leaves_world (Sample.env 0 "") "s3" 1 3 Sample.world_bad_json
           Sample.source []); [reflexivity|].
  intros text data key Hr Hl. vm_compute in Hr. injection Hr as <-.
  vm_compute in Hl. discriminate Hl.
Defined.

(** A model whose shapes all have a type and none the type ["service"]
    ends the pipeline with [StopIteration], before anything is printed or
    created. *)
Theorem model_without_service_stops (env : Env) (sdk_id : string) (index total : nat)
    (w : World) (source_path text : string) (others : list string)
    (data shapes : json) (es : list (json * json)) :
  glob_json env (files w) (Path.join INPUT_PATH sdk_id) = source_path :: others ->
  read source_path (files w) = Ok text ->
  json_loads env text = Some data ->
  Jq.field "shapes" data = Ok shapes ->
  Jq.entries shapes = Ok es ->
  Forall (fun kv => exists t, Jq.field "type" (snd kv) = Ok t
                              /\ Jq.is_service t = false) es ->
  generate env sdk_id index total w = (w, Raise StopIteration).
Proof.
  intros Hglob Hr Hl Hs He Hes.
  unfold generate, bind, fs_get, fs_read, lift. rewrite Hglob, Hr, Hl.
  unfold Jq.service_key. rewrite Hs, He, (first_service_none es Hes). reflexivity.
Qed.

(** ** What a run touches *)

Lemma output_path_in_tree (sdk_id : string) :
  in_tree (output_path_of sdk_id) (output_path_of sdk_id) = true.
Proof. apply in_tree_self. Qed.

Lemma model_path_in_tree (sdk_id : string) :
  in_tree (output_path_of sdk_id) (model_path_of sdk_id) = true.
Proof. exact (in_tree_below (output_path_of sdk_id) "model"). Qed.

Lemma build_path_in_tree (sdk_id : string) :
  in_tree (output_path_of sdk_id) (build_path_of sdk_id) = true.
Proof. exact (in_tree_below (output_path_of sdk_id) "build"). Qed.

Lemma build_json_path_in_tree (sdk_id : string) :
  in_tree (output_path_of sdk_id) (build_json_path_of sdk_id) = true.
Proof. exact (in_tree_below (output_path_of sdk_id) "smithy-build.json"). Qed.

Lemma build_log_in_tree (P : string) : in_tree P (build_log_of P) = true.
Proof. exact (in_tree_below P "smithy-build.log"). Qed.

Lemma errors_path_in_tree (P : string) : in_tree P (errors_path_of P) = true.
Proof. exact (in_tree_below P "errors.txt"). Qed.

Lemma model_path_below (sdk_id : string) :
  starts_with (output_path_of sdk_id +:+ "/") (model_path_of sdk_id) = true.
Proof. unfold model_path_of. rewrite starts_with_app. reflexivity. Qed.

Create HintDb workspace.
#[export] Hint Resolve output_path_in_tree model_path_in_tree build_path_in_tree
  build_json_path_in_tree build_log_in_tree errors_path_in_tree model_path_below
  : workspace.

(** One stage back in a chain of file-system states, for a name outside
    the workspace [P]. *)
Ltac outside_step P k Ha Hb :=
  match goal with
  | |- after_process _ _ _ !! _ = _ =>
      rewrite (after_process_outside P k _ _ Ha Hb)
  | E : makedirs ?q ?a = Ok ?b |- ?b !! _ = _ =>
      rewrite (makedirs_outside P k Ha Hb q a b ltac:(auto with workspace) E)
  | E : write ?q ?c ?a = Ok ?b |- ?b !! _ = _ =>
      rewrite (write_outside P k Hb q c a b ltac:(auto with workspace) E)
  | E : copy ?s ?d ?a = Ok ?b |- ?b !! _ = _ =>
      rewrite (copy_outside P k Hb s d a b ltac:(auto with workspace) E)
  | E : rmtree ?q ?a = Ok ?b |- ?b !! _ = _ =>
      rewrite (rmtree_outside P k Hb q a b ltac:(exact (build_path_in_tree _)) E)
  end.

Lemma generate_outside (env : Env) (sdk_id : string)
    (index total : nat) (w w' : World) (r : result unit) (k : string) :
  generate env sdk_id index total w = (w', r) ->
  in_tree k (output_path_of sdk_id) = false ->
  in_tree (output_path_of sdk_id) k = false ->
  files w' !! k = files w !! k.
Proof.
  intros H Ha Hb. run_all H.
  all: injection H as <- <-; cbn [files].
  all: repeat outside_step (output_path_of sdk_id) k Ha Hb.
  all: reflexivity.
Qed.



(** [model_without_service_stops] at a model with two shapes, neither a
    service. *)
Lemma model_without_service_stops_sample :
  Jq.entries (JObj [("com.amazonaws.s3#Bucket", JObj [("type", JStr "structure")]);
                    ("com.amazonaws.s3#BucketName", JObj [("type", JStr "string")])])
  = Ok [(JStr "com.amazonaws.s3#Bucket", JObj [("type", JStr "structure")]);
        (JStr "com.amazonaws.s3#BucketName", JObj [("type", JStr "string")])]
  /\ generate SampleMore.env_no_service "s3" 1 3 Sample.world
     = (Sample.world, Raise StopIteration).
Proof.
  split; [reflexivity|].
  apply (model_without_service_stops SampleMore.env_no_service "s3" 1 3 Sample.world
           Sample.source "S3" [] SampleMore.doc_no_service
           (JObj [("com.amazonaws.s3#Bucket", JObj [("type", JStr "structure")]);
                  ("com.amazonaws.s3#BucketName", JObj [("type", JStr "string")])])
           [(JStr "com.amazonaws.s3#Bucket", JObj [("type", JStr "structure")]);
            (JStr "com.amazonaws.s3#BucketName", JObj [("type", JStr "string")])]);
    try reflexivity.
  repeat constructor; eexists; split; reflexivity.
Defined.

(** ** What a run removes *)

Lemma write_keeps_some (q c : string) (a b : FS) (k : string) :
  write q c a = Ok b -> is_Some (a !! k) -> is_Some (b !! k).
Proof.
  intros H Hk. apply write_spec in H as [-> _].
  destruct (decide (q = k)) as [->|Hne].
  - rewrite lookup_insert_eq. eauto.
  - rewrite lookup_insert_ne by exact Hne. exact Hk.
Qed.

Lemma makedirs_keeps_some (q : string) (a b : FS) (k : string) :
  makedirs q a = Ok b -> is_Some (a !! k) -> is_Some (b !! k).
Proof.
  intros H [v Hk]. apply makedirs_spec in H as (Hsub & _). exists v.
  eapply lookup_weaken; eassumption.
Qed.

Lemma copy_keeps_some (src dst : string) (a b : FS) (k : string) :
  copy src dst a = Ok b -> is_Some (a !! k) -> is_Some (b !! k).
Proof. intros H. apply copy_spec in H as (c & _ & H). eapply write_keeps_some, H. Qed.

Lemma put_file_keeps_some (fs : FS) (p c k : string) :
  is_Some (fs !! k) -> is_Some (put_file fs p c !! k).
Proof.
  intros [v Hk]. unfold put_file.
  set (fs' := fold_left mkdir_if_absent (ancestors (dirname p)) fs).
  assert (fs' !! k = Some v) as Hk' by (apply mkdirs_if_absent_old, Hk).
  destruct (fs' !! p) as [[|c0]|]; [eauto| |];
    (destruct (decide (p = k)) as [->|Hne];
     [rewrite lookup_insert_eq; eauto|rewrite lookup_insert_ne by exact Hne; eauto]).
Qed.

Lemma put_files_keeps_some (root : string) (l : list (string * string)) (fs : FS) (k : string) :
  is_Some (fs !! k) -> is_Some (put_files root l fs !! k).
Proof.
  unfold put_files. revert fs. induction l as [|nc l IH]; intros fs Hk; [exact Hk|].
  simpl. apply IH, put_file_keeps_some, Hk.
Qed.

Lemma after_process_keeps_some (P : string) (process : ToolOutcome) (fs : FS) (k : string) :
  is_Some (fs !! k) -> is_Some (after_process P process fs !! k).
Proof.
  intros Hk. unfold after_process.
  destruct (decide (build_log_of P = k)) as [->|Hne].
  - rewrite lookup_insert_eq. eauto.
  - rewrite lookup_insert_ne by exact Hne. do 2 apply put_files_keeps_some. exact Hk.
Qed.

Lemma rmtree_keeps_some (q : string) (a b : FS) (k : string) :
  rmtree q a = Ok b -> in_tree q k = false -> is_Some (a !! k) -> is_Some (b !! k).
Proof. intros H Hq Hk. apply rmtree_spec in H as [_ H]. rewrite H, Hq. exact Hk. Qed.

(** One stage forward in a chain of file-system states, for a name that is
    there. *)
Ltac keeps_step Hbuild :=
  match goal with
  | E : makedirs _ ?a = Ok ?b, H : is_Some (?a !! _) |- _ =>
      apply (makedirs_keeps_some _ _ _ _ E) in H; clear E
  | E : write _ _ ?a = Ok ?b, H : is_Some (?a !! _) |- _ =>
      apply (write_keeps_some _ _ _ _ _ E) in H; clear E
  | E : copy _ _ ?a = Ok ?b, H : is_Some (?a !! _) |- _ =>
      apply (copy_keeps_some _ _ _ _ _ E) in H; clear E
  | E : rmtree _ ?a = Ok ?b, H : is_Some (?a !! _) |- _ =>
      apply (rmtree_keeps_some _ _ _ _ E Hbuild) in H; clear E
  | E : rmtree _ (after_process ?P ?t ?a) = _, H : is_Some (?a !! _) |- _ =>
      apply (after_process_keeps_some P t) in H
  | E : write _ _ (after_process ?P ?t ?a) = _, H : is_Some (?a !! _) |- _ =>
      apply (after_process_keeps_some P t) in H
  | H : is_Some (?a !! _) |- is_Some (after_process ?P ?t ?a !! _) =>
      apply (after_process_keeps_some P t) in H
  end.



End PipelineMore.

(* ===================================================================== *)
(** * The workspace a completed run leaves *)
(* ===================================================================== *)

Module WorkspaceMore.
Import Str StrFacts Path PathFacts Fs FsFacts GenerateFacts WorkspaceFacts TreeFacts.



(** After a run that found a model file and came to its end, the directory
    [model] of the workspace holds a copy of that file under its base
    name, with the text the file had when the run began. *)
Theorem completed_run_copies_model (env : Env) (sdk_id : string) (index total : nat)
    (w w' : World) (source_path text : string) (others : list string) :
  glob_json env (files w) (Path.join INPUT_PATH sdk_id) = source_path :: others ->
  read source_path (files w) = Ok text ->
  generate env sdk_id index total w = (w', Ok tt) ->
  files w' !! Path.join (model_path_of sdk_id) (Path.basename source_path)
  = Some (File text).
Proof.
  intros Hglob Hread Hrun.
  destruct (generate_completed _ _ _ _ _ _ _ _ Hglob Hrun)
    as (text' & data & key & process & fs1 & fs2 & fs3 & fs4 & fs5 & fs6 & fs8 & mid
        & _ & _ & _ & H1 & H2 & H3 & H4 & H5 & H6 & _ & Hmid & Hrm & _).
  cbv zeta in *.
  assert (fs3 !! model_path_of sdk_id = Some Dir) as Hdir.
  { apply makedirs_spec in H2 as (_ & Hdir & _).
    apply makedirs_spec in H3 as (Hsub & _).
    eapply lookup_weaken; [|exact Hsub]. apply Hdir.
    unfold model_path_of, output_path_of, OUTPUT_PATH. discriminate. }
  assert (fs3 !! source_path = Some (File text)) as Hsrc.
  { unfold read in Hread.
    destruct (files w !! source_path) as [[|c]|] eqn:E; try discriminate.
    injection Hread as ->.
    apply makedirs_spec in H1 as (S1 & _). apply makedirs_spec in H2 as (S2 & _).
    apply makedirs_spec in H3 as (S3 & _).
    eapply lookup_weaken; [|exact S3]. eapply lookup_weaken; [|exact S2].
    eapply lookup_weaken; [exact E|exact S1]. }
  pose proof (copy_target_under source_path (model_path_of sdk_id) fs3) as Hunder.
  apply copy_spec in H4 as (c & Hc & H4).
  assert (c = text) as -> by congruence.
  unfold copy_target in *. rewrite Hdir in *.
  set (target := Path.join (model_path_of sdk_id) (Path.basename source_path)) in *.
  unfold model_path_of in Hunder.
  destruct (starts_with_split _ _ Hunder) as [y Hy].
  rewrite append_assoc in Hy.
  rewrite Hy.
  rewrite (late_stages_other (output_path_of sdk_id) env fs5 fs6 fs8 (files w')
             process mid _ H6 Hmid Hrm);
    try solve [reflexivity | left; reflexivity].
  rewrite <- Hy.
  rewrite (write_other _ _ _ _ target H5).
  - apply (write_at _ _ _ _ H4).
  - rewrite Hy. unfold build_json_path_of. apply neq_app. reflexivity.
Qed.

(** [completed_run_copies_model] at the sample unit. *)
Lemma completed_run_copies_model_sample :
  glob_json (Sample.env 0 "") (files Sample.world) (Path.join INPUT_PATH "s3")
  = [Sample.source]
  /\ read Sample.source (files Sample.world) = Ok "S3"
  /\ generate (Sample.env 0 "") "s3" 1 3 Sample.world = (SampleRuns.after_success, Ok tt)
  /\ files SampleRuns.after_success !! "output/s3/model/s3-2006-03-01.json"
     = Some (File "S3").
Proof.
  assert (generate (Sample.env 0 "") "s3" 1 3 Sample.world
          = (SampleRuns.after_success, Ok tt)) as Hrun by (vm_compute; reflexivity).
  split; [reflexivity|]. split; [reflexivity|]. split; [exact Hrun|].
  exact (completed_run_copies_model (Sample.env 0 "") "s3" 1 3 Sample.world
           SampleRuns.after_success Sample.source "S3" [] eq_refl eq_refl Hrun).
Defined.

(** ** Directories that are there already *)

Lemma mkdirs_all_there (target : string) (ds : list string) (fs : FS) :
  (forall d, In d ds -> d <> "" -> fs !! d = Some Dir) ->
  mkdirs target ds fs = Ok fs.
Proof.
  induction ds as [|d ds IH]; intros H; [reflexivity|]. simpl.
  assert (mkdir_exist_ok target d fs = Ok fs) as ->.
  { unfold mkdir_exist_ok. destruct (String.eqb_spec d "") as [|Hd]; [reflexivity|].
    rewrite (H d (or_introl eq_refl) Hd). reflexivity. }
  apply IH. intros d' Hd'. apply H. right. exact Hd'.
Qed.

(** [os.makedirs(p, exist_ok=True)] can be repeated: after a call that
    succeeded, a second call succeeds too and changes nothing. *)
Theorem makedirs_again (p : string) (fs fs' : FS) :
  makedirs p fs = Ok fs' -> makedirs p fs' = Ok fs'.
Proof.
  unfold makedirs. intros H. apply mkdirs_spec in H as (_ & Hin & _).
  apply mkdirs_all_there. exact Hin.
Qed.

(** [makedirs_again] at the path of the sample unit's [build] directory. *)
Lemma makedirs_again_sample :
  exists fs', makedirs (build_path_of "s3") (files Sample.world) = Ok fs'
              /\ makedirs (build_path_of "s3") fs' = Ok fs'.
Proof.
  destruct (makedirs (build_path_of "s3") (files Sample.world)) as [fs'|e] eqn:E;
    [|vm_compute in E; discriminate E].
  exists fs'. split; [reflexivity|]. exact (makedirs_again _ _ _ E).
Defined.

End WorkspaceMore.

(* ===================================================================== *)
(** * More on the scheduler *)
(* ===================================================================== *)

Module SchedulerMore.
Import Str StrFacts Path PathFacts Fs FsFacts GenerateFacts SchedulerFacts.
Import WorkspaceFacts TreeFacts PipelineMore.

Lemma output_path_below_output (sdk_id : string) :
  in_tree OUTPUT_PATH (output_path_of sdk_id) = true.
Proof. exact (in_tree_below "output" sdk_id). Qed.

(** A name outside the tree of [output] is outside every workspace. *)
Lemma outside_output (k sdk_id : string) :
  in_tree OUTPUT_PATH k = false ->
  in_tree k (output_path_of sdk_id) = false
  /\ in_tree (output_path_of sdk_id) k = false.
Proof.
  intros Hk. split.
  - destruct (in_tree k (output_path_of sdk_id)) eqn:E; [|reflexivity].
    destruct (in_tree_comparable _ _ _ E (output_path_below_output sdk_id)) as [H|H];
      [|congruence].
    apply in_tree_cases in H as [H|H].
    + rewrite <- H, in_tree_self in Hk. discriminate.
    + apply (starts_with_has_char "/" k "" OUTPUT_PATH) in H. discriminate H.
  - destruct (in_tree (output_path_of sdk_id) k) eqn:E; [|reflexivity].
    rewrite (in_tree_trans _ _ _ (output_path_below_output sdk_id) E) in Hk.
    discriminate.
Qed.

Lemma drain_outside (env : Env) (total : nat) (rest : list (nat * string))
    (w w' : World) (r : result unit) (k : string) :
  drain env total rest w = (w', r) ->
  in_tree OUTPUT_PATH k = false -> files w' !! k = files w !! k.
Proof.
  intros H Hk. revert w H. induction rest as [|[index sdk] rest IH]; intros w H.
  - injection H as <- _. reflexivity.
  - cbn [drain] in H. unfold bind, try_ in H.
    destruct (generate env sdk index total w) as [w1 r1] eqn:G.
    rewrite (IH _ H).
    destruct (outside_output k sdk Hk) as [Ha Hb].
    exact (generate_outside _ _ _ _ _ _ _ _ G Ha Hb).
Qed.

Lemma run_tasks_outside (env : Env) (total : nat) (completion : list (nat * string))
    (w w' : World) (r : result unit) (k : string) :
  run_tasks env total completion w = (w', r) ->
  in_tree OUTPUT_PATH k = false -> files w' !! k = files w !! k.
Proof.
  intros H Hk. revert w H.
  induction completion as [|[index sdk] rest IH]; intros w H.
  - injection H as <- _. reflexivity.
  - rewrite run_tasks_cons in H.
    destruct (generate env sdk index total w) as [w1 r1] eqn:G.
    destruct (outside_output k sdk Hk) as [Ha Hb].
    pose proof (generate_outside _ _ _ _ _ _ _ _ G Ha Hb) as Hg.
    destruct r1 as [[]|e]; [rewrite (IH _ H); exact Hg|].
    destruct (is_Exception e).
    + rewrite (IH _ H). exact Hg.
    + destruct (drain env total rest w1) as [w2 r2] eqn:D.
      pose proof (drain_outside _ _ _ _ _ _ _ D Hk) as Hd.
      destruct r2 as [[]|e2]; injection H as <- _; congruence.
Qed.



(** The workspaces of two units with different names lie apart. *)
Lemma workspaces_apart (a b : string) :
  is_name b = true -> a <> b ->
  in_tree (output_path_of a) (output_path_of b) = false.
Proof.
  intros Hb Hne. unfold is_name in Hb. apply andb_true_iff in Hb as [_ Hb].
  apply negb_true_iff in Hb.
  unfold output_path_of. rewrite in_tree_app.
  destruct (in_tree ("/" +:+ a) ("/" +:+ b)) eqn:E; [|reflexivity].
  apply in_tree_cases in E as [E|E].
  - apply (inj (String.app "/")) in E. exfalso. apply Hne. symmetry. exact E.
  - change (("/" +:+ a) +:+ "/") with (String "/" (a +:+ "/")) in E.
    apply (starts_with_cons "/" "/" (a +:+ "/") b) in E as [_ E].
    apply (starts_with_has_char "/" a "" b) in E.
    unfold slash in Hb. congruence.
Qed.



End SchedulerMore.

(* ===================================================================== *)
(** * A run in a fresh workspace comes to its end *)
(* ===================================================================== *)

Module Progress.
Import Str StrFacts Path PathFacts Fs FsFacts GenerateFacts WorkspaceFacts TreeFacts.
Import PipelineMore.

Lemma split_last_none (s : string) : has_char slash s = false -> split_last s = None.
Proof.
  induction s as [|c s IH]; [reflexivity|]. simpl.
  destruct (ascii_dec c slash); [discriminate|]. intros H. rewrite (IH H). reflexivity.
Qed.

Lemma split_last_child (a leaf : string) :
  has_char slash leaf = false ->
  split_last (a +:+ String "/" leaf) = Some (a +:+ "/", leaf).
Proof.
  intros H. induction a as [|c a IH].
  - simpl. rewrite (split_last_none _ H). reflexivity.
  - rewrite !append_cons. simpl. rewrite IH. reflexivity.
Qed.

Lemma rstrip_slash_snoc_slash (a : string) : rstrip_slash (a +:+ "/") = rstrip_slash a.
Proof.
  induction a as [|c a IH]; [reflexivity|].
  rewrite append_cons. simpl. rewrite IH. reflexivity.
Qed.

Lemma rstrip_slash_no_slash (s : string) :
  has_char slash s = false -> rstrip_slash s = s.
Proof.
  induction s as [|c s IH]; [reflexivity|]. simpl.
  destruct (ascii_dec c slash); [discriminate|]. intros H. rewrite (IH H).
  destruct s; reflexivity.
Qed.

Lemma rstrip_slash_keeps_name (a s : string) :
  has_char slash s = false -> s <> "" -> rstrip_slash (a +:+ s) = a +:+ s.
Proof.
  intros Hs Hne. induction a as [|c a IH].
  - apply rstrip_slash_no_slash, Hs.
  - rewrite append_cons. simpl. rewrite IH.
    destruct (a +:+ s) eqn:E; [|reflexivity].
    destruct a; [change ("" +:+ s) with s in E; congruence
                |rewrite append_cons in E; discriminate].
Qed.

(** The directory of a file directly below [a]. *)
Lemma dirname_child (a leaf : string) :
  has_char slash leaf = false -> rstrip_slash a = a -> a <> "" ->
  dirname (a +:+ String "/" leaf) = a.
Proof.
  intros Hl Ha Hne. unfold dirname.
  rewrite (split_last_child a leaf Hl), rstrip_slash_snoc_slash, Ha.
  destruct a; [congruence|reflexivity].
Qed.

Lemma rev_app_snoc (a : string) (c : ascii) (acc : string) :
  String.rev_app (a +:+ String c "") acc = String c (String.rev_app a acc).
Proof.
  revert acc. induction a as [|x a IH]; intros acc; [reflexivity|].
  rewrite append_cons. simpl. apply IH.
Qed.

Lemma join_child (m : string) (c : ascii) (b : string) :
  c <> slash -> has_char slash b = false ->
  join (m +:+ String c "") b = (m +:+ String c "") +:+ "/" +:+ b.
Proof.
  intros Hc Hb. unfold join.
  assert (starts_with "/" b = false) as ->.
  { destruct (starts_with "/" b) eqn:E; [|reflexivity].
    destruct b as [|d b]; [discriminate|].
    apply (starts_with_cons "/" d "" b) in E as [<- _]. discriminate Hb. }
  assert (String.eqb (m +:+ String c "") "" = false) as ->
    by (destruct m; reflexivity).
  unfold ends_with_slash, String.rev. rewrite rev_app_snoc.
  destruct (ascii_dec c slash); [contradiction|reflexivity].
Qed.

Lemma write_ok (p c : string) (fs : FS) :
  fs !! p = None -> fs !! dirname p = Some Dir ->
  write p c fs = Ok (<[p := File c]> fs).
Proof.
  intros Hp Hd. unfold write. rewrite Hp, Hd.
  destruct (String.eqb (dirname p) ""); reflexivity.
Qed.

(** ** Directories on the way *)

Lemma name_parts (s : string) :
  is_name s = true -> s <> "" /\ has_char slash s = false.
Proof.
  unfold is_name. intros H. apply andb_true_iff in H as [Hne Hs].
  apply negb_true_iff in Hne, Hs. apply String.eqb_neq in Hne. auto.
Qed.

(** What lies above the workspace of a unit is the workspace or [output]. *)
Lemma above_workspace (d sdk_id : string) :
  is_name sdk_id = true -> in_tree d (output_path_of sdk_id) = true ->
  d = output_path_of sdk_id \/ d = OUTPUT_PATH.
Proof.
  intros Hname H. apply name_parts in Hname as [_ Hs].
  apply in_tree_cases in H as [H|H]; [left; symmetry; exact H|]. right.
  change (output_path_of sdk_id) with ("output/" +:+ sdk_id) in H.
  destruct (prefixes_comparable (d +:+ "/") "output/" ("output/" +:+ sdk_id) H
              (starts_with_app_r _ _)) as [C|C].
  - apply (starts_with_snoc (d +:+ "/") "output" "/") in C as [C|C].
    + apply (app_snoc_inj d "output" "/"), C.
    + apply (starts_with_has_char "/" d "" "output") in C. discriminate C.
  - apply (starts_with_snoc "output/" d "/") in C as [C|C].
    + symmetry. apply (app_snoc_inj "output" d "/"), C.
    + apply starts_with_split in C as [y ->].
      rewrite append_assoc, starts_with_app in H.
      apply (starts_with_has_char "/" y "" sdk_id) in H.
      unfold slash in Hs. congruence.
Qed.

Lemma workspace_not_above_output (sdk_id : string) :
  in_tree (output_path_of sdk_id) OUTPUT_PATH = false.
Proof.
  unfold in_tree. apply orb_false_iff. split.
  - rewrite String.eqb_sym. exact (eqb_longer OUTPUT_PATH "/" sdk_id).
  - unfold output_path_of. rewrite append_assoc.
    exact (starts_with_longer OUTPUT_PATH "/" (sdk_id +:+ "/")).
Qed.

Lemma mkdir_exist_ok_kept (target d : string) (fs fs' : FS) (k : string) :
  mkdir_exist_ok target d fs = Ok fs' -> kept_or_made k fs fs'.
Proof.
  unfold mkdir_exist_ok, kept_or_made.
  destruct (String.eqb d ""); [intros [= <-]; auto|].
  destruct (fs !! d) as [[|c]|] eqn:E; intros H; simplify_eq; auto.
  destruct (decide (d = k)) as [->|Hne].
  - right. split; [exact E|apply lookup_insert_eq].
  - left. by apply lookup_insert_ne.
Qed.

Lemma kept_refl (k : string) (a : FS) : kept_or_made k a a.
Proof. left. reflexivity. Qed.

Lemma kept_trans (k : string) (a b c : FS) :
  kept_or_made k a b -> kept_or_made k b c -> kept_or_made k a c.
Proof.
  unfold kept_or_made. intros [H1|[H1 H1']] [H2|[H2 H2']].
  - left. congruence.
  - right. split; congruence.
  - right. split; congruence.
  - congruence.
Qed.

Lemma kept_same (k : string) (a b : FS) : b !! k = a !! k -> kept_or_made k a b.
Proof. intros H. left. exact H. Qed.

Lemma kept_not_file (k : string) (a b : FS) (c : string) :
  kept_or_made k a b -> a !! k <> Some (File c) -> b !! k <> Some (File c).
Proof. intros [H|[_ H]] Ha; congruence. Qed.

Lemma mkdirs_kept (target : string) (ds : list string) (fs fs' : FS) (k : string) :
  mkdirs target ds fs = Ok fs' -> kept_or_made k fs fs'.
Proof.
  revert fs. induction ds as [|d ds IH]; intros fs H; simpl in H.
  - injection H as <-. apply kept_refl.
  - destruct (mkdir_exist_ok target d fs) as [fs1|] eqn:E; [|discriminate].
    eapply kept_trans; [exact (mkdir_exist_ok_kept _ _ _ _ k E)|apply IH, H].
Qed.

Lemma makedirs_kept (q : string) (fs fs' : FS) (k : string) :
  makedirs q fs = Ok fs' -> kept_or_made k fs fs'.
Proof. apply mkdirs_kept. Qed.

Lemma mkdirs_ok (target : string) (ds : list string) (fs : FS) :
  (forall d c, In d ds -> fs !! d <> Some (File c)) ->
  exists fs', mkdirs target ds fs = Ok fs'.
Proof.
  revert fs. induction ds as [|d ds IH]; intros fs H; [eexists; reflexivity|].
  simpl. destruct (mkdir_exist_ok target d fs) as [fs1|e] eqn:E.
  - apply IH. intros d' c Hd'.
    apply (kept_not_file d' fs fs1 c (mkdir_exist_ok_kept _ _ _ _ d' E)).
    apply H. right. exact Hd'.
  - exfalso. unfold mkdir_exist_ok in E.
    destruct (String.eqb d ""); [discriminate|].
    destruct (fs !! d) as [[|c]|] eqn:Ed; try discriminate.
    apply (H d c); [left; reflexivity|exact Ed].
Qed.

(** A directory in a workspace that no file is in the way of is made. *)
Lemma makedirs_in_workspace (sdk_id q : string) (fs : FS) :
  is_name sdk_id = true -> no_file_in_the_way sdk_id fs ->
  in_tree (output_path_of sdk_id) q = true ->
  exists fs', makedirs q fs = Ok fs' /\ no_file_in_the_way sdk_id fs'.
Proof.
  intros Hname Hfs Hq. unfold makedirs.
  destruct (mkdirs_ok q (ancestors q) fs) as [fs' H].
  { intros d c Hd. apply Hfs. apply ancestors_in_tree in Hd.
    destruct (in_tree_comparable _ _ _ Hd Hq) as [C|C]; [|right; exact C].
    destruct (above_workspace d sdk_id Hname C) as [-> | ->];
      [right; apply in_tree_self|left; reflexivity]. }
  exists fs'. split; [exact H|]. intros k c Hk.
  apply (kept_not_file k fs fs' c (mkdirs_kept _ _ _ _ k H)), Hfs, Hk.
Qed.

Lemma after_process_keeps_dir (P : string) (process : ToolOutcome) (fs : FS) (x : string) :
  String.eqb x "/smithy-build.log" = false ->
  fs !! (P +:+ x) = Some Dir -> after_process P process fs !! (P +:+ x) = Some Dir.
Proof.
  intros Hx Hd. unfold after_process, build_log_of.
  rewrite lookup_insert_ne by (apply neq_app; rewrite String.eqb_sym; exact Hx).
  do 2 apply put_files_keeps_dir. exact Hd.
Qed.

Section Fresh.
Variables (sdk_id : string) (fs0 fs1 fs2 fs3 : FS).
Hypothesis fresh : forall k, in_tree (output_path_of sdk_id) k = true -> fs0 !! k = None.
Hypothesis made1 : makedirs (output_path_of sdk_id) fs0 = Ok fs1.
Hypothesis made2 : makedirs (model_path_of sdk_id) fs1 = Ok fs2.
Hypothesis made3 : makedirs (build_path_of sdk_id) fs2 = Ok fs3.

(** After the three directories are made, a name below the workspace that
    is none of them is still free. *)
Lemma free_after_makedirs (x : string) :
  starts_with (String "/" x) "/model" = false ->
  starts_with (String "/" x) "/build" = false ->
  fs3 !! (output_path_of sdk_id +:+ String "/" x) = None.
Proof.
  intros Hm Hb.
  destruct (makedirs_spec _ _ _ made1) as (_ & _ & K1).
  destruct (makedirs_spec _ _ _ made2) as (_ & _ & K2).
  destruct (makedirs_spec _ _ _ made3) as (_ & _ & K3).
  rewrite K3 by (unfold build_path_of; rewrite starts_with_app; exact Hb).
  rewrite K2 by (unfold model_path_of; rewrite starts_with_app; exact Hm).
  rewrite K1 by apply starts_with_longer.
  apply fresh, in_tree_below.
Qed.

Lemma dirs_after_makedirs :
  fs3 !! output_path_of sdk_id = Some Dir
  /\ fs3 !! model_path_of sdk_id = Some Dir
  /\ fs3 !! build_path_of sdk_id = Some Dir.
Proof.
  destruct (makedirs_spec _ _ _ made1) as (_ & D1 & _).
  destruct (makedirs_spec _ _ _ made2) as (S2 & D2 & _).
  destruct (makedirs_spec _ _ _ made3) as (S3 & D3 & _).
  split; [|split].
  - eapply lookup_weaken; [|exact S3]. eapply lookup_weaken; [|exact S2].
    apply D1. unfold output_path_of, OUTPUT_PATH. discriminate.
  - eapply lookup_weaken; [|exact S3].
    apply D2. unfold model_path_of, output_path_of, OUTPUT_PATH. discriminate.
  - apply D3. unfold build_path_of, output_path_of, OUTPUT_PATH. discriminate.
Qed.

End Fresh.

Lemma output_path_stripped (sdk_id : string) :
  is_name sdk_id = true ->
  rstrip_slash (output_path_of sdk_id) = output_path_of sdk_id.
Proof.
  intros H. apply name_parts in H as [Hne Hs].
  apply (rstrip_slash_keeps_name "output/" sdk_id Hs Hne).
Qed.

Lemma model_path_stripped (sdk_id : string) :
  rstrip_slash (model_path_of sdk_id) = model_path_of sdk_id.
Proof.
  unfold model_path_of.
  change (output_path_of sdk_id +:+ "/" +:+ MODEL_DIRNAME)
    with (output_path_of sdk_id +:+ ("/" +:+ "model")).
  rewrite <- append_assoc.
  apply rstrip_slash_keeps_name; [reflexivity|discriminate].
Qed.

(** ** The whole run *)

Lemma generate_fresh_ok (env : Env) (sdk_id : string) (index total : nat)
    (w : World) (source_path text : string) (others : list string)
    (data : json) (key : string) :
  is_name sdk_id = true ->
  fresh_workspace sdk_id (files w) ->
  glob_json env (files w) (Path.join INPUT_PATH sdk_id) = source_path :: others ->
  read source_path (files w) = Ok text ->
  json_loads env text = Some data ->
  Jq.service_key data = Ok (JStr key) ->
  (forall fs, smithy_build env fs (output_path_of sdk_id) <> None) ->
  (forall fs command, exists status stdout stderr,
        shell env fs command = Exited status stdout stderr) ->
  exists w', generate env sdk_id index total w = (w', Ok tt).
Proof.
  intros Hname [Hout Hfresh] Hglob Hread Hload Hkey Htool Hshell.
  set (P := output_path_of sdk_id) in *.
  assert (no_file_in_the_way sdk_id (files w)) as J0.
  { intros k c [->|Hk]; [apply Hout|]. fold P in Hk. rewrite (Hfresh k Hk). discriminate. }
  destruct (makedirs_in_workspace sdk_id P (files w) Hname J0 (in_tree_self P))
    as (fs1 & H1 & J1).
  destruct (makedirs_in_workspace sdk_id (model_path_of sdk_id) fs1 Hname J1
              (model_path_in_tree sdk_id)) as (fs2 & H2 & J2).
  destruct (makedirs_in_workspace sdk_id (build_path_of sdk_id) fs2 Hname J2
              (build_path_in_tree sdk_id)) as (fs3 & H3 & J3).
  destruct (dirs_after_makedirs sdk_id _ _ _ _ H1 H2 H3) as (DP & Dmodel & Dbuild).
  pose proof (free_after_makedirs sdk_id _ _ _ _ Hfresh H1 H2 H3) as Hfree.
  fold P in DP, Hfree.
  (* the copy *)
  assert (files w !! source_path = Some (File text)) as Hsrc0.
  { unfold read in Hread. destruct (files w !! source_path) as [[|c]|]; congruence. }
  assert (fs3 !! source_path = Some (File text)) as Hsrc.
  { apply makedirs_spec in H1 as (S1 & _). apply makedirs_spec in H2 as (S2 & _).
    apply makedirs_spec in H3 as (S3 & _).
    eapply lookup_weaken; [|exact S3]. eapply lookup_weaken; [|exact S2].
    eapply lookup_weaken; [exact Hsrc0|exact S1]. }
  set (b := basename source_path).
  assert (has_char slash b = false) as Hb by apply basename_no_slash.
  set (target := P +:+ String "/" ("model" +:+ String "/" b)).
  assert (Path.join (model_path_of sdk_id) b = target) as Hjoin.
  { unfold model_path_of. fold P.
    change (P +:+ "/" +:+ MODEL_DIRNAME) with (P +:+ ("/mode" +:+ String "l" "")).
    rewrite <- append_assoc, (join_child _ "l" b); [|discriminate|exact Hb].
    unfold target. rewrite !append_assoc. reflexivity. }
  assert (fs3 !! target = None) as Htarget by (apply Hfree; reflexivity).
  assert (copy source_path (model_path_of sdk_id) fs3 = Ok (<[target := File text]> fs3))
    as H4.
  { unfold copy, copy_target. rewrite Dmodel. fold b. rewrite Hjoin. cbv zeta.
    assert (String.eqb source_path target = false) as ->
      by (apply String.eqb_neq; intros E; rewrite E in Hsrc; congruence).
    unfold read. rewrite Hsrc. apply write_ok; [exact Htarget|].
    assert (target = model_path_of sdk_id +:+ String "/" b) as ->
      by (unfold target, model_path_of; fold P; rewrite !append_assoc; reflexivity).
    rewrite dirname_child; [exact Dmodel|exact Hb|apply model_path_stripped|].
    unfold model_path_of, output_path_of, OUTPUT_PATH. discriminate. }
  set (fs4 := <[target := File text]> fs3) in *.
  assert (forall x, String.eqb x ("/model/" +:+ b) = false ->
                    fs4 !! (P +:+ x) = fs3 !! (P +:+ x)) as K4.
  { intros x Hx. unfold fs4, target. apply lookup_insert_ne.
    apply neq_app. rewrite String.eqb_sym. exact Hx. }
  assert (dirname_P : forall leaf, has_char slash leaf = false ->
                                   dirname (P +:+ String "/" leaf) = P).
  { intros leaf Hl. apply dirname_child; [exact Hl|apply output_path_stripped, Hname|].
    unfold P, output_path_of, OUTPUT_PATH. discriminate. }
  assert (fs4 !! P = Some Dir) as DP4.
  { pose proof (K4 "" eq_refl) as E. rewrite KeyFacts.append_nil_r in E.
    rewrite E. exact DP. }
  (* the configuration *)
  assert (write (build_json_path_of sdk_id) (Json.dumps (build_json key)) fs4
          = Ok (<[build_json_path_of sdk_id := File (Json.dumps (build_json key))]> fs4))
    as H5.
  { apply write_ok.
    - unfold build_json_path_of. fold P. rewrite K4 by reflexivity.
      apply (Hfree "smithy-build.json"); reflexivity.
    - unfold build_json_path_of. fold P.
      rewrite (dirname_P "smithy-build.json" eq_refl). exact DP4. }
  set (fs5 := <[build_json_path_of sdk_id := File (Json.dumps (build_json key))]> fs4) in *.
  assert (forall x, String.eqb x ("/model/" +:+ b) = false ->
                    String.eqb x "/smithy-build.json" = false ->
                    fs5 !! (P +:+ x) = fs3 !! (P +:+ x)) as K5.
  { intros x Hx Hc. unfold fs5, build_json_path_of. fold P.
    rewrite lookup_insert_ne by (apply neq_app; rewrite String.eqb_sym; exact Hc).
    apply K4, Hx. }
  assert (fs5 !! P = Some Dir) as DP5.
  { pose proof (K5 "" eq_refl eq_refl) as E. rewrite KeyFacts.append_nil_r in E.
    rewrite E. exact DP. }
  (* the log *)
  assert (write (build_log_of P) "" fs5 = Ok (<[build_log_of P := File ""]> fs5)) as H6.
  { apply write_ok.
    - unfold build_log_of. rewrite K5 by reflexivity.
      apply (Hfree "smithy-build.log"); reflexivity.
    - unfold build_log_of. rewrite (dirname_P "smithy-build.log" eq_refl). exact DP5. }
  set (fs6 := <[build_log_of P := File ""]> fs5) in *.
  assert (forall x, String.eqb x ("/model/" +:+ b) = false ->
                    String.eqb x "/smithy-build.json" = false ->
                    String.eqb x "/smithy-build.log" = false ->
                    fs6 !! (P +:+ x) = fs3 !! (P +:+ x)) as K6.
  { intros x Hx Hc Hl. unfold fs6, build_log_of.
    rewrite lookup_insert_ne by (apply neq_app; rewrite String.eqb_sym; exact Hl).
    apply K5; assumption. }
  assert (fs6 !! P = Some Dir) as DP6.
  { pose proof (K6 "" eq_refl eq_refl eq_refl) as E. rewrite KeyFacts.append_nil_r in E.
    rewrite E. exact DP. }
  (* the build *)
  destruct (smithy_build env fs6 P) as [process|] eqn:Hprocess;
    [|destruct (Htool fs6 Hprocess)].
  set (fs7 := after_process P process fs6) in *.
  assert (fs7 !! (P +:+ "/build") = Some Dir) as Dbuild7.
  { apply after_process_keeps_dir; [reflexivity|].
    rewrite K6 by reflexivity. exact Dbuild. }
  assert (fs7 !! (P +:+ "") = Some Dir) as DP7'.
  { apply after_process_keeps_dir; [reflexivity|].
    rewrite KeyFacts.append_nil_r. exact DP6. }
  assert (fs7 !! P = Some Dir) as DP7 by (rewrite KeyFacts.append_nil_r in DP7'; exact DP7').
  assert (fs7 !! errors_path_of P = None) as Herr7.
  { unfold errors_path_of, fs7.
    rewrite (after_process_other P "/errors.txt" process fs6) by reflexivity.
    rewrite K6 by reflexivity. apply (Hfree "errors.txt"); reflexivity. }
  (* the run *)
  unfold generate, build, exec, bind, fs_get, fs_do, fs_read, lift, print, ret.
  rewrite Hglob. cbn [files trace]. rewrite Hread, Hload, Hkey. cbn [as_str files trace].
  fold P. rewrite H1. cbn [files trace]. rewrite H2. cbn [files trace].
  rewrite H3. cbn [files trace]. rewrite H4. cbn [files trace].
  rewrite H5. cbn [files trace]. rewrite H6. cbn [files trace].
  rewrite Hprocess. cbn [files trace fst snd]. fold fs7.
  destruct (returncode process =? 0)%Z eqn:Hrc; cbn [negb files trace].
  - destruct (rmtree (P +:+ "/build") fs7) as [fs9|e] eqn:Hrm.
    + eexists. reflexivity.
    + unfold rmtree in Hrm. rewrite Dbuild7 in Hrm. discriminate.
  - destruct (Hshell fs7 (Json.join "|" [ag_command (build_log_of P)]))
      as (status & stdout & stderr & Hsh).
    rewrite Hsh. cbn [files trace fst snd].
    assert (write (errors_path_of P) stdout fs7
            = Ok (<[errors_path_of P := File stdout]> fs7)) as H8.
    { apply write_ok; [exact Herr7|]. unfold errors_path_of.
      rewrite (dirname_P "errors.txt" eq_refl). exact DP7. }
    rewrite H8. cbn [files trace].
    destruct (rmtree (P +:+ "/build") (<[errors_path_of P := File stdout]> fs7))
      as [fs9|e] eqn:Hrm.
    + eexists. reflexivity.
    + unfold rmtree in Hrm. rewrite lookup_insert_ne in Hrm.
      * rewrite Dbuild7 in Hrm. discriminate.
      * unfold errors_path_of. apply neq_app. reflexivity.
Qed.


Lemma sample_world_fresh (sdk_id : string) :
  fresh_workspace sdk_id (files Sample.world).
Proof.
  unfold Sample.world. cbn [files]. split.
  - intros c. rewrite lookup_singleton_ne; discriminate.
  - intros k Hk. apply lookup_singleton_ne. intros <-.
    apply in_tree_cases in Hk as [Hk|Hk].
    + discriminate Hk.
    + apply starts_with_split in Hk as [x Hk]. discriminate Hk.
Qed.


End Progress.

(* ===================================================================== *)
(** * Outside the workspace only directories are made *)
(* ===================================================================== *)

Module OutsideMore.
Import Str StrFacts Path PathFacts Fs FsFacts GenerateFacts WorkspaceFacts TreeFacts.
Import PipelineMore Progress.

Lemma mkdir_if_absent_kept (fs : FS) (d k : string) :
  kept_or_made k fs (mkdir_if_absent fs d).
Proof.
  unfold mkdir_if_absent, kept_or_made.
  destruct (fs !! d) as [v|] eqn:E; [auto|].
  destruct (String.eqb d ""); [auto|].
  destruct (decide (d = k)) as [->|Hne].
  - right. split; [exact E|apply lookup_insert_eq].
  - left. by apply lookup_insert_ne.
Qed.

Lemma mkdirs_if_absent_kept (ds : list string) (fs : FS) (k : string) :
  kept_or_made k fs (fold_left mkdir_if_absent ds fs).
Proof.
  revert fs. induction ds as [|d ds IH]; intros fs; [apply kept_refl|].
  simpl. eapply kept_trans; [apply (mkdir_if_absent_kept fs d k)|apply IH].
Qed.

Lemma put_file_kept (fs : FS) (p c k : string) :
  k <> p -> kept_or_made k fs (put_file fs p c).
Proof.
  intros Hne. unfold put_file.
  set (fs' := fold_left mkdir_if_absent (ancestors (dirname p)) fs).
  assert (kept_or_made k fs fs') as Hk by apply mkdirs_if_absent_kept.
  destruct (fs' !! p) as [[|c0]|]; [exact Hk| |];
    (eapply kept_trans; [exact Hk|]; apply kept_same, lookup_insert_ne; congruence).
Qed.

Lemma put_files_kept (P k rest : string) (l : list (string * string)) (fs : FS) :
  in_tree P k = false ->
  kept_or_made k fs (put_files (P +:+ String "/" rest) l fs).
Proof.
  intros Hb. unfold put_files. revert fs.
  induction l as [|nc l IH]; intros fs; [apply kept_refl|].
  simpl. eapply kept_trans; [|apply IH]. apply put_file_kept.
  apply (outside_neq P k Hb). apply in_tree_cases. right.
  rewrite append_assoc, starts_with_app. reflexivity.
Qed.

Lemma after_process_kept (P k : string) (process : ToolOutcome) (fs : FS) :
  in_tree P k = false -> kept_or_made k fs (after_process P process fs).
Proof.
  intros Hb. unfold after_process, build_log_of.
  eapply kept_trans; [exact (put_files_kept P k "build" (build_files process) fs Hb)|].
  eapply kept_trans; [exact (put_files_kept P k "generated" (generated_files process) _ Hb)|].
  apply kept_same, lookup_insert_ne.
  apply not_eq_sym, (outside_neq P k Hb), (in_tree_below P "smithy-build.log").
Qed.

(** One stage back in a chain of file-system states, for a name that is
    not in the workspace [P]. *)
Ltac kept_step P k Hb :=
  match goal with
  | |- kept_or_made _ _ (after_process _ _ ?a) =>
      apply (kept_trans k _ a); [|exact (after_process_kept P k _ a Hb)]
  | E : makedirs ?q ?a = Ok ?b |- kept_or_made _ _ ?b =>
      apply (kept_trans k _ a b); [|exact (makedirs_kept q a b k E)]
  | E : write ?q ?c ?a = Ok ?b |- kept_or_made _ _ ?b =>
      apply (kept_trans k _ a b);
      [|exact (kept_same k a b (write_outside P k Hb q c a b ltac:(auto with workspace) E))]
  | E : copy ?s ?d ?a = Ok ?b |- kept_or_made _ _ ?b =>
      apply (kept_trans k _ a b);
      [|exact (kept_same k a b (copy_outside P k Hb s d a b ltac:(auto with workspace) E))]
  | E : rmtree ?q ?a = Ok ?b |- kept_or_made _ _ ?b =>
      apply (kept_trans k _ a b);
      [|exact (kept_same k a b
                 (rmtree_outside P k Hb q a b ltac:(exact (build_path_in_tree _)) E))]
  end.

Lemma generate_kept (env : Env) (sdk_id : string)
    (index total : nat) (w w' : World) (r : result unit) (k : string) :
  generate env sdk_id index total w = (w', r) ->
  in_tree (output_path_of sdk_id) k = false ->
  kept_or_made k (files w) (files w').
Proof.
  intros H Hb. run_all H.
  all: injection H as <- <-; cbn [files].
  all: repeat kept_step (output_path_of sdk_id) k Hb.
  all: apply kept_refl.
Qed.



End OutsideMore.

(* ===================================================================== *)
(** * All units in fresh workspaces *)
(* ===================================================================== *)

Module AllUnits.
Import Str StrFacts Path PathFacts Fs FsFacts GenerateFacts WorkspaceFacts TreeFacts.
Import SchedulerFacts PipelineMore SchedulerMore Progress OutsideMore.

(** A run of [generate] does not print the line of a failed task. *)
Lemma generate_prints_no_failure (env : Env) (sdk_id : string) (index total : nat)
    (w w' : World) (r : result unit) :
  generate env sdk_id index total w = (w', r) ->
  exists new,
    trace w' = trace w ++ new
    /\ forallb (fun ev => negb (is_failure ev)) new = true.
Proof.
  intros H. run_all H.
  all: injection H as <- <-; cbn [files trace]; rewrite <- ?app_assoc.
  all: first [ eexists; split; [reflexivity|]
             | exists []; split; [symmetry; apply app_nil_r|] ].
  all: reflexivity.
Qed.

Section Loop.
Variables (env : Env) (total : nat) (fs0 : FS).
Hypothesis tool_starts : forall fs path, smithy_build env fs path <> None.
Hypothesis shell_exits :
  forall fs command, exists status stdout stderr,
      shell env fs command = Exited status stdout stderr.

(** The loop over tasks with distinct units in fresh workspaces, each with
    its input in order. *)
Lemma run_tasks_all_complete (completion : list (nat * string)) (w : World) :
  List.NoDup (List.map snd completion) ->
  (forall sdk, In sdk (List.map snd completion) -> is_name sdk = true) ->
  (forall sdk fs, In sdk (List.map snd completion) ->
                  same_outside_output fs0 fs -> model_ready env fs sdk) ->
  same_outside_output fs0 (files w) ->
  (forall c, files w !! OUTPUT_PATH <> Some (File c)) ->
  (forall sdk k, In sdk (List.map snd completion) ->
                 in_tree (output_path_of sdk) k = true -> files w !! k = None) ->
  exists w' new,
    run_tasks env total completion w = (w', Ok tt)
    /\ trace w' = trace w ++ new
    /\ forallb (fun ev => negb (is_failure ev)) new = true.
Proof.
  revert w. induction completion as [|[index sdk] rest IH];
    intros w Hdup Hnames Hready Hsame Hout Hfresh.
  - exists w, []. rewrite app_nil_r. repeat split; reflexivity.
  - cbn [List.map snd] in *.
    apply NoDup_cons_iff in Hdup as [Hnotin Hdup].
    assert (exists w1 new1,
               generate env sdk index total w = (w1, Ok tt)
               /\ trace w1 = trace w ++ new1
               /\ forallb (fun ev => negb (is_failure ev)) new1 = true) as (w1 & new1 & G & Ht1 & Hn1).
    { destruct (Hready sdk (files w) (or_introl eq_refl) Hsame)
        as [Hnone|(src & others & text & data & key & Hglob & Hread & Hload & Hkey)].
      - rewrite (generate_skip _ _ _ _ _ Hnone). do 2 eexists.
        split; [reflexivity|]. split; reflexivity.
      - destruct (generate_fresh_ok env sdk index total w src text others data key
                    (Hnames sdk (or_introl eq_refl))
                    (conj Hout (fun k => Hfresh sdk k (or_introl eq_refl)))
                    Hglob Hread Hload Hkey (fun fs => tool_starts fs _) shell_exits)
          as [w1 G].
        destruct (generate_prints_no_failure _ _ _ _ _ _ _ G) as (new1 & Ht1 & Hn1).
        exists w1, new1. auto. }
    rewrite run_tasks_cons, G.
    destruct (IH w1 Hdup) as (w' & new & Hrun & Ht & Hn).
    + intros s Hs. apply Hnames. right. exact Hs.
    + intros s fs Hs. apply Hready. right. exact Hs.
    + intros k Hk. rewrite <- (Hsame k Hk).
      destruct (outside_output k sdk Hk) as [Ha Hb].
      exact (generate_outside _ _ _ _ _ _ _ _ G Ha Hb).
    + intros c. apply (kept_not_file OUTPUT_PATH (files w) (files w1) c); [|apply Hout].
      exact (generate_kept _ _ _ _ _ _ _ _ G (workspace_not_above_output sdk)).
    + intros s k Hs Hk.
      assert (sdk <> s) as Hne by (intros ->; contradiction).
      pose proof (Hnames sdk (or_introl eq_refl)) as Na.
      pose proof (Hnames s (or_intror Hs)) as Nb.
      pose proof (workspaces_apart sdk s Nb Hne) as Hab.
      pose proof (workspaces_apart s sdk Na (not_eq_sym Hne)) as Hba.
      rewrite <- (Hfresh s k (or_intror Hs) Hk).
      apply (generate_outside _ _ _ _ _ _ _ _ G).
      * destruct (in_tree k (output_path_of sdk)) eqn:E; [|reflexivity].
        rewrite (in_tree_trans _ _ _ Hk E) in Hba. discriminate.
      * destruct (in_tree (output_path_of sdk) k) eqn:E; [|reflexivity].
        destruct (in_tree_comparable _ _ _ E Hk); congruence.
    + exists w', (new1 ++ new). split; [exact Hrun|]. split.
      * rewrite Ht, Ht1, app_assoc. reflexivity.
      * rewrite forallb_app, Hn1, Hn. reflexivity.
Qed.

End Loop.



End AllUnits.
